(* ===== verification/_CoqProject ===== *)
-Q . S2P
Prelude.v
PyStr.v
Config.v
Chunk.v
Chunker.v
StableSort.v
Reranker.v
VectorStore.v
Retriever.v
Merger.v
Extractors.v
Chart.v
Ingest.v
App.v
Embedders.v
PdfUtils.v
Main.v
