(* ===== verification/Prelude.v ===== *)
(** * A verification development of RAG-DOCUMENT-INTELLIGENCE

    The repository is a retrieval-augmented question-answering pipeline over
    uploaded PDF documents, written in Python.  Build time: a PDF is turned
    into a list of "chunks" (Python dicts with a "type", "content", "page",
    "source" and type-specific keys) by four extractors
    ([src/text_extractor.py], [src/table_extractor.py], [src/image_ocr.py],
    [src/chart_metadata.py]); the [IngestionPipeline] of
    [src/ingest_pipeline.py] sequences them inside one [try] and passes
    every chunk through the [Chunker] of [src/chunker.py], which splits long
    text chunks into sentence groups with an overlap.  The Streamlit app
    ([src/app.py]) stores the chunks with the [VectorStore] of
    [src/vector_store.py] (uuid ids, one embedding batch, a chromadb
    collection).  Query time: the [Retriever] ([src/retriever.py]) asks
    the store for the nearest chunks, the [Reranker] ([src/reranker.py])
    re-scores them with a cross-encoder and keeps the best ones, the
    [MultiModalMerger] ([src/multimodal_merger.py]) renders them as one
    context string, and the app sends it to the language model and appends
    the formatted answer (or the error) to the chat history.

    ** Layout of the library (in dependency order, see _CoqProject)

    - [Prelude] (this file): Python's exceptions as the result type [py]
      with its bind notation in [py_scope]; Python's [x or d] on ints, list
      slicing [l[:k]] and [l[i:]] with negative indices, indexing that raises
      [IndexError]; the loop combinators [py_mapM] (a [for] loop whose body
      may raise) and [emit_some] (a loop that appends when a test passes);
      the hint databases [pydb] (rewriting) and [rag] (resolution).
    - [PyStr]: Python strings on ASCII text: [str.isspace],
      [str.split()] ([split_ws]), [str.split('. ')] ([split_dot_space]),
      [sep.join], [str.strip()], prefix tests and occurrence counts, and the
      word-count algebra used by the chunker.
    - [Config]: the [Config] dataclass of [src/config.py] and its field
      defaults ([__post_init__] only creates directories).
    - [Chunk]: Python values stored in chunk dicts ([pyval]), chunks as
      stdpp [gmap string pyval], dict literals ([dict_of], inserted left to
      right), the key accessors the code uses, the retrieved-chunk record,
      and the spec's chunk invariant [schema_ok].
    - [Chunker]: [Chunker.__init__], [process_chunk], [chunk_text] and
      [chunk_by_sentence].  The loop of [chunk_by_sentence] is a
      [fold_left] of [cbs_step] over the sentences with the state (chunks,
      current_chunk, current_length); the sentence-level model
      [Groups.groups] is proved simulated by it (a refinement), and the
      chunker's properties are proved on the model.
    - [StableSort], [Reranker]: [Reranker.rerank]; Python's stable
      [list.sort(key=..., reverse=True)] is the interface [StableDescSort]
      (a class), implemented by an insertion sort, and any two
      implementations agree.
    - [VectorStore]: [VectorStore.__init__], [add_chunks], [query],
      [_get_embeddings] and [clear] as explicit state passing over
      (collection, embedding client, uuid supply), with the step relation
      [vs_step] of the store's life; chromadb's [add] is modelled from the
      index contract.
    - [Retriever]: [retrieve] with its index loop; the neighbour search is
      the class [NNSearch] (the index contract) with an exact-search
      instance, and the retriever's theorems are proved against the class.
    - [Merger]: [create_context] with its headers and f-string formatting,
      and [merge_by_page]/[merge_by_type] as the [defaultdict] loop with
      Python key equality, proved equal to a reference grouping.
    - [Extractors]: [TextExtractor], [TableExtractor] and [ImageOCR] over
      an abstract PyMuPDF document, camelot and pandas (Section variables).
    - [Chart]: [ChartMetadataExtractor.extract_chart_info]; the regular
      expression [W \d+[:\.]?\s*([^\n]+)] (IGNORECASE) is a backtracking
      matcher in CPython's order of alternatives and [re.finditer] a
      fuel-bounded scan.
    - [Ingest]: [IngestionPipeline.process_document]; the [try] block is a
      state-passing function returning the chunks collected and the
      exception caught, the chunking loop runs outside it.
    - [App]: the session of [src/app.py] as a state (chat history,
      [doc_processed], the two [VectorStore] objects over one persistent
      collection) with an upload step and a question step, and the
      inductive [reachable] of the states of a session.
    - [Embedders]: [BaseEmbedder.__init__] and the [TextEmbedder],
      [TableEmbedder] and [ImageEmbedder] methods of [src/embed_*.py];
      the embeddings API, pytesseract and [Image.open] are Section
      variables, [json] is the class [JsonCodec] (dumps and loads with the
      round-trip law) with a lawful instance through stdpp's [Countable].
      Python truthiness ([py_truthy], [py_or]) and [zip] ([zip_items]) are
      written out.  None of the embedders is called by the pipeline.
    - [PdfUtils]: [PDFUtils.extract_text_by_page], [extract_images] and
      [get_page_count] over the abstract PyMuPDF document of [Extractors];
      the page dict is a [gmap Z string].
    - [Main]: the [__main__] block of [src/main.py] as a function of the
      environment, [sys.executable] and [sys.argv] returning the printed
      lines and the command given to [subprocess.run].

    ** What the theorems show (groups)

    - Chunker (C1-C7): the identity law for non-text or short chunks; for
      every text the emitted sentence groups reconstruct the sentences
      (overlap seeds removed) in order; consecutive groups overlap in the
      last [overlap] sentences; every group has at most [chunk_size]
      words or is the overlap seed plus one sentence of the text; the
      chunk fields; the error paths.  [Chunker(overlap=0)] gets overlap 50
      ([x or default]): every group of at most 50 sentences is repeated
      whole at the start of the next one.  The code's loop is related to
      the sentence-level model [Groups] by the simulation lemma
      [chunk_by_sentence_render].
    - Reranker (C8-C12): result length [min(k, n)] (Python slicing),
      non-increasing scores, top-k selection, stability on ties, and the
      [KeyError] of an unscored chunk.  [StableSort] proves that any two
      [StableDescSort] instances agree.
    - VectorStore (C13-C16): the mock-embedding round trip, the batch
      failures (one empty embedding or one non-scalar field rejects the
      whole batch) and the early return when every embedding failed.  The
      invariant of every reachable store ([vs_reachable_inv]) is a lemma.
    - Retriever (C17-C20): the zip of the aligned arrays, soundness
      against any [NNSearch] index, add-then-retrieve, and degradation to
      [[]] when the query embedding or the search fails.
    - Merger (C21-C23): the ["Content:"] count (the spec's claim holds only
      when no shown value contains the marker), the grouping equals the
      reference grouping, and an unhashable page raises [TypeError].
    - Extractors and Chart (C24-C26): tables up to the first failure;
      exactly one (distinct) OCR chunk per readable image; the chart
      chunk window is at most 200 characters each side.  That the regex
      scan's fuel is enough is the lemma [finditer_fuel_enough].
    - Ingest (C27-C31): every output chunk satisfies the schema (the type
      property); with nltk present [process_document] never raises; with
      nltk missing it raises [ImportError] (the spec says it never
      raises); a failing [fitz.open] drops the tables and OCR too; the
      order text, tables, OCR, charts when every extractor succeeds.
    - App (C32): the chat-history invariant of every reachable session
      (by rule induction on [reachable]): every question is followed by
      one reply, the error message when a stage of the chain raised.
    - Embedders (C33-C37): every text sent for an image is non-empty (the
      placeholder); with one vector per text the items are aligned with the
      images; a table serialised with [json.dumps] is embedded as its row
      lines (a round trip through the [JsonCodec] law); [embed_image_bytes]
      raises [ValueError] or [IndexError] or returns the item; without a
      real key [embed_texts] returns empty vectors instead of raising.
    - PdfUtils and Main (C38-C40): [extract_text_by_page] has
      [get_page_count] keys, page [j] under [j+1]; [extract_images] raises
      as soon as one image cannot be extracted or opened; [main]
      launches Streamlit exactly for [argv[1] == "ui"] and warns exactly
      when the key is missing.

    ** Modelling choices, bounds and fuel

    - Python ints are [Z]; Python floats are [Q] (every finite IEEE double
      is a dyadic rational; NaN and infinities are not modelled).  Strings
      are Stdlib [string] (ASCII; the non-ASCII whitespace that Python's
      [str.split()] also splits on is not modelled).
    - Exceptions are values of [py A]; [try/except Exception] is [py_catch]
      or an explicit match; every exception of the model is an [Exception].
    - External libraries (nltk, PyMuPDF, camelot, pandas, tesseract, the
      embedding and cross-encoder models, chromadb's nearest-neighbour
      search, the LLM client, the prompt template and the answer parser)
      are Section variables: functions returning [py] where they can raise.
    - Every loop of the code is a structural recursion over a finite list,
      except [re.finditer]: [Chart.scan] takes fuel, [length text + 1] is
      given, and [finditer_fuel_enough] proves that more fuel changes
      nothing, so the fuel never cuts the scan short.

    ** Not modelled

    The answer formatter, prompt template and LLM client the app imports
    are not under [src/]: the app takes them as Section variables.
    [save_chunks] (writes a JSON file), [doc.close()], [logging] calls,
    the Streamlit page layout and the process started by
    [subprocess.run] are I/O without an effect on the modelled values.
*)

From stdpp Require Export base list gmap strings.
From Stdlib Require Export ZArith Lia.

(** Python exceptions that the modelled code can raise or catch.
    [ExtError] stands for any exception raised inside an external library
    (PyMuPDF, camelot, tesseract, the HTTP client, chromadb). *)
Inductive exc : Type :=
| IndexError
| KeyError
| ValueError
| AttributeError
| ImportError
| TypeError
| ExtError.

(** A Python computation that returns an [A] or raises. *)
Inductive py (A : Type) : Type :=
| Ok (a : A)
| Raise (e : exc).
Arguments Ok {A} a.
Arguments Raise {A} e.

Definition py_bind {A B} (c : py A) (k : A -> py B) : py B :=
  match c with
  | Ok a => k a
  | Raise e => Raise e
  end.

(** [try: c  except Exception: h] *)
Definition py_catch {A} (c : py A) (h : exc -> py A) : py A :=
  match c with
  | Ok a => Ok a
  | Raise e => h e
  end.

Declare Scope py_scope.
Delimit Scope py_scope with py.
Notation "x <- c ;; k" := (py_bind c (fun x => k))
  (at level 100, c at next level, right associativity) : py_scope.
Notation "'raise' e" := (Raise e) (at level 10) : py_scope.
Open Scope py_scope.

(** [[f(x) for x in l]] where [f] may raise: the first exception wins. *)
Fixpoint py_mapM {A B} (f : A -> py B) (l : list A) : py (list B) :=
  match l with
  | [] => Ok []
  | x :: l' => y <- f x ;; ys <- py_mapM f l' ;; Ok (y :: ys)
  end.

(** Python's [x or d] on an optional int argument ([None] and [0] are
    falsy). *)
Definition py_or_int (x : option Z) (d : Z) : Z :=
  match x with
  | Some z => if Z.eqb z 0 then d else z
  | None => d
  end.

(** Python's list index normalisation for slices: a negative bound counts
    from the end, and the result is clamped to [0, len]. *)
Definition py_slice_index (n : nat) (i : Z) : nat :=
  if Z.ltb i 0 then Z.to_nat (Z.of_nat n + i) else Nat.min (Z.to_nat i) n.

(** [l[:k]] *)
Definition py_slice_to {A} (k : Z) (l : list A) : list A :=
  take (py_slice_index (length l) k) l.

(** [l[i:]] *)
Definition py_slice_from {A} (i : Z) (l : list A) : list A :=
  drop (py_slice_index (length l) i) l.

(** [l[i]] for [0 <= i], raising [IndexError] out of range. *)
Definition py_index {A} (l : list A) (i : nat) : py A :=
  match nth_error l i with
  | Some x => Ok x
  | None => Raise IndexError
  end.

(** [sum(f(x) for x in l)] on ints. *)
Definition sum_Z {A} (f : A -> Z) (l : list A) : Z :=
  fold_right (fun x acc => f x + acc)%Z 0%Z l.

(** ** Automation *)

Create Rewrite HintDb pydb.
Create HintDb rag discriminated.

(** Invert an equation between two [py] results. *)
Ltac py_inv :=
  repeat match goal with
  | H : Ok _ = Ok _ |- _ => injection H as H; subst
  | H : Ok _ = Raise _ |- _ => discriminate H
  | H : Raise _ = Ok _ |- _ => discriminate H
  | H : Raise _ = Raise _ |- _ => injection H as H; subst
  end.

(** ** Shared lemmas *)

Lemma py_bind_Ok {A B} (a : A) (k : A -> py B) : py_bind (Ok a) k = k a.
Proof. reflexivity. Qed.

Lemma py_bind_Raise {A B} e (k : A -> py B) : py_bind (Raise e) k = Raise e.
Proof. reflexivity. Qed.

#[export] Hint Rewrite @py_bind_Ok @py_bind_Raise : pydb.

Lemma py_bind_eq_Ok {A B} (c : py A) (k : A -> py B) b :
  py_bind c k = Ok b -> exists a, c = Ok a /\ k a = Ok b.
Proof. destruct c; simpl; [eauto | discriminate]. Qed.

(** A computation checked by evaluating [P] on its result only: the
    result itself (a dict, say) is never normalised. *)
Lemma py_ok_check {A} (c : py A) (P : A -> Prop) :
  match c with Ok a => P a | Raise _ => False end -> exists a, c = Ok a /\ P a.
Proof. destruct c; [eauto | done]. Qed.

Lemma py_mapM_Ok_iff {A B} (f : A -> py B) l l' :
  py_mapM f l = Ok l' <-> Forall2 (fun x y => f x = Ok y) l l'.
Proof.
  revert l'; induction l as [|x l IH]; intros l'; simpl.
  - split; [intros; py_inv; constructor | inversion 1; done].
  - split.
    + destruct (f x) eqn:Ef; simpl; [|discriminate].
      destruct (py_mapM f l) eqn:Em; simpl; intros; py_inv.
      constructor; [done | by apply IH].
    + inversion 1 as [|? y ? ys Hf Hr]; subst.
      rewrite Hf; simpl. by rewrite (proj2 (IH ys) Hr).
Qed.

Lemma py_mapM_length {A B} (f : A -> py B) l l' :
  py_mapM f l = Ok l' -> length l' = length l.
Proof. intros H%py_mapM_Ok_iff. symmetry. by eapply Forall2_length. Qed.

(** A loop over [enumerate(l, i)] that appends [y] when [f i x] is
    [Some y]. *)
Fixpoint emit_some {A B} (f : nat -> A -> option B) (i : nat) (l : list A) : list B :=
  match l with
  | [] => []
  | x :: l' =>
      match f i x with
      | Some y => y :: emit_some f (S i) l'
      | None => emit_some f (S i) l'
      end
  end.

Lemma elem_of_emit_some {A B} (f : nat -> A -> option B) i l y :
  y ∈ emit_some f i l <-> exists j x, l !! j = Some x /\ f (i + j) x = Some y.
Proof.
  revert i; induction l as [|x l IH]; intros i; simpl.
  - split; [by intros ?%elem_of_nil | intros (j & x & Hj & _); by rewrite lookup_nil in Hj].
  - assert (Hs : (exists j x', l !! j = Some x' /\ f (S i + j) x' = Some y) <->
                 (exists j x', (x :: l) !! j = Some x' /\ f (i + j) x' = Some y /\ j <> 0)).
    { split.
      - intros (j & x' & Hj & Hf). exists (S j), x'. by rewrite Nat.add_succ_r.
      - intros ([|j] & x' & Hj & Hf & Hne); [done|]. exists j, x'. by rewrite Nat.add_succ_r in Hf. }
    destruct (f i x) as [y'|] eqn:Ef; rewrite ?elem_of_cons, IH, Hs; split.
    + intros [-> | (j & x' & Hj & Hf & _)]; [exists 0, x; by rewrite Nat.add_0_r | by exists j, x'].
    + intros ([|j] & x' & Hj & Hf); simpl in Hj; simplify_eq.
      * left. rewrite Nat.add_0_r in Hf. congruence.
      * right. by exists (S j), x'.
    + intros (j & x' & Hj & Hf & _). by exists j, x'.
    + intros ([|j] & x' & Hj & Hf); simpl in Hj; simplify_eq.
      * rewrite Nat.add_0_r in Hf. congruence.
      * by exists (S j), x'.
Qed.

(** The items of [emit_some] are distinct when each records the position
    it was emitted at. *)
Lemma NoDup_emit_some {A B} (f : nat -> A -> option B) (pos : B -> nat) i l :
  (forall j x y, f j x = Some y -> pos y = j) ->
  NoDup (emit_some f i l) /\ forall y, y ∈ emit_some f i l -> i <= pos y.
Proof.
  intros Hpos. revert i; induction l as [|x l IH]; intros i; simpl.
  - split; [constructor | by intros ? ?%elem_of_nil].
  - destruct (IH (S i)) as [Hnd Hge]. destruct (f i x) as [y|] eqn:Ef.
    + apply Hpos in Ef. split.
      * constructor; [|done]. intros Hy%Hge. lia.
      * intros y' [->|Hy']%elem_of_cons; [lia|]. apply Hge in Hy'. lia.
    + split; [done|]. intros y' Hy'%Hge. lia.
Qed.

(** A loop that raises raised on one of its elements. *)
Lemma py_mapM_Raise_elem {A B} (f : A -> py B) l e :
  py_mapM f l = Raise e -> exists x, x ∈ l /\ f x = Raise e.
Proof.
  induction l as [|x l IH]; simpl; [done|].
  destruct (f x) as [y|e'] eqn:Hx; simpl.
  - destruct (py_mapM f l) eqn:Hl; simpl; [done|]. intros [= ->].
    destruct (IH eq_refl) as (x' & ? & ?). exists x'. split; [by right|done].
  - intros [= ->]. exists x. split; [by left|done].
Qed.

(** A loop whose every failure is [e] raises [e] as soon as one element
    fails. *)
Lemma py_mapM_raise {A B} (f : A -> py B) l e :
  (forall x, x ∈ l -> (exists y, f x = Ok y) \/ f x = Raise e) ->
  (exists x, x ∈ l /\ f x = Raise e) -> py_mapM f l = Raise e.
Proof.
  induction l as [|x l IH]; intros Hall (x' & Hin & Hx'); [by apply elem_of_nil in Hin|]. simpl.
  apply elem_of_cons in Hin as [->|Hin]; [by rewrite Hx'|].
  destruct (Hall x ltac:(by left)) as [[y ->] | ->]; simpl; [|done].
  rewrite IH; [done| |by exists x'].
  intros z Hz. apply Hall. by right.
Qed.

Lemma py_slice_index_nonneg n i :
  (0 <= i)%Z -> py_slice_index n i = Nat.min (Z.to_nat i) n.
Proof. intros Hi. unfold py_slice_index. destruct (Z.ltb_spec i 0); lia. Qed.

Lemma py_slice_index_neg n k :
  (0 < k)%Z -> py_slice_index n (- k) = n - Nat.min (Z.to_nat k) n.
Proof. intros Hk. unfold py_slice_index. destruct (Z.ltb_spec (- k) 0); lia. Qed.

(** [l[:k]] for [k >= 0] has [min(k, len l)] elements. *)
Lemma py_slice_to_length {A} (k : Z) (l : list A) :
  (0 <= k)%Z -> length (py_slice_to k l) = Nat.min (Z.to_nat k) (length l).
Proof.
  intros Hk. unfold py_slice_to. rewrite py_slice_index_nonneg by done.
  rewrite length_firstn. lia.
Qed.

Lemma py_slice_to_prefix {A} (k : Z) (l : list A) : py_slice_to k l `prefix_of` l.
Proof. unfold py_slice_to. apply prefix_take. Qed.

(** [l[-k:]] for [k > 0] is the suffix of [l] with [min(k, len l)]
    elements. *)
Lemma py_slice_from_neg_length {A} (k : Z) (l : list A) :
  (0 < k)%Z -> length (py_slice_from (- k) l) = Nat.min (Z.to_nat k) (length l).
Proof.
  intros Hk. unfold py_slice_from. rewrite py_slice_index_neg by done.
  rewrite length_drop. lia.
Qed.

Lemma py_slice_from_suffix {A} (i : Z) (l : list A) : py_slice_from i l `suffix_of` l.
Proof. unfold py_slice_from. apply suffix_drop. Qed.

Lemma py_slice_from_neg_all {A} (k : Z) (l : list A) :
  (Z.of_nat (length l) <= k)%Z -> py_slice_from (- k) l = l.
Proof.
  intros Hk. unfold py_slice_from, py_slice_index.
  destruct (Z.ltb_spec (- k) 0).
  - replace (Z.to_nat _) with 0 by lia. done.
  - destruct l; simpl in *; [apply drop_nil | lia].
Qed.

Lemma sum_Z_app {A} (f : A -> Z) l1 l2 : sum_Z f (l1 ++ l2) = (sum_Z f l1 + sum_Z f l2)%Z.
Proof. induction l1; simpl; [done|]. unfold sum_Z in *; simpl. lia. Qed.

Lemma sum_Z_nonneg {A} (f : A -> Z) l :
  (forall x, (0 <= f x)%Z) -> (0 <= sum_Z f l)%Z.
Proof. intros Hf. induction l; simpl; [lia|]. unfold sum_Z in *; simpl. specialize (Hf a). lia. Qed.

#[export] Hint Rewrite @sum_Z_app : pydb.
#[export] Hint Resolve py_slice_to_prefix py_slice_from_suffix : rag.
