(* ===== verification/PyStr.v ===== *)
(** * Python strings on ASCII text

    The string builtins the pipeline relies on: [str.isspace] on one
    character, [str.split()] (split on runs of whitespace, no empty
    pieces), [str.split('. ')] (the chunker's fallback sentence splitter),
    [sep.join(l)], [str.strip()] and [len(s.split())] (word count).
    The splitters are written right to left (the result for a suffix is
    extended by one character), which is structural and yields the same
    pieces as CPython's left-to-right scan: ['. '] cannot overlap itself,
    so its occurrences are the same in both directions.

    The main lemma is the word-count algebra the chunker needs:
    [split_ws (py_join " " l) = concat (map split_ws l)], hence the word
    count of a joined chunk is the sum of its sentences' word counts. *)

From S2P Require Import Prelude.
From Stdlib Require Import Ascii.
(** [c.isspace()] for an ASCII character: tab, newline, vertical tab,
    form feed, carriage return, the separators 0x1c-0x1f and space. *)
Definition is_space (c : ascii) : bool :=
  let n := nat_of_ascii c in
  ((9 <=? n) && (n <=? 13)) || ((28 <=? n) && (n <=? 32)).

(** Push the word under construction onto the list of words, unless it is
    empty. *)
Definition cons_word (w : string) (ws : list string) : list string :=
  match w with
  | EmptyString => ws
  | _ => w :: ws
  end.

(** [words_aux s = (w, ws)]: [w] is the word [s] starts with (empty when
    [s] starts with whitespace), [ws] the words after it. *)
Fixpoint words_aux (s : string) : string * list string :=
  match s with
  | EmptyString => (EmptyString, [])
  | String c s' =>
      let '(w, ws) := words_aux s' in
      if is_space c then (EmptyString, cons_word w ws) else (String c w, ws)
  end.

(** [s.split()] *)
Definition split_ws (s : string) : list string :=
  let '(w, ws) := words_aux s in cons_word w ws.

(** [len(s.split())] *)
Definition word_count (s : string) : Z := Z.of_nat (length (split_ws s)).

(** [sep.join(l)] *)
Fixpoint py_join (sep : string) (l : list string) : string :=
  match l with
  | [] => EmptyString
  | [x] => x
  | x :: l' => (x ++ sep ++ py_join sep l')%string
  end.

(** [s.split('. ')]: right-to-left, [sds_aux s = (w, ws)] with [w] the
    piece [s] starts with. *)
Fixpoint sds_aux (s : string) : string * list string :=
  match s with
  | EmptyString => (EmptyString, [])
  | String c s' =>
      match s' with
      | String d s'' =>
          if Ascii.eqb c "." && Ascii.eqb d " " then
            let '(w, ws) := sds_aux s'' in (EmptyString, w :: ws)
          else let '(w, ws) := sds_aux s' in (String c w, ws)
      | EmptyString => (String c EmptyString, [])
      end
  end.

Definition split_dot_space (s : string) : list string :=
  let '(w, ws) := sds_aux s in w :: ws.

(** [s.lstrip()], [s.rstrip()], [s.strip()] *)
Fixpoint lstrip (s : string) : string :=
  match s with
  | EmptyString => EmptyString
  | String c s' => if is_space c then lstrip s' else s
  end.

Fixpoint rstrip (s : string) : string :=
  match s with
  | EmptyString => EmptyString
  | String c s' =>
      match rstrip s' with
      | EmptyString => if is_space c then EmptyString else String c EmptyString
      | r => String c r
      end
  end.

Definition py_strip (s : string) : string := rstrip (lstrip s).

(** Truthiness of a string: [if s:]. *)
Definition str_truthy (s : string) : bool :=
  match s with EmptyString => false | _ => true end.

(** Every character is whitespace ([s.strip() == '']). *)
Fixpoint all_space (s : string) : bool :=
  match s with
  | EmptyString => true
  | String c s' => is_space c && all_space s'
  end.

(** [sum(len(s.split()) for s in l)] *)
Definition sum_words (l : list string) : Z := sum_Z word_count l.

(** ** Lemmas *)

Lemma cons_word_app w l r : cons_word w (l ++ r) = cons_word w l ++ r.
Proof. by destruct w. Qed.

Lemma words_aux_app a t ws :
  words_aux t = (EmptyString, ws) ->
  words_aux (a ++ t)%string = let '(w', ws') := words_aux a in (w', ws' ++ ws).
Proof.
  intros Ht. induction a as [|c a IH]; simpl; [done|].
  rewrite IH. destruct (words_aux a) as [w' ws'].
  destruct (is_space c); [by rewrite cons_word_app | done].
Qed.

Lemma words_aux_space c b :
  is_space c = true -> words_aux (String c b) = (EmptyString, split_ws b).
Proof. intros Hc. simpl. unfold split_ws. destruct (words_aux b). by rewrite Hc. Qed.

(** Splitting [a ++ c ++ b] on whitespace, [c] a whitespace character,
    splits [a] and [b] separately. *)
Lemma split_ws_app_space a c b :
  is_space c = true -> split_ws (a ++ String c b)%string = split_ws a ++ split_ws b.
Proof.
  intros Hc. unfold split_ws at 1.
  rewrite (words_aux_app a _ (split_ws b)) by (by apply words_aux_space).
  unfold split_ws. destruct (words_aux a). apply cons_word_app.
Qed.

Lemma split_ws_join l : split_ws (py_join " " l) = concat (map split_ws l).
Proof.
  induction l as [|x l IH]; [done|].
  destruct l as [|y l].
  - simpl. by rewrite app_nil_r.
  - transitivity (split_ws x ++ split_ws (py_join " " (y :: l))).
    + by apply (split_ws_app_space x " " (py_join " " (y :: l))).
    + rewrite IH. done.
Qed.

Lemma word_count_nonneg s : (0 <= word_count s)%Z.
Proof. unfold word_count. lia. Qed.

(** [len(" ".join(l).split())] is the sum of the pieces' word counts. *)
Lemma word_count_join l : word_count (py_join " " l) = sum_words l.
Proof.
  unfold word_count, sum_words. rewrite split_ws_join.
  induction l as [|x l IH]; [done|]. simpl.
  rewrite length_app, Nat2Z.inj_add, IH. unfold sum_Z. simpl. done.
Qed.

Lemma sum_words_nonneg l : (0 <= sum_words l)%Z.
Proof. apply sum_Z_nonneg, word_count_nonneg. Qed.

Lemma sum_words_app l1 l2 : sum_words (l1 ++ l2) = (sum_words l1 + sum_words l2)%Z.
Proof. apply sum_Z_app. Qed.

Lemma sum_words_cons x l : sum_words (x :: l) = (word_count x + sum_words l)%Z.
Proof. reflexivity. Qed.

Lemma sum_words_nil : sum_words [] = 0%Z.
Proof. reflexivity. Qed.

#[export] Hint Rewrite sum_words_app sum_words_cons sum_words_nil word_count_join : pydb.
#[export] Hint Resolve word_count_nonneg sum_words_nonneg : rag.

Lemma py_join_cons_char sep c w ws :
  py_join sep (String c w :: ws) = String c (py_join sep (w :: ws)).
Proof. by destruct ws. Qed.

Lemma sds_aux_cons2 c d s :
  sds_aux (String c (String d s)) =
  if Ascii.eqb c "." && Ascii.eqb d " " then
    let '(w, ws) := sds_aux s in (EmptyString, w :: ws)
  else let '(w, ws) := sds_aux (String d s) in (String c w, ws).
Proof. reflexivity. Qed.

Lemma sds_aux_join s : let '(w, ws) := sds_aux s in py_join ". " (w :: ws) = s.
Proof.
  induction s as [s IH] using (induction_ltof1 _ String.length).
  unfold ltof in IH. destruct s as [|c [|d s'']]; [done | done |].
  rewrite sds_aux_cons2.
  destruct (Ascii.eqb c "." && Ascii.eqb d " ") eqn:E.
  - apply andb_prop in E as [E1 E2]. apply Ascii.eqb_eq in E1, E2. subst.
    specialize (IH s''). destruct (sds_aux s'') as [w ws].
    transitivity (String "." (String " " (py_join ". " (w :: ws)))); [done|].
    rewrite IH by (simpl; lia). done.
  - specialize (IH (String d s'')). destruct (sds_aux (String d s'')) as [w ws].
    rewrite py_join_cons_char, IH by (simpl; lia). done.
Qed.

(** Round trip: [". ".join(s.split(". ")) == s]. *)
Lemma split_dot_space_join s : py_join ". " (split_dot_space s) = s.
Proof. unfold split_dot_space. pose proof (sds_aux_join s). by destruct (sds_aux s). Qed.

Lemma rstrip_empty_iff s : rstrip s = EmptyString <-> all_space s = true.
Proof.
  induction s as [|c s IH]; simpl; [done|].
  destruct (rstrip s) eqn:E.
  - rewrite (proj1 IH eq_refl), andb_true_r. by destruct (is_space c).
  - split; [done|]. intros H. apply andb_prop in H as [_ H].
    apply IH in H. discriminate.
Qed.

Lemma lstrip_all_space s : all_space (lstrip s) = all_space s.
Proof. induction s as [|c s IH]; simpl; [done|]. destruct (is_space c) eqn:E; simpl; [done|]. by rewrite E. Qed.

(** [s.strip()] is empty exactly when [s] is all whitespace. *)
Lemma py_strip_empty_iff s : py_strip s = EmptyString <-> all_space s = true.
Proof. unfold py_strip. rewrite rstrip_empty_iff. by rewrite lstrip_all_space. Qed.

(** ** Occurrences of a substring *)

(** [s.startswith(p)] *)
Fixpoint starts_with (p s : string) : bool :=
  match p, s with
  | EmptyString, _ => true
  | String c p', String d s' => Ascii.eqb c d && starts_with p' s'
  | _, _ => false
  end.

(** The number of positions of [s] where [p] starts (for a [p] that cannot
    overlap itself, such as ["Content:"], this is [s.count(p)]). *)
Fixpoint occ (p s : string) : nat :=
  match s with
  | EmptyString => 0
  | String c s' => (if starts_with p s then 1 else 0) + occ p s'
  end.

(** [c in p] for one character. *)
Fixpoint char_in (c : ascii) (p : string) : bool :=
  match p with
  | EmptyString => false
  | String d p' => Ascii.eqb c d || char_in c p'
  end.

(** The first character of [s] is not a character of [p]. *)
Definition first_not_in (p s : string) : bool :=
  match s with EmptyString => true | String c _ => negb (char_in c p) end.

(** The last character of [s] is not a character of [p]. *)
Fixpoint last_not_in (p s : string) : bool :=
  match s with
  | EmptyString => true
  | String c EmptyString => negb (char_in c p)
  | String _ s' => last_not_in p s'
  end.

Lemma starts_with_app p a b : starts_with p a = true -> starts_with p (a ++ b) = true.
Proof.
  revert p; induction a as [|c a IH]; intros [|d p]; simpl; try done.
  intros [-> H]%andb_prop. simpl. by apply IH.
Qed.

(** A match of [p] in [a ++ b] that is not a match in [a] runs into [b]. *)
Lemma starts_with_straddle p a b :
  starts_with p (a ++ b) = true -> starts_with p a = false ->
  exists c b', b = String c b' /\ char_in c p = true.
Proof.
  revert p; induction a as [|c a IH]; intros [|d p]; simpl; try done.
  - destruct b as [|c b']; [done|]. intros [Hcd _]%andb_prop _.
    exists c, b'. split; [done|]. simpl. by rewrite Ascii.eqb_sym, Hcd.
  - intros [Hdc H]%andb_prop Hf. rewrite Hdc in Hf. simpl in Hf.
    destruct (IH p H Hf) as (c' & b' & -> & Hin). exists c', b'. split; [done|]. simpl. by rewrite Hin, orb_true_r.
Qed.

Lemma occ_app_first p a b : first_not_in p b = true -> occ p (a ++ b) = occ p a + occ p b.
Proof.
  intros Hb. induction a as [|c a IH]; [done|]. simpl. rewrite IH.
  destruct (starts_with p (String c a)) eqn:E.
  - pose proof (starts_with_app _ _ b E) as E2. change (String c a +:+ b)%string with (String c (a +:+ b)) in E2. by rewrite E2.
  - destruct (starts_with p (String c (a ++ b))) eqn:E'; [|done].
    destruct (starts_with_straddle p (String c a) b E' E) as (d & b' & -> & Hin).
    simpl in Hb. by rewrite Hin in Hb.
Qed.

Lemma occ_no_head p s c p' : p = String c p' -> char_in c s = false -> occ p s = 0.
Proof.
  intros ->. induction s as [|d s IH]; [done|]. simpl. intros [Hcd Hs]%orb_false_elim.
  rewrite IH by done. by rewrite Hcd.
Qed.

Lemma last_not_in_cons p d s : last_not_in p s = false -> last_not_in (String d p) s = false.
Proof.
  induction s as [|c s IH]; [done|]. destruct s as [|c' s]; simpl; [|done].
  intros H. apply negb_false_iff in H. by rewrite H, orb_true_r.
Qed.

(** A match of [p] in [a ++ b] that is not a match in [a] starts with a
    suffix of [a], so [a]'s last character is in [p]. *)
Lemma starts_with_straddle_last p a b :
  starts_with p (a ++ b) = true -> starts_with p a = false -> a <> EmptyString -> last_not_in p a = false.
Proof.
  revert p; induction a as [|c a IH]; intros [|d p]; simpl; try done.
  intros [Hcd H]%andb_prop Hf _. rewrite Hcd in Hf. simpl in Hf.
  apply Ascii.eqb_eq in Hcd as ->. destruct a as [|c' a].
  - simpl. by rewrite Ascii.eqb_refl.
  - apply last_not_in_cons. by apply (IH p).
Qed.

Lemma occ_app_last p a b : last_not_in p a = true -> occ p (a ++ b) = occ p a + occ p b.
Proof.
  intros Ha. induction a as [|c a IH]; [done|].
  change (String c a +:+ b)%string with (String c (a +:+ b)). cbn [occ].
  assert (Hs : starts_with p (String c (a +:+ b)) = starts_with p (String c a)).
  { destruct (starts_with p (String c a)) eqn:E.
    - exact (starts_with_app _ _ b E).
    - destruct (starts_with p (String c (a +:+ b))) eqn:E'; [|done].
      change (String c (a +:+ b)) with (String c a +:+ b)%string in E'.
      pose proof (starts_with_straddle_last p _ b E' E ltac:(done)). congruence. }
  rewrite Hs. destruct a as [|c' a].
  - change (""%string +:+ b)%string with b. cbn [occ]. lia.
  - rewrite IH by done. lia.
Qed.

#[export] Hint Rewrite occ_app_first occ_app_last using reflexivity : pydb.
