(* ===== verification/Config.v ===== *)
(** * Configuration ([src/config.py])

    The [Config] dataclass: API keys read from the environment, paths,
    model names, chunking and retrieval parameters.  [config = Config()] is
    a module-level global in the source; here it is [default_config env]
    for the process environment [env], passed explicitly to the components
    that read it.  [__post_init__] only creates directories (not
    modelled). *)

From S2P Require Import Prelude.
From Stdlib Require Import QArith_base.

Record Config := mkConfig {
  OPENAI_API_KEY : string;
  PERPLEXITY_API_KEY : string;
  RAW_DOCUMENTS_PATH : string;
  PROCESSED_CHUNKS_PATH : string;
  VECTOR_DB_PATH : string;
  EMBEDDING_MODEL : string;
  LLM_MODEL : string;
  CHUNK_SIZE : Z;
  CHUNK_OVERLAP : Z;
  TOP_K : Z;
  RERANK_TOP_K : Z;
  SIMILARITY_THRESHOLD : Q;
  TESSERACT_CMD : option string
}.

(** [os.getenv(key, "")] *)
Definition getenv (env : string -> option string) (key : string) : string :=
  match env key with Some v => v | None => EmptyString end.

(** [Config()] with the dataclass defaults. *)
Definition default_config (env : string -> option string) : Config := {|
  OPENAI_API_KEY := getenv env "OPENAI_API_KEY";
  PERPLEXITY_API_KEY := getenv env "PERPLEXITY_API_KEY";
  RAW_DOCUMENTS_PATH := "data/raw_documents";
  PROCESSED_CHUNKS_PATH := "data/processed_chunks";
  VECTOR_DB_PATH := "data/vector_db";
  EMBEDDING_MODEL := "text-embedding-3-small";
  LLM_MODEL := "llama-3.1-sonar-large-128k-online";
  CHUNK_SIZE := 512;
  CHUNK_OVERLAP := 50;
  TOP_K := 5;
  RERANK_TOP_K := 3;
  SIMILARITY_THRESHOLD := 7 # 10;
  TESSERACT_CMD := None
|}.
