(* ===== verification/Chunk.v ===== *)
(** * Chunks: the dicts that flow through the pipeline

    Every stage of the source passes chunks as Python dicts with string
    keys ("type", "content", "page", "source", "chunk_index",
    "table_index", "image_index", "title", "raw_df").  A chunk is modelled
    as stdpp's [gmap string pyval], so that [{**metadata, "content": c}]
    is [<["content" := c]> metadata], [{k: v for k, v in chunk.items() if
    k != "content"}] is [delete "content" chunk], and [chunk.get(k, d)] /
    [chunk[k]] are lookups with a default or a [KeyError].  Dict values are
    the Python values the extractors store: strings, ints, floats (as [Q]),
    booleans, [None], and the nested dict of a table's [raw_df]. *)

From S2P Require Import Prelude.
From Stdlib Require Import QArith_base.

Local Set Warnings "-register-all".
Inductive pyval : Type :=
| VStr (s : string)
| VInt (z : Z)
| VFloat (q : Q)
| VBool (b : bool)
| VNone
| VDict (kvs : list (string * pyval))
| VList (l : list pyval).

Abbreviation chunk := (gmap string pyval).

(** [d.get(k, default)] *)
Definition dict_get (k : string) (d : chunk) (default : pyval) : pyval :=
  match d !! k with Some v => v | None => default end.

(** [d[k]] *)
Definition dict_getitem (k : string) (d : chunk) : py pyval :=
  match d !! k with Some v => Ok v | None => Raise KeyError end.

(** [v == s] for a string literal [s]: values of another type compare
    unequal. *)
Definition pyval_eq_str (v : pyval) (s : string) : bool :=
  match v with VStr s' => String.eqb s' s | _ => false end.

(** [{k: v for k, v in chunk.items() if k != "content"}] *)
Definition without_content (c : chunk) : chunk := delete "content" c.

(** A dict literal [{k1: v1, k2: v2, ...}]: the entries are inserted left
    to right, so a repeated key keeps its last value. *)
Definition dict_of (kvs : list (string * pyval)) : chunk :=
  fold_left (fun m kv => <[kv.1 := kv.2]> m) kvs ∅.

(** A metadata value chromadb accepts: [str], [int], [float], [bool]. *)
Definition is_scalar (v : pyval) : bool :=
  match v with VStr _ | VInt _ | VFloat _ | VBool _ => true | _ => false end.

Lemma dict_get_insert_eq k v d dflt : dict_get k (<[k := v]> d) dflt = v.
Proof. unfold dict_get. by rewrite lookup_insert_eq. Qed.

Lemma dict_get_insert_ne k k' v d dflt :
  k <> k' -> dict_get k' (<[k := v]> d) dflt = dict_get k' d dflt.
Proof. intros Hne. unfold dict_get. by rewrite lookup_insert_ne. Qed.

Lemma pyval_eq_str_spec v s : pyval_eq_str v s = true <-> v = VStr s.
Proof.
  destruct v; simpl; split; intros H; try discriminate; try congruence.
  - apply String.eqb_eq in H. by subst.
  - injection H as ->. apply String.eqb_refl.
Qed.

#[export] Hint Rewrite dict_get_insert_eq : pydb.

(** A key of a dict literal has the value of its last entry. *)
Lemma dict_of_fold_lookup kvs (m : chunk) k :
  fold_left (fun m kv => <[kv.1 := kv.2]> m) kvs m !! k =
  match last (filter (fun kv => kv.1 = k) kvs) with Some kv => Some kv.2 | None => m !! k end.
Proof.
  revert m; induction kvs as [|kv kvs IH]; intros m; [done|]. simpl. rewrite IH, filter_cons.
  case_decide as Hk.
  - rewrite last_cons. destruct (last (filter _ kvs)); simpl; [done|]. subst k. by rewrite lookup_insert_eq.
  - destruct (last (filter _ kvs)); [done|]. by rewrite lookup_insert_ne.
Qed.

Lemma dict_of_lookup kvs k :
  dict_of kvs !! k = match last (filter (fun kv => kv.1 = k) kvs) with Some kv => Some kv.2 | None => None end.
Proof. unfold dict_of. by rewrite dict_of_fold_lookup, lookup_empty. Qed.

(** The chunk schema of the spec: a [type] among the four kinds, a
    [page], a string [source] and a string [content]. *)
Definition chunk_kinds : list string := ["text"; "table"; "ocr"; "chart_metadata"].

Definition schema_ok (c : chunk) : Prop :=
  (exists t, c !! "type" = Some (VStr t) /\ t ∈ chunk_kinds) /\ is_Some (c !! "page") /\
  (exists s, c !! "source" = Some (VStr s)) /\ (exists s, c !! "content" = Some (VStr s)).

(** Solve a lookup in a dict literal with concrete keys. *)
Ltac dict_lookup := rewrite ?dict_of_lookup; simpl; try done.

(** A retrieved chunk: the dict [{'id', 'content', 'metadata', 'distance'}]
    built by [Retriever.retrieve] ([src/retriever.py], lines 20-25), to
    which [Reranker.rerank] adds ['rerank_score'] ([src/reranker.py],
    line 26).  A key that is absent is [None] here. *)
Record RetrievedChunk := mkRC {
  rc_id : string;
  rc_content : string;
  rc_metadata : chunk;
  rc_distance : option Q;
  rc_rerank_score : option Q
}.

(** [chunk['rerank_score'] = s] *)
Definition set_rerank_score (c : RetrievedChunk) (s : Q) : RetrievedChunk :=
  mkRC c.(rc_id) c.(rc_content) c.(rc_metadata) c.(rc_distance) (Some s).
