(* ===== verification/Chunker.v ===== *)
(** * The Chunker ([src/chunker.py])

    [Chunker.__init__] ([Chunker_init]), [process_chunk], [chunk_text] and
    [chunk_by_sentence].  The [for sentence in sentences] loop of
    [chunk_by_sentence] is [fold_left cbs_step] over the state record
    [cbs_state] = ([chunks], [current_chunk], [current_length]); the
    module [nltk] is a Section variable: [Raise ImportError] when
    [import nltk] fails (outside the [try]), and otherwise a
    [sent_tokenize] that may itself raise (inside the [try], which falls
    back to [text.split('. ')]).

    Module [Groups] is the sentence-level reading of the same loop (the
    emitted chunks as lists of sentences), with the chunker's properties:
    reconstruction of the sentence list, the overlap between consecutive
    groups, the word-count bound and the number of groups.  Lemma
    [chunk_by_sentence_render] carries them over to the code's loop,
    which emits exactly these groups, joined with spaces and numbered
    from 0; the properties are stated on [chunk_by_sentence]. *)

From S2P Require Import Prelude PyStr Config Chunk.

Record Chunker := mkChunker { chunk_size : Z; overlap : Z }.

(** [Chunker(chunk_size=None, overlap=None)]: [x or config.X]. *)
Definition Chunker_init (cfg : Config) (cs ov : option Z) : Chunker := {|
  chunk_size := py_or_int cs cfg.(CHUNK_SIZE);
  overlap := py_or_int ov cfg.(CHUNK_OVERLAP)
|}.

(** [range(start, stop, step)]; [step == 0] raises [ValueError]. *)
Definition py_range (start stop step : Z) : py (list Z) :=
  if Z.eqb step 0 then Raise ValueError
  else
    let n := (if Z.ltb 0 step then (stop - start + step - 1) / step
              else (start - stop - step - 1) / (- step))%Z in
    Ok (map (fun k => start + Z.of_nat k * step)%Z (seq 0 (Z.to_nat n))).

(** [l[i:j]] *)
Definition py_slice {A} (i j : Z) (l : list A) : list A :=
  let a := py_slice_index (length l) i in
  let b := py_slice_index (length l) j in
  take (b - a) (drop a l).

(** [{**metadata, "content": text, "chunk_index": idx}] *)
Definition emit (metadata : chunk) (text : string) (idx : nat) : chunk :=
  <["chunk_index" := VInt (Z.of_nat idx)]> (<["content" := VStr text]> metadata).

(** [chunk_text]: fixed-size word windows with a stride of
    [chunk_size - overlap]. *)
Definition chunk_text (self : Chunker) (text : string) (metadata : chunk) : py (list chunk) :=
  let words := split_ws text in
  starts <- py_range 0 (Z.of_nat (length words)) (self.(chunk_size) - self.(overlap))%Z ;;
  Ok (imap (fun idx i =>
        emit metadata (py_join " " (py_slice i (i + self.(chunk_size))%Z words)) idx) starts).

(** The loop state of [chunk_by_sentence]. *)
Record cbs_state := mkCbs {
  cs_chunks : list chunk;
  cs_current : list string;
  cs_length : Z
}.

Definition cbs_init : cbs_state := mkCbs [] [] 0.

(** [current_chunk[-self.overlap:] if self.overlap > 0 else []] *)
Definition overlap_seed (ov : Z) (cur : list string) : list string :=
  if Z.ltb 0 ov then py_slice_from (- ov)%Z cur else [].

(** One iteration of [for sentence in sentences:]. *)
Definition cbs_step (self : Chunker) (metadata : chunk) (st : cbs_state) (sentence : string) : cbs_state :=
  let sentence_length := word_count sentence in
  let st1 :=
    if Z.ltb self.(chunk_size) (st.(cs_length) + sentence_length)%Z && negb (bool_decide (st.(cs_current) = []))
    then
      let seed := overlap_seed self.(overlap) st.(cs_current) in
      mkCbs (st.(cs_chunks) ++ [emit metadata (py_join " " st.(cs_current)) (length st.(cs_chunks))])
            seed (sum_words seed)
    else st in
  mkCbs st1.(cs_chunks) (st1.(cs_current) ++ [sentence]) (st1.(cs_length) + sentence_length)%Z.

(** After the loop: [if current_chunk:] emit the rest. *)
Definition cbs_finish (metadata : chunk) (st : cbs_state) : list chunk :=
  match st.(cs_current) with
  | [] => st.(cs_chunks)
  | _ => st.(cs_chunks) ++ [emit metadata (py_join " " st.(cs_current)) (length st.(cs_chunks))]
  end.

Section WithNltk.
  (** [import nltk]: the module's [sent_tokenize], or the [ImportError]. *)
  Variable nltk : py (string -> py (list string)).

  (** [try: nltk.sent_tokenize(text) except Exception: text.split('. ')] *)
Definition sentences_of (text : string) : py (list string) :=
    sent_tokenize <- nltk ;;
    py_catch (sent_tokenize text) (fun _ => Ok (split_dot_space text)).

Definition chunk_by_sentence (self : Chunker) (text : string) (metadata : chunk) : py (list chunk) :=
    sentences <- sentences_of text ;;
    Ok (cbs_finish metadata (fold_left (cbs_step self metadata) sentences cbs_init)).

  (** [process_chunk]: only a "text" chunk with more than [chunk_size]
      words is split. *)
Definition process_chunk (self : Chunker) (c : chunk) : py (list chunk) :=
    if pyval_eq_str (dict_get "type" c VNone) "text" then
      content <- (match dict_get "content" c (VStr EmptyString) with
                  | VStr s => Ok s
                  | _ => Raise AttributeError
                  end) ;;
      if Z.ltb self.(chunk_size) (word_count content) then
        let metadata := without_content c in
        v <- dict_getitem "content" c ;;
        match v with
        | VStr text => chunk_by_sentence self text metadata
        | _ => Raise AttributeError
        end
      else Ok [c]
    else Ok [c].
End WithNltk.

(** ** Sentence-level reading of the loop *)

Module Groups.
  (** The loop state with the emitted chunks kept as their sentence lists. *)
Record gstate := mkG {
    g_done : list (list string);
    g_cur : list string;
    g_len : Z
  }.

Definition ginit : gstate := mkG [] [] 0.

Definition gstep (cs ov : Z) (st : gstate) (s : string) : gstate :=
    let sl := word_count s in
    let st1 :=
      if Z.ltb cs (st.(g_len) + sl)%Z && negb (bool_decide (st.(g_cur) = [])) then
        let seed := overlap_seed ov st.(g_cur) in
        mkG (st.(g_done) ++ [st.(g_cur)]) seed (sum_words seed)
      else st in
    mkG st1.(g_done) (st1.(g_cur) ++ [s]) (st1.(g_len) + sl)%Z.

Definition gfinish (st : gstate) : list (list string) :=
    match st.(g_cur) with
    | [] => st.(g_done)
    | _ => st.(g_done) ++ [st.(g_cur)]
    end.

  (** The sentence groups that [chunk_by_sentence] emits for [sents]. *)
Definition groups (cs ov : Z) (sents : list string) : list (list string) :=
    gfinish (fold_left (gstep cs ov) sents ginit).

  (** The chunks emitted for groups [gs]: joined with spaces, numbered. *)
Definition render (metadata : chunk) (gs : list (list string)) : list chunk :=
    imap (fun i g => emit metadata (py_join " " g) i) gs.

  (** *** Specification predicates on a list of groups.
      [prev] is the group before the first one ([[]] at the start). *)

Fixpoint last_group (prev : list string) (gs : list (list string)) : list string :=
    match gs with [] => prev | g :: gs' => last_group g gs' end.

  (** The sentences a group adds: the group minus its overlap seed. *)
Fixpoint fresh_parts (ov : Z) (prev : list string) (gs : list (list string)) : list (list string) :=
    match gs with
    | [] => []
    | g :: gs' => drop (length (overlap_seed ov prev)) g :: fresh_parts ov g gs'
    end.

  (** Each group starts with the overlap seed of its predecessor. *)
Fixpoint linked (ov : Z) (prev : list string) (gs : list (list string)) : Prop :=
    match gs with
    | [] => True
    | g :: gs' => overlap_seed ov prev `prefix_of` g /\ linked ov g gs'
    end.

  (** Each group has at most [cs] words, or is its seed plus one sentence. *)
Fixpoint bounded (cs ov : Z) (prev : list string) (gs : list (list string)) : Prop :=
    match gs with
    | [] => True
    | g :: gs' =>
        ((sum_words g <= cs)%Z \/ exists x, g = overlap_seed ov prev ++ [x]) /\ bounded cs ov g gs'
    end.

  (** *** Lemmas *)

Lemma overlap_seed_nil ov : overlap_seed ov [] = [].
  Proof. unfold overlap_seed. destruct (Z.ltb 0 ov); [apply drop_nil | done]. Qed.

Lemma overlap_seed_nonpos ov l : (ov <= 0)%Z -> overlap_seed ov l = [].
  Proof. intros H. unfold overlap_seed. destruct (Z.ltb_spec 0 ov); [lia | done]. Qed.

Lemma overlap_seed_pos ov l : (0 < ov)%Z -> overlap_seed ov l = py_slice_from (- ov)%Z l.
  Proof. intros H. unfold overlap_seed. destruct (Z.ltb_spec 0 ov); [done | lia]. Qed.

Lemma overlap_seed_all ov l :
    (0 < ov)%Z -> (Z.of_nat (length l) <= ov)%Z -> overlap_seed ov l = l.
  Proof. intros H Hl. rewrite overlap_seed_pos by done. by apply py_slice_from_neg_all. Qed.

Lemma overlap_seed_suffix ov l : overlap_seed ov l `suffix_of` l.
  Proof. unfold overlap_seed. destruct (Z.ltb 0 ov); [apply py_slice_from_suffix | apply suffix_nil]. Qed.

Lemma last_group_snoc prev gs g : last_group prev (gs ++ [g]) = g.
  Proof. revert prev; induction gs; simpl; auto. Qed.

Lemma fresh_parts_snoc ov prev gs g :
    fresh_parts ov prev (gs ++ [g]) =
    fresh_parts ov prev gs ++ [drop (length (overlap_seed ov (last_group prev gs))) g].
  Proof. revert prev; induction gs as [|g' gs IH]; intros prev; simpl; [done|]. by rewrite IH. Qed.

Lemma linked_snoc ov prev gs g :
    linked ov prev (gs ++ [g]) <-> linked ov prev gs /\ overlap_seed ov (last_group prev gs) `prefix_of` g.
  Proof. revert prev; induction gs as [|g' gs IH]; intros prev; simpl; [tauto|]. rewrite IH. tauto. Qed.

Lemma bounded_snoc cs ov prev gs g :
    bounded cs ov prev (gs ++ [g]) <->
    bounded cs ov prev gs /\
    ((sum_words g <= cs)%Z \/ exists x, g = overlap_seed ov (last_group prev gs) ++ [x]).
  Proof. revert prev; induction gs as [|g' gs IH]; intros prev; simpl; [tauto|]. rewrite IH. tauto. Qed.

Lemma linked_lookup ov prev gs i g g' :
    linked ov prev gs -> gs !! i = Some g -> gs !! S i = Some g' -> overlap_seed ov g `prefix_of` g'.
  Proof.
    revert prev i; induction gs as [|g0 gs IH]; intros prev [|i] Hl Hi Hi'; simpl in *; try done.
    - injection Hi as <-. destruct gs as [|g1 gs]; [done|]. simpl in Hi'. injection Hi' as <-.
      by destruct Hl as (_ & ? & _).
    - destruct Hl as [_ Hl]. by eapply IH.
  Qed.

Lemma drop_prefix_snoc {A} (p l : list A) x :
    p `prefix_of` l -> drop (length p) (l ++ [x]) = drop (length p) l ++ [x].
  Proof. intros [k ->]. rewrite <- app_assoc, !drop_app_length. done. Qed.

Local Ltac snoc_nil :=
    match goal with H : ?l ++ [_] = [] |- _ => exfalso; by destruct l end.

  Section Loop.
    Variables cs ov : Z.

    (** The loop invariant after the sentences [done] have been consumed. *)
Definition ginv (done : list string) (st : gstate) : Prop :=
      let p := last_group [] st.(g_done) in
      linked ov [] st.(g_done) /\ bounded cs ov [] st.(g_done) /\
      st.(g_len) = sum_words st.(g_cur) /\
      (st.(g_cur) = [] -> st.(g_done) = [] /\ done = []) /\
      (st.(g_cur) <> [] ->
         overlap_seed ov p `prefix_of` st.(g_cur) /\
         ((sum_words st.(g_cur) <= cs)%Z \/ exists x, st.(g_cur) = overlap_seed ov p ++ [x])) /\
      concat (fresh_parts ov [] st.(g_done)) ++ drop (length (overlap_seed ov p)) st.(g_cur) = done /\
      length st.(g_done) + (if bool_decide (st.(g_cur) = []) then 0 else 1) <= length done /\
      Forall (fun g => g <> []) st.(g_done).

Lemma ginv_init : ginv [] ginit.
    Proof.
      unfold ginv; simpl.
      repeat split; intros; try done. apply drop_nil.
    Qed.

Lemma ginv_step done st s : ginv done st -> ginv (done ++ [s]) (gstep cs ov st s).
    Proof.
      destruct st as [gs cur len].
      intros (Hl & Hb & Hlen & Hnil & Hcur & Hrec & Hcnt & Hfa); simpl in *.
      unfold gstep; simpl.
      destruct (bool_decide_reflect (cur = [])) as [E|E];
        rewrite ?andb_false_r, ?andb_true_r.
      - (* first sentence *)
        destruct (Hnil E) as [-> ->]. subst cur.
        unfold ginv; simpl. rewrite overlap_seed_nil.
        repeat split; auto; try done.
        + autorewrite with pydb in *. simpl in *. lia.
        + apply prefix_nil.
        + right. by exists s.
      - destruct (Hcur E) as [Hpre Hbd]. subst len.
        destruct (Z.ltb_spec cs (sum_words cur + word_count s)); unfold ginv; simpl.
        + (* the buffer is emitted, the seed starts the next one *)
          rewrite last_group_snoc.
          assert (Hne : overlap_seed ov cur ++ [s] <> []) by (by destruct (overlap_seed ov cur)).
          repeat split; try snoc_nil.
          * apply linked_snoc. by split.
          * apply bounded_snoc. by split.
          * autorewrite with pydb. lia.
          * by apply prefix_app_r.
          * right. by exists s.
          * rewrite fresh_parts_snoc, concat_app, drop_app_length, <- Hrec. simpl.
            by rewrite app_nil_r.
          * rewrite !length_app. simpl. rewrite bool_decide_false by done.
            try rewrite bool_decide_false in Hcnt by done. lia.
          * apply Forall_app. by split; [|constructor].
        + (* the sentence joins the buffer *)
          assert (Hne : cur ++ [s] <> []) by (by destruct cur).
          repeat split; auto; try snoc_nil.
          * autorewrite with pydb. lia.
          * by apply prefix_app_r.
          * left. autorewrite with pydb. lia.
          * rewrite drop_prefix_snoc by done. rewrite app_assoc, Hrec. done.
          * rewrite length_app. simpl. rewrite bool_decide_false by done.
            try rewrite bool_decide_false in Hcnt by done. lia.
    Qed.

Lemma ginv_fold sents : ginv sents (fold_left (gstep cs ov) sents ginit).
    Proof.
      induction sents as [|s sents IH] using rev_ind; [apply ginv_init|].
      rewrite fold_left_app. by apply ginv_step.
    Qed.

Lemma ginv_finish sents st :
      ginv sents st ->
      linked ov [] (gfinish st) /\ bounded cs ov [] (gfinish st) /\
      concat (fresh_parts ov [] (gfinish st)) = sents /\
      length (gfinish st) <= length sents /\
      Forall (fun g => g <> []) (gfinish st).
    Proof.
      destruct st as [gs cur len].
      intros (Hl & Hb & Hlen & Hnil & Hcur & Hrec & Hcnt & Hfa); simpl in *.
      unfold gfinish; simpl.
      destruct cur as [|x cur'] eqn:Ec.
      - destruct (Hnil eq_refl) as [-> ->]. repeat split; auto.
      - rewrite <- Ec in *. assert (Hne : cur <> []) by (by subst).
        destruct (Hcur Hne) as [Hpre Hbd].
        rewrite bool_decide_false in Hcnt by done.
        repeat split.
        + by apply linked_snoc.
        + by apply bounded_snoc.
        + rewrite fresh_parts_snoc, concat_app. simpl. by rewrite app_nil_r.
        + rewrite length_app. simpl. lia.
        + (* every emitted group is non-empty: only [cur] is appended, and
             it is non-empty whenever it is emitted *)
          apply Forall_app. by split; [|constructor].
    Qed.
  End Loop.
End Groups.

(** ** Properties of the chunker *)

Import Groups.

Lemma groups_props cs ov sents :
  linked ov [] (groups cs ov sents) /\ bounded cs ov [] (groups cs ov sents) /\
  concat (fresh_parts ov [] (groups cs ov sents)) = sents /\
  length (groups cs ov sents) <= length sents /\
  Forall (fun g => g <> []) (groups cs ov sents).
Proof. apply ginv_finish, ginv_fold. Qed.

(** The code's loop state and the sentence-level state agree. *)
Definition cbs_rel (metadata : chunk) (st : cbs_state) (gt : gstate) : Prop :=
  st.(cs_chunks) = render metadata gt.(g_done) /\
  st.(cs_current) = gt.(g_cur) /\ st.(cs_length) = gt.(g_len).

Lemma render_snoc metadata gs g :
  render metadata (gs ++ [g]) = render metadata gs ++ [emit metadata (py_join " " g) (length gs)].
Proof. unfold render. rewrite imap_app. simpl. by rewrite Nat.add_0_r. Qed.

Lemma length_render metadata gs : length (render metadata gs) = length gs.
Proof. apply length_imap. Qed.

Lemma cbs_step_rel self metadata st gt s :
  cbs_rel metadata st gt ->
  cbs_rel metadata (cbs_step self metadata st s) (gstep self.(chunk_size) self.(overlap) gt s).
Proof.
  destruct st as [ch cur len], gt as [gs gcur glen].
  intros (Hch & Hcur & Hlen); simpl in *; subst.
  unfold cbs_step, gstep; simpl.
  destruct (_ && _); simpl; repeat split; try done.
  cbn [cs_chunks g_done]. by rewrite render_snoc, length_render.
Qed.

Lemma cbs_fold_rel self metadata sents st gt :
  cbs_rel metadata st gt ->
  cbs_rel metadata (fold_left (cbs_step self metadata) sents st)
                   (fold_left (gstep self.(chunk_size) self.(overlap)) sents gt).
Proof.
  revert st gt; induction sents as [|s sents IH]; intros st gt H; simpl; [done|].
  by apply IH, cbs_step_rel.
Qed.

Lemma chunk_by_sentence_render nltk self text metadata sents :
  sentences_of nltk text = Ok sents ->
  chunk_by_sentence nltk self text metadata =
  Ok (render metadata (groups self.(chunk_size) self.(overlap) sents)).
Proof.
  intros Hs. unfold chunk_by_sentence. rewrite Hs. simpl. f_equal.
  destruct (cbs_fold_rel self metadata sents cbs_init ginit) as (Hch & Hcur & _);
    [done|].
  unfold groups, gfinish, cbs_finish. rewrite Hcur, Hch.
  destruct (g_cur _); [done|]. by rewrite render_snoc, length_render.
Qed.

Lemma render_lookup metadata gs i c :
  render metadata gs !! i = Some c ->
  exists g, gs !! i = Some g /\ c = emit metadata (py_join " " g) i.
Proof. unfold render. rewrite list_lookup_imap. destruct (gs !! i); simpl; [|done]. intros [= <-]. eauto. Qed.

Lemma fresh_parts_nonpos ov prev gs : (ov <= 0)%Z -> fresh_parts ov prev gs = gs.
Proof.
  intros Hov. revert prev; induction gs as [|g gs IH]; intros prev; simpl; [done|].
  by rewrite overlap_seed_nonpos, IH.
Qed.

Lemma bounded_nonpos cs ov prev gs :
  (ov <= 0)%Z -> bounded cs ov prev gs ->
  Forall (fun g => (sum_words g <= cs)%Z \/ exists x, g = [x]) gs.
Proof.
  intros Hov. revert prev; induction gs as [|g gs IH]; intros prev; simpl; [constructor|].
  rewrite overlap_seed_nonpos by done. intros [Hg Hr]. constructor; [done | eauto].
Qed.

(** C2: Reconstruction: the sentence groups emitted for [sents], each with
    its overlap seed removed, concatenate back to [sents] in order. *)
Theorem chunk_by_sentence_reconstructs nltk self text metadata sents :
  sentences_of nltk text = Ok sents ->
  exists gs, chunk_by_sentence nltk self text metadata = Ok (render metadata gs) /\
             concat (fresh_parts self.(overlap) [] gs) = sents.
Proof.
  intros Hs. eexists. split; [by apply chunk_by_sentence_render|].
  apply groups_props.
Qed.

(** C3: Overlap: every emitted group starts with the overlap seed of the
    group before it, i.e. [previous[-overlap:]] when [overlap > 0] and
    nothing otherwise. *)
Theorem chunk_by_sentence_overlap nltk self text metadata sents :
  sentences_of nltk text = Ok sents ->
  exists gs, chunk_by_sentence nltk self text metadata = Ok (render metadata gs) /\
             linked self.(overlap) [] gs.
Proof.
  intros Hs. eexists. split; [by apply chunk_by_sentence_render|].
  apply groups_props.
Qed.

(** C4: Bound: the groups emitted for the sentences [sents] of the text
    (which they reconstruct in order once each group's overlap seed is
    removed) each have at most [chunk_size] words, or are the overlap
    seed of their predecessor followed by exactly one sentence of [sents],
    the one that overflowed the buffer. *)
Theorem chunk_by_sentence_bounded nltk self text metadata sents :
  sentences_of nltk text = Ok sents ->
  exists gs, chunk_by_sentence nltk self text metadata = Ok (render metadata gs) /\
             concat (fresh_parts self.(overlap) [] gs) = sents /\
             bounded self.(chunk_size) self.(overlap) [] gs.
Proof.
  intros Hs. eexists. split; [by apply chunk_by_sentence_render|].
  destruct (groups_props self.(chunk_size) self.(overlap) sents) as (_ & Hb & Hr & _). by split.
Qed.

(** Without overlap ([overlap <= 0]) the chunks partition the
    sentences: concatenated in order they are exactly the sentence list,
    and each chunk's content has at most [chunk_size] words unless it is a
    single sentence. *)
Theorem chunk_by_sentence_no_overlap nltk self text metadata sents :
  (self.(overlap) <= 0)%Z ->
  sentences_of nltk text = Ok sents ->
  exists gs, chunk_by_sentence nltk self text metadata = Ok (render metadata gs) /\
             concat gs = sents /\
             Forall (fun g => (word_count (py_join " " g) <= self.(chunk_size))%Z \/
                              exists x, g = [x]) gs.
Proof.
  intros Hov Hs. eexists. split; [by apply chunk_by_sentence_render|].
  destruct (groups_props self.(chunk_size) self.(overlap) sents) as (_ & Hb & Hr & _).
  rewrite fresh_parts_nonpos in Hr by done. split; [done|].
  eapply Forall_impl; [by eapply bounded_nonpos|].
  intros g. by rewrite word_count_join.
Qed.

(** Count: at most one chunk per sentence, and every chunk holds at
    least one sentence. *)
Theorem chunk_by_sentence_count nltk self text metadata sents out :
  sentences_of nltk text = Ok sents ->
  chunk_by_sentence nltk self text metadata = Ok out ->
  length out <= length sents /\ (sents <> [] -> out <> []).
Proof.
  intros Hs Hc. rewrite (chunk_by_sentence_render _ _ _ _ _ Hs) in Hc. py_inv.
  destruct (groups_props self.(chunk_size) self.(overlap) sents) as (_ & _ & Hr & Hl & _).
  rewrite length_render. split; [done|].
  intros Hne Hnil. apply (f_equal length) in Hnil. rewrite length_render in Hnil.
  destruct (groups _ _ sents); [|done]. simpl in Hr. by subst.
Qed.

(** C5: Chunk fields: the [i]-th emitted chunk has ["chunk_index"] [i],
    ["content"] the space-join of its group, and every other key of the
    input chunk's metadata unchanged. *)
Theorem chunk_by_sentence_fields nltk self text metadata out i c :
  chunk_by_sentence nltk self text metadata = Ok out ->
  out !! i = Some c ->
  c !! "chunk_index" = Some (VInt (Z.of_nat i)) /\
  (exists g, c !! "content" = Some (VStr (py_join " " g))) /\
  (forall k, k <> "chunk_index" -> k <> "content" -> c !! k = metadata !! k).
Proof.
  intros Hc Hi. destruct (sentences_of nltk text) as [sents|e] eqn:Hs.
  2: { unfold chunk_by_sentence in Hc. rewrite Hs in Hc. discriminate. }
  rewrite (chunk_by_sentence_render _ _ _ _ _ Hs) in Hc.
  py_inv. apply render_lookup in Hi as (g & _ & ->). unfold emit.
  split; [by rewrite lookup_insert_eq|]. split.
  - exists g. rewrite lookup_insert_ne by done. by rewrite lookup_insert_eq.
  - intros k Hk1 Hk2. by rewrite !lookup_insert_ne by done.
Qed.

(** C1: Identity law: a chunk that is not of type "text", or whose content
    has at most [chunk_size] words, is returned unchanged as the only
    element. *)
Theorem process_chunk_identity nltk self c :
  (pyval_eq_str (dict_get "type" c VNone) "text" = false \/
   exists s, dict_get "content" c (VStr EmptyString) = VStr s /\ (word_count s <= self.(chunk_size))%Z) ->
  process_chunk nltk self c = Ok [c].
Proof.
  unfold process_chunk. intros [Ht | (s & Hs & Hw)]; [by rewrite Ht|].
  destruct (pyval_eq_str _ _); [|done]. rewrite Hs. simpl.
  destruct (Z.ltb_spec self.(chunk_size) (word_count s)); [lia | done].
Qed.

(** A long text chunk goes to [chunk_by_sentence]. *)
Lemma process_chunk_long nltk self c s :
  pyval_eq_str (dict_get "type" c VNone) "text" = true ->
  c !! "content" = Some (VStr s) ->
  (self.(chunk_size) < word_count s)%Z ->
  process_chunk nltk self c = chunk_by_sentence nltk self s (without_content c).
Proof.
  intros Ht Hc Hw. unfold process_chunk, dict_getitem. rewrite Ht.
  unfold dict_get. rewrite Hc. simpl.
  destruct (Z.ltb_spec self.(chunk_size) (word_count s)); [done|lia].
Qed.

(** A text chunk with more than [chunk_size] words is replaced by the
    sentence chunks of its content, built from the chunk's other keys. *)
Theorem process_chunk_split nltk self c s :
  pyval_eq_str (dict_get "type" c VNone) "text" = true ->
  c !! "content" = Some (VStr s) ->
  (self.(chunk_size) < word_count s)%Z ->
  process_chunk nltk self c = chunk_by_sentence nltk self s (without_content c).
Proof. apply process_chunk_long. Qed.

(** C6: Error paths of [process_chunk] on a long text chunk: a content
    that is not a string raises [AttributeError] ([.split()] on it), and a
    failing [import nltk] (outside the [try]) propagates [ImportError]. *)
Theorem process_chunk_errors nltk self c :
  pyval_eq_str (dict_get "type" c VNone) "text" = true ->
  ((exists v, c !! "content" = Some v /\ forall s, v <> VStr s) ->
   process_chunk nltk self c = Raise AttributeError) /\
  (forall s, nltk = Raise ImportError -> c !! "content" = Some (VStr s) ->
   (self.(chunk_size) < word_count s)%Z -> process_chunk nltk self c = Raise ImportError).
Proof.
  intros Ht. split.
  - intros (v & Hc & Hv). unfold process_chunk. rewrite Ht. unfold dict_get. rewrite Hc.
    destruct v; simpl; try done. by destruct (Hv s).
  - intros s Hn Hc Hw. rewrite (process_chunk_long _ _ _ s) by done.
    unfold chunk_by_sentence, sentences_of. by rewrite Hn.
Qed.

(** ** Concrete runs *)

(** An [nltk] whose [sent_tokenize] raises (e.g. the punkt data is
    missing), so that the code falls back to [text.split('. ')]. *)
Abbreviation nltk_fallback := (Ok (fun _ : string => @Raise (list string) ExtError)).

Abbreviation sample_text := "a b. c d. e f. g h"%string.

Abbreviation sample_chunk :=
  (<["type" := VStr "text"]> (<["content" := VStr sample_text]> (∅ : chunk))).

(** C7: [Chunker(chunk_size, overlap=0)] does not disable the overlap:
    [overlap or config.CHUNK_OVERLAP] turns 0 into 50, counted in
    sentences.  For every text, the emitted groups reconstruct its
    sentences, none is empty, and every group of at most 50 sentences is
    repeated whole at the start of the next group: adjacent chunks share
    sentences, where the spec says [overlap = 0] shares none. *)
Theorem chunker_overlap_zero_ignored env cs nltk text metadata sents :
  sentences_of nltk text = Ok sents ->
  (Chunker_init (default_config env) cs (Some 0%Z)).(overlap) = 50%Z /\
  exists gs,
    chunk_by_sentence nltk (Chunker_init (default_config env) cs (Some 0%Z)) text metadata
      = Ok (render metadata gs) /\
    concat (fresh_parts 50 [] gs) = sents /\
    Forall (fun g => g <> []) gs /\
    forall i g g', gs !! i = Some g -> gs !! S i = Some g' -> length g <= 50 -> g `prefix_of` g'.
Proof.
  intros Hs. assert (Hov : (Chunker_init (default_config env) cs (Some 0%Z)).(overlap) = 50%Z) by reflexivity.
  split; [done|]. eexists. split; [by apply chunk_by_sentence_render|].
  destruct (groups_props (Chunker_init (default_config env) cs (Some 0%Z)).(chunk_size)
              (Chunker_init (default_config env) cs (Some 0%Z)).(overlap) sents) as (Hl & _ & Hr & _ & Hne).
  rewrite Hov in Hl, Hr, Hne |- *. split_and!; [done|done|].
  intros i g g' Hg Hg' Hlen. rewrite <- (overlap_seed_all 50 g) by lia. by eapply linked_lookup.
Qed.

(** ** Witnesses *)

Lemma process_chunk_identity_witness :
  (pyval_eq_str (dict_get "type" (<["type" := VStr "table"]> (∅ : chunk)) VNone) "text" = false \/
   exists s, dict_get "content" (<["type" := VStr "table"]> (∅ : chunk)) (VStr EmptyString) = VStr s /\
             (word_count s <= (mkChunker 3 0).(chunk_size))%Z) /\
  process_chunk nltk_fallback (mkChunker 3 0) (<["type" := VStr "table"]> ∅) = Ok [<["type" := VStr "table"]> ∅].
Proof. split; [left; reflexivity | apply process_chunk_identity; left; reflexivity]. Defined.

Lemma process_chunk_split_witness :
  process_chunk nltk_fallback (mkChunker 3 0) sample_chunk =
  chunk_by_sentence nltk_fallback (mkChunker 3 0) sample_text (without_content sample_chunk).
Proof. apply process_chunk_split; vm_compute; reflexivity. Defined.

Lemma process_chunk_errors_witness :
  process_chunk (Raise ImportError) (mkChunker 3 0) sample_chunk = Raise ImportError.
Proof. refine (proj2 (process_chunk_errors _ (mkChunker 3 0) sample_chunk _) sample_text _ _ _); vm_compute; reflexivity. Defined.

Lemma chunk_by_sentence_reconstructs_witness :
  sentences_of nltk_fallback sample_text = Ok ["a b"; "c d"; "e f"; "g h"]%string /\
  exists gs, chunk_by_sentence nltk_fallback (mkChunker 3 1) sample_text ∅ = Ok (render ∅ gs) /\
             concat (fresh_parts 1 [] gs) = ["a b"; "c d"; "e f"; "g h"]%string.
Proof. split; [reflexivity | apply (chunk_by_sentence_reconstructs _ (mkChunker 3 1) _ _ ["a b"; "c d"; "e f"; "g h"]%string); reflexivity]. Defined.

Lemma chunk_by_sentence_overlap_witness :
  sentences_of nltk_fallback sample_text = Ok ["a b"; "c d"; "e f"; "g h"]%string /\
  exists gs, chunk_by_sentence nltk_fallback (mkChunker 3 1) sample_text ∅ = Ok (render ∅ gs) /\
             linked 1 [] gs.
Proof. split; [reflexivity | apply (chunk_by_sentence_overlap _ (mkChunker 3 1) _ _ ["a b"; "c d"; "e f"; "g h"]%string); reflexivity]. Defined.

Lemma chunk_by_sentence_bounded_witness :
  sentences_of nltk_fallback sample_text = Ok ["a b"; "c d"; "e f"; "g h"]%string /\
  exists gs, chunk_by_sentence nltk_fallback (mkChunker 3 1) sample_text ∅ = Ok (render ∅ gs) /\
             concat (fresh_parts 1 [] gs) = ["a b"; "c d"; "e f"; "g h"]%string /\
             bounded 3 1 [] gs.
Proof. split; [reflexivity | apply (chunk_by_sentence_bounded _ (mkChunker 3 1) _ _ ["a b"; "c d"; "e f"; "g h"]%string); reflexivity]. Defined.

Lemma chunk_by_sentence_no_overlap_witness :
  ((mkChunker 3 0).(overlap) <= 0)%Z /\
  exists gs, chunk_by_sentence nltk_fallback (mkChunker 3 0) sample_text ∅ = Ok (render ∅ gs) /\
             concat gs = ["a b"; "c d"; "e f"; "g h"]%string /\
             Forall (fun g => (word_count (py_join " " g) <= 3)%Z \/ exists x, g = [x]) gs.
Proof. split; [simpl; lia | apply (chunk_by_sentence_no_overlap _ (mkChunker 3 0) _ _ ["a b"; "c d"; "e f"; "g h"]%string); [simpl; lia | reflexivity]]. Defined.

Lemma chunk_by_sentence_count_witness :
  length (render ∅ (groups 3 1 ["a b"; "c d"; "e f"; "g h"]%string)) <= length ["a b"; "c d"; "e f"; "g h"]%string /\
  (["a b"; "c d"; "e f"; "g h"]%string <> [] -> render ∅ (groups 3 1 ["a b"; "c d"; "e f"; "g h"]%string) <> []).
Proof.
  apply (chunk_by_sentence_count nltk_fallback (mkChunker 3 1) sample_text ∅); [reflexivity|].
  apply chunk_by_sentence_render. reflexivity.
Defined.

Lemma chunk_by_sentence_fields_witness :
  (render ∅ (groups 3 0 ["a b"; "c d"; "e f"; "g h"]%string)) !! 1 = Some (emit ∅ "c d" 1) /\
  (emit ∅ "c d" 1) !! "chunk_index" = Some (VInt 1) /\
  (exists g, (emit ∅ "c d" 1) !! "content" = Some (VStr (py_join " " g))) /\
  (forall k, k <> "chunk_index" -> k <> "content" -> (emit ∅ "c d" 1) !! k = (∅ : chunk) !! k).
Proof.
  assert (H : (render ∅ (groups 3 0 ["a b"; "c d"; "e f"; "g h"]%string)) !! 1 = Some (emit ∅ "c d" 1))
    by (vm_compute; reflexivity).
  split; [exact H|].
  apply (chunk_by_sentence_fields nltk_fallback (mkChunker 3 0) sample_text ∅
           (render ∅ (groups 3 0 ["a b"; "c d"; "e f"; "g h"]%string)) 1); [|exact H].
  apply chunk_by_sentence_render. reflexivity.
Defined.

Lemma chunker_overlap_zero_ignored_witness :
  sentences_of nltk_fallback sample_text = Ok ["a b"; "c d"; "e f"; "g h"]%string /\
  (Chunker_init (default_config (fun _ => None)) (Some 3%Z) (Some 0%Z)).(overlap) = 50%Z.
Proof.
  split; [reflexivity|].
  exact (proj1 (chunker_overlap_zero_ignored (fun _ => None) (Some 3%Z) nltk_fallback sample_text ∅
                  ["a b"; "c d"; "e f"; "g h"]%string eq_refl)).
Defined.
