(* ===== verification/StableSort.v ===== *)
(** * Python's [list.sort(key=k, reverse=True)] on rational keys

    CPython's sort is stable, and with [reverse=True] it still keeps
    elements with equal keys in their original order.  It is modelled
    here on lists of (key, element) pairs (the keys are computed once,
    before sorting, as CPython does) by an insertion sort
    [sort_desc], which inserts each element after every earlier element
    whose key is not smaller.  The interface [StableDescSort] states what a
    stable descending sort promises (a permutation, non-increasing keys,
    equal keys in input order); [sort_desc] implements it, and any two
    implementations agree ([stable_desc_sort_unique]): the model is the
    sort Python performs, whatever algorithm computes it. *)

From S2P Require Import Prelude.
From Stdlib Require Import QArith_base Sorting.Permutation Sorting.Sorted.

(** Python's [==] on floats, as a [Decision] instance. *)
#[export] Instance Qeq_decision (a b : Q) : Decision (a == b)%Q := Qeq_dec a b.

Section Sort.
Context {A : Type}.

(** [a < b] on floats. *)
Definition qlt (a b : Q) : bool := negb (Qle_bool b a).

Fixpoint insert_desc (x : Q * A) (l : list (Q * A)) : list (Q * A) :=
  match l with
  | [] => [x]
  | y :: l' => if qlt y.1 x.1 then x :: y :: l' else y :: insert_desc x l'
  end.

Definition sort_desc (l : list (Q * A)) : list (Q * A) :=
  fold_left (fun acc x => insert_desc x acc) l [].

(** Non-increasing keys. *)
Definition desc (x y : Q * A) : Prop := (y.1 <= x.1)%Q.

(** The elements whose key equals [k] (as numbers, like Python's [==]). *)
Definition key_class (k : Q) (l : list (Q * A)) : list (Q * A) :=
  filter (fun p => (p.1 == k)%Q) l.

Lemma key_class_cons k y l :
  key_class k (y :: l) = if decide (y.1 == k)%Q then y :: key_class k l else key_class k l.
Proof. reflexivity. Qed.

Lemma key_class_self x l : key_class x.1 (x :: l) = x :: key_class x.1 l.
Proof. rewrite key_class_cons. case_decide as H; [done|]. by destruct H. Qed.

Lemma qlt_spec a b : qlt a b = true <-> (a < b)%Q.
Proof.
  unfold qlt. destruct (Qle_bool b a) eqn:E; simpl.
  - apply Qle_bool_iff in E. split; [discriminate|]. intros H. exfalso. by apply (Qlt_not_le a b).
  - split; [|done]. intros _. apply Qnot_le_lt. intros H. apply Qle_bool_iff in H. congruence.
Qed.

Lemma desc_trans : Transitive desc.
Proof. intros x y z Hxy Hyz. unfold desc in *. by apply (Qle_trans _ y.1). Qed.

Lemma insert_desc_perm x l : Permutation (insert_desc x l) (x :: l).
Proof.
  induction l as [|y l IH]; simpl; [done|].
  destruct (qlt y.1 x.1); [done|].
  rewrite IH. apply perm_swap.
Qed.

Lemma insert_desc_sorted x l : Sorted desc l -> Sorted desc (insert_desc x l).
Proof.
  induction l as [|y l IH]; intros Hs; simpl; [by repeat constructor|].
  destruct (qlt y.1 x.1) eqn:E.
  - apply qlt_spec in E. constructor; [done|]. constructor. unfold desc. by apply Qlt_le_weak.
  - apply Sorted_inv in Hs as [Hl Hhd]. constructor; [by apply IH|].
    assert (Hyx : (x.1 <= y.1)%Q) by (apply Qnot_lt_le; intros H; apply qlt_spec in H; congruence).
    destruct l as [|z l]; simpl; [by constructor|].
    inversion Hhd; subst. destruct (qlt z.1 x.1); by constructor.
Qed.

Lemma sort_desc_fold_perm l acc :
  Permutation (fold_left (fun acc x => insert_desc x acc) l acc) (rev l ++ acc).
Proof.
  revert acc; induction l as [|x l IH]; intros acc; simpl; [done|].
  rewrite IH, insert_desc_perm, <- app_assoc. done.
Qed.

Lemma sort_desc_perm l : Permutation (sort_desc l) l.
Proof. unfold sort_desc. rewrite sort_desc_fold_perm, app_nil_r. symmetry. apply Permutation_rev. Qed.

Lemma sort_desc_fold_sorted l acc :
  Sorted desc acc -> Sorted desc (fold_left (fun acc x => insert_desc x acc) l acc).
Proof. revert acc; induction l; intros acc H; simpl; [done|]. by apply IHl, insert_desc_sorted. Qed.

Lemma sort_desc_sorted l : Sorted desc (sort_desc l).
Proof. apply sort_desc_fold_sorted. constructor. Qed.

Lemma sorted_head_bound y l : Sorted desc (y :: l) -> Forall (fun z => (z.1 <= y.1)%Q) l.
Proof.
  intros Hs. apply Sorted_StronglySorted in Hs; [|apply desc_trans].
  apply StronglySorted_inv in Hs as [_ Hf]. done.
Qed.

Lemma key_class_lower k y l :
  Sorted desc (y :: l) -> (y.1 < k)%Q -> key_class k (y :: l) = [].
Proof.
  intros Hs Hlt. pose proof (sorted_head_bound _ _ Hs) as Hf.
  rewrite key_class_cons. case_decide as Heq.
  { rewrite Heq in Hlt. by destruct (Qlt_irrefl k). }
  clear Hs. induction Hf as [|z l Hz Hf IH]; [done|].
  rewrite key_class_cons. case_decide as Hzk; [|done].
  rewrite Hzk in Hz. destruct (Qlt_not_le _ _ Hlt Hz).
Qed.

(** Inserting [x] into a sorted list appends it to its own key class. *)
Lemma key_class_insert k x l :
  Sorted desc l ->
  key_class k (insert_desc x l) =
  if decide (x.1 == k)%Q then key_class k l ++ [x] else key_class k l.
Proof.
  induction l as [|y l IH]; intros Hs.
  - cbn [insert_desc]. rewrite key_class_cons. by case_decide.
  - cbn [insert_desc]. destruct (qlt y.1 x.1) eqn:E.
    + apply qlt_spec in E. rewrite key_class_cons. case_decide as Hx; [|done].
      rewrite (key_class_lower k y l Hs) by (by rewrite <- Hx). done.
    + apply Sorted_inv in Hs as [Hl _]. rewrite !key_class_cons, IH by done.
      by case_decide; case_decide.
Qed.

Lemma key_class_fold k l acc :
  Sorted desc acc ->
  key_class k (fold_left (fun acc x => insert_desc x acc) l acc) = key_class k acc ++ key_class k l.
Proof.
  revert acc; induction l as [|x l IH]; intros acc Hs; simpl; [by rewrite app_nil_r|].
  rewrite IH by (by apply insert_desc_sorted). rewrite key_class_insert by done.
  rewrite (key_class_cons k x l). case_decide; [by rewrite <- app_assoc | done].
Qed.

(** Stability: within each key class the input order is kept. *)
Lemma sort_desc_stable k l : key_class k (sort_desc l) = key_class k l.
Proof. unfold sort_desc. rewrite key_class_fold by constructor. done. Qed.

(** Two lists sorted by non-increasing key with the same key classes are
    equal. *)
Lemma sorted_key_classes_eq l1 l2 :
  Sorted desc l1 -> Sorted desc l2 ->
  (forall k, key_class k l1 = key_class k l2) -> l1 = l2.
Proof.
  revert l2; induction l1 as [|x l1 IH]; intros l2 H1 H2 Hk.
  - destruct l2 as [|y l2]; [done|]. specialize (Hk y.1).
    rewrite key_class_self in Hk. discriminate.
  - destruct l2 as [|y l2].
    + specialize (Hk x.1). rewrite key_class_self in Hk. discriminate.
    + assert (Hxy : (y.1 == x.1)%Q).
      { destruct (Q_dec x.1 y.1) as [[Hlt|Hlt]|Heq].
        - specialize (Hk y.1). rewrite (key_class_lower y.1 x l1), key_class_self in Hk by done.
          discriminate.
        - specialize (Hk x.1). rewrite (key_class_lower x.1 y l2), key_class_self in Hk by done.
          discriminate.
        - by symmetry. }
      pose proof (Hk x.1) as Hx. rewrite key_class_self, key_class_cons in Hx.
      case_decide; [|done]. injection Hx as <- _. f_equal.
      apply IH; [by apply Sorted_inv in H1 as [? _] | by apply Sorted_inv in H2 as [? _] |].
      intros k. specialize (Hk k). rewrite !key_class_cons in Hk.
      case_decide; [by injection Hk | done].
Qed.
End Sort.

(** ** The interface of a stable descending sort *)

Class StableDescSort := {
  dsort : forall {A}, list (Q * A) -> list (Q * A);
  dsort_perm : forall A (l : list (Q * A)), Permutation (dsort l) l;
  dsort_sorted : forall A (l : list (Q * A)), Sorted desc (dsort l);
  dsort_stable : forall A k (l : list (Q * A)), key_class k (dsort l) = key_class k l
}.

#[export] Instance insertion_sort_desc : StableDescSort := {|
  dsort := @sort_desc;
  dsort_perm := @sort_desc_perm;
  dsort_sorted := @sort_desc_sorted;
  dsort_stable := fun A k l => sort_desc_stable k l
|}.

(** Any stable descending sort returns the list [sort_desc] returns. *)
Theorem stable_desc_sort_unique `{S : StableDescSort} {A} (l : list (Q * A)) :
  dsort l = sort_desc l.
Proof.
  apply sorted_key_classes_eq; [apply dsort_sorted | apply sort_desc_sorted |].
  intros k. by rewrite dsort_stable, sort_desc_stable.
Qed.
