(* ===== verification/Reranker.v ===== *)
(** * The Reranker ([src/reranker.py])

    [Reranker.rerank(query, chunks, top_k)]: [top_k or RERANK_TOP_K];
    [[]] for no chunks; one batch call [model.predict(pairs)] to the
    cross-encoder (a Section variable [predict], which may raise); the
    scores are written into the chunks by [zip] (which stops at the
    shorter list, [attach_scores]); the chunks are sorted by
    ['rerank_score'] with [reverse=True] (the key is read for every chunk
    first, raising [KeyError] for a chunk that has none); the result is
    [chunks[:top_k]] with Python's slice semantics.  The sort is any
    [StableDescSort]: the theorems use only the interface's laws, and
    [stable_desc_sort_unique] pins it down to Python's stable sort.

    Not modelled: [chunks.sort] sorts the caller's list in place and the
    score assignment mutates the caller's dicts; [src/app.py] rebinds the
    name to the result, so no later reader observes the aliasing. *)

From S2P Require Import Prelude PyStr Config Chunk StableSort.
From Stdlib Require Import QArith_base Sorting.Permutation Sorting.Sorted.
Local Close Scope Q_scope.

(** [for chunk, score in zip(chunks, scores): chunk['rerank_score'] = float(score)] *)
Fixpoint attach_scores (cs : list RetrievedChunk) (ss : list Q) : list RetrievedChunk :=
  match cs, ss with
  | c :: cs', s :: ss' => set_rerank_score c s :: attach_scores cs' ss'
  | _, _ => cs
  end.

(** The sort key [lambda x: x['rerank_score']], paired with its chunk. *)
Definition score_key (c : RetrievedChunk) : py (Q * RetrievedChunk) :=
  match c.(rc_rerank_score) with
  | Some q => Ok (q, c)
  | None => Raise KeyError
  end.

(** [[[query, chunk['content']] for chunk in chunks]] *)
Definition rerank_pairs (query : string) (chunks : list RetrievedChunk) : list (string * string) :=
  map (fun c => (query, c.(rc_content))) chunks.

(** Non-increasing rerank scores. *)
Definition by_score_desc (a b : RetrievedChunk) : Prop :=
  exists qa qb, a.(rc_rerank_score) = Some qa /\ b.(rc_rerank_score) = Some qb /\ (qb <= qa)%Q.

Section WithModel.
(** [CrossEncoder(model_name).predict]: one score per pair, or an
    exception. *)
Variable predict : list (string * string) -> py (list Q).
Context `{StableDescSort}.

Definition rerank (cfg : Config) (query : string) (chunks : list RetrievedChunk) (top_k : option Z) :
  py (list RetrievedChunk) :=
  let k := py_or_int top_k cfg.(RERANK_TOP_K) in
  match chunks with
  | [] => Ok []
  | _ =>
      scores <- predict (rerank_pairs query chunks) ;;
      let scored := attach_scores chunks scores in
      keyed <- py_mapM score_key scored ;;
      Ok (py_slice_to k (map snd (dsort keyed)))
  end.
End WithModel.

(** ** Lemmas *)

Lemma length_attach_scores cs ss : length (attach_scores cs ss) = length cs.
Proof. revert ss; induction cs; intros [|s ss]; simpl; auto. Qed.

Lemma attach_scores_scored cs ss :
  length cs <= length ss -> Forall (fun c => is_Some c.(rc_rerank_score)) (attach_scores cs ss).
Proof.
  revert ss; induction cs as [|c cs IH]; intros [|s ss] Hl; simpl in *; try lia; constructor.
  - by eexists.
  - apply IH. lia.
Qed.

Lemma score_keys_ok l keyed :
  py_mapM score_key l = Ok keyed ->
  map snd keyed = l /\ Forall (fun p => p.2.(rc_rerank_score) = Some p.1) keyed.
Proof.
  intros Hm%py_mapM_Ok_iff. induction Hm as [|c p l keyed Hc Hr IH]; [done|].
  unfold score_key in Hc. destruct (rc_rerank_score c) eqn:E; py_inv.
  destruct IH as [<- Hf]. split; [done|]. by constructor.
Qed.

Lemma score_keys_exist l :
  Forall (fun c => is_Some c.(rc_rerank_score)) l -> exists keyed, py_mapM score_key l = Ok keyed.
Proof.
  induction 1 as [|c l [q Hq] _ [keyed IH]]; [by eexists|].
  exists ((q, c) :: keyed). cbn [py_mapM]. unfold score_key at 1. rewrite Hq. cbn [py_bind]. by rewrite IH.
Qed.

Lemma score_key_missing l c :
  c ∈ l -> c.(rc_rerank_score) = None -> py_mapM score_key l = Raise KeyError.
Proof.
  induction l as [|c' l IH]; intros Hin Hn; [by apply elem_of_nil in Hin|].
  simpl. unfold score_key at 1. apply elem_of_cons in Hin as [->|Hin].
  - by rewrite Hn.
  - destruct (rc_rerank_score c'); simpl; [|done]. by rewrite IH.
Qed.

Lemma sorted_map_snd (l : list (Q * RetrievedChunk)) :
  Forall (fun p => p.2.(rc_rerank_score) = Some p.1) l -> Sorted desc l ->
  Sorted by_score_desc (map snd l).
Proof.
  induction l as [|[q c] l IH]; intros Hf Hs; simpl; [constructor|].
  apply Forall_cons in Hf as [Hc Hf]. apply Sorted_inv in Hs as [Hs Hhd].
  constructor; [by apply IH|].
  destruct l as [|[q' c'] l]; simpl; constructor.
  apply Forall_cons in Hf as [Hc' _]. inversion Hhd; subst.
  exists q, q'. simpl in *. done.
Qed.

Lemma sorted_take {A} (R : A -> A -> Prop) n l : Sorted R l -> Sorted R (take n l).
Proof.
  revert l; induction n as [|n IH]; intros l Hs; simpl; [constructor|].
  destruct l as [|x l]; simpl; [constructor|].
  apply Sorted_inv in Hs as [Hs Hhd]. constructor; [by apply IH|].
  destruct l as [|y l]; destruct n; simpl; constructor. by inversion Hhd.
Qed.

Lemma rerank_ok_inv predict `{StableDescSort} cfg query chunks top_k out :
  rerank predict cfg query chunks top_k = Ok out ->
  chunks = [] /\ out = [] \/
  exists scores keyed,
    predict (rerank_pairs query chunks) = Ok scores /\
    py_mapM score_key (attach_scores chunks scores) = Ok keyed /\
    out = py_slice_to (py_or_int top_k cfg.(RERANK_TOP_K)) (map snd (dsort keyed)).
Proof.
  unfold rerank. destruct chunks as [|c cs]; intros Hr; [left; by py_inv|right].
  destruct (predict _) as [scores|e] eqn:Hp; simpl in Hr; [|discriminate].
  destruct (py_mapM _ _) as [keyed|e] eqn:Hk; simpl in Hr; [|discriminate].
  py_inv. eauto.
Qed.

Lemma length_py_slice_to {A} (k : Z) (l : list A) :
  length (py_slice_to k l) = py_slice_index (length l) k.
Proof.
  unfold py_slice_to. rewrite length_take. unfold py_slice_index.
  destruct (Z.ltb_spec k 0); lia.
Qed.

Lemma by_score_desc_trans : Transitive by_score_desc.
Proof.
  intros a b c (qa & qb & Ha & Hb & Hab) (qb' & qc & Hb' & Hc & Hbc).
  rewrite Hb in Hb'. injection Hb' as <-. exists qa, qc. split_and!; [done|done|].
  by apply (Qle_trans _ qb).
Qed.

(** The keyed list after sorting still pairs every chunk with its score. *)
Lemma dsort_keys `{StableDescSort} (keyed : list (Q * RetrievedChunk)) :
  Forall (fun p => p.2.(rc_rerank_score) = Some p.1) keyed ->
  Forall (fun p => p.2.(rc_rerank_score) = Some p.1) (dsort keyed).
Proof. intros Hf. eapply Permutation_Forall; [symmetry; apply dsort_perm | done]. Qed.

(** [score_eq k c]: the chunk's rerank score equals [k]. *)
Definition score_eq (k : Q) (c : RetrievedChunk) : bool :=
  match c.(rc_rerank_score) with Some q => Qeq_bool q k | None => false end.

Lemma key_class_map_snd k (keyed : list (Q * RetrievedChunk)) :
  Forall (fun p => p.2.(rc_rerank_score) = Some p.1) keyed ->
  map snd (key_class k keyed) = List.filter (score_eq k) (map snd keyed).
Proof.
  induction 1 as [|[q c] keyed Hc _ IH]; [done|].
  rewrite key_class_cons. simpl in *. unfold score_eq at 1. rewrite Hc.
  case_decide as Hq.
  - rewrite (proj2 (Qeq_bool_iff q k) Hq). simpl. by rewrite IH.
  - destruct (Qeq_bool q k) eqn:E; [apply Qeq_bool_iff in E; done | done].
Qed.

Lemma filter_take_prefix {A} (f : A -> bool) n l : List.filter f (take n l) `prefix_of` List.filter f l.
Proof.
  revert l; induction n as [|n IH]; intros [|x l]; simpl; try apply prefix_nil.
  destruct (f x); [by apply prefix_cons | done].
Qed.

Lemma attach_scores_beyond cs ss i :
  length ss <= i -> attach_scores cs ss !! i = cs !! i.
Proof.
  revert ss i; induction cs as [|c cs IH]; intros [|s ss] i Hi; simpl; try done.
  destruct i as [|i]; simpl in *; [lia|]. apply IH. lia.
Qed.

Lemma strongly_sorted_take_drop {A} (R : A -> A -> Prop) n l :
  StronglySorted R l -> Forall (fun y => Forall (fun x => R x y) (take n l)) (drop n l).
Proof.
  revert l; induction n as [|n IH]; intros l Hs; simpl.
  - apply Forall_forall. intros y _. constructor.
  - destruct l as [|x l]; simpl; [constructor|].
    apply StronglySorted_inv in Hs as [Hs Hx].
    specialize (IH l Hs). apply Forall_forall. intros y Hy.
    constructor.
    + rewrite Forall_forall in Hx. apply Hx. by apply (subseteq_drop n l).
    + rewrite Forall_forall in IH. by apply IH.
Qed.

Lemma rerank_cons predict `{StableDescSort} cfg query c cs top_k :
  rerank predict cfg query (c :: cs) top_k =
  (scores <- predict (rerank_pairs query (c :: cs)) ;;
   keyed <- py_mapM score_key (attach_scores (c :: cs) scores) ;;
   Ok (py_slice_to (py_or_int top_k cfg.(RERANK_TOP_K)) (map snd (dsort keyed)))).
Proof. reflexivity. Qed.

Lemma rerank_ok_keyed predict `{StableDescSort} cfg query chunks top_k scores out :
  predict (rerank_pairs query chunks) = Ok scores ->
  rerank predict cfg query chunks top_k = Ok out ->
  chunks = [] /\ out = [] \/
  exists keyed,
    map snd keyed = attach_scores chunks scores /\
    Forall (fun p => p.2.(rc_rerank_score) = Some p.1) keyed /\
    out = py_slice_to (py_or_int top_k cfg.(RERANK_TOP_K)) (map snd (dsort keyed)).
Proof.
  intros Hp Hr. apply rerank_ok_inv in Hr as [Hr | (scores' & keyed & Hp' & Hk & ->)]; [by left|right].
  rewrite Hp in Hp'. injection Hp' as <-. apply score_keys_ok in Hk as [Hm Hf]. eauto.
Qed.

(** C8: Success and length: when the cross-encoder returns a score for
    every pair, [rerank] returns [chunks[:k]] of the sorted chunks, with
    [k = top_k or RERANK_TOP_K]: [min(k, n)] chunks for [k >= 0] and
    [n - min(|k|, n)] for a negative [k] (Python's slice), [[]] for no
    chunks. *)
Theorem rerank_length predict `{StableDescSort} cfg query chunks top_k scores :
  predict (rerank_pairs query chunks) = Ok scores ->
  length chunks <= length scores ->
  exists out, rerank predict cfg query chunks top_k = Ok out /\
    length out = py_slice_index (length chunks) (py_or_int top_k cfg.(RERANK_TOP_K)).
Proof.
  intros Hp Hl. destruct chunks as [|c cs].
  - exists []. split; [done|]. unfold py_slice_index. destruct (Z.ltb_spec (py_or_int top_k cfg.(RERANK_TOP_K)) 0); simpl; lia.
  - destruct (score_keys_exist _ (attach_scores_scored _ _ Hl)) as [keyed Hk].
    eexists. rewrite rerank_cons, Hp. cbn [py_bind]. rewrite Hk. split; [done|].
    rewrite length_py_slice_to, length_map, (Permutation_length (dsort_perm _ _)).
    by rewrite (py_mapM_length _ _ _ Hk), length_attach_scores.
Qed.

(** C9: Order: the returned chunks carry rerank scores in non-increasing
    order. *)
Theorem rerank_sorted predict `{StableDescSort} cfg query chunks top_k out :
  rerank predict cfg query chunks top_k = Ok out -> Sorted by_score_desc out.
Proof.
  intros Hr. apply rerank_ok_inv in Hr as [[_ ->] | (scores & keyed & _ & Hk & ->)]; [constructor|].
  apply score_keys_ok in Hk as [_ Hf]. apply sorted_take, sorted_map_snd.
  - by apply dsort_keys.
  - apply dsort_sorted.
Qed.

(** C10: Top-k: the returned chunks and the dropped ones together are a
    permutation of the scored input, and every dropped chunk scores no
    higher than every returned one. *)
Theorem rerank_top predict `{StableDescSort} cfg query chunks top_k scores out :
  predict (rerank_pairs query chunks) = Ok scores ->
  rerank predict cfg query chunks top_k = Ok out ->
  exists rest, Permutation (out ++ rest) (attach_scores chunks scores) /\
    Forall (fun r => Forall (fun o => by_score_desc o r) out) rest.
Proof.
  intros Hp Hr. destruct (rerank_ok_keyed _ _ _ _ _ _ _ Hp Hr) as [[-> ->] | (keyed & Hm & Hf & ->)].
  { exists []. destruct scores; simpl; split; constructor. }
  set (n := py_slice_index (length (map snd (dsort keyed))) (py_or_int top_k cfg.(RERANK_TOP_K))). exists (drop n (map snd (dsort keyed))). split.
  - unfold py_slice_to. fold n. rewrite take_drop, <- Hm. apply Permutation_map, dsort_perm.
  - unfold py_slice_to. fold n. apply strongly_sorted_take_drop.
    apply Sorted_StronglySorted; [apply by_score_desc_trans|].
    apply sorted_map_snd; [by apply dsort_keys | apply dsort_sorted].
Qed.

(** C11: Stability: among returned chunks with equal scores, the input
    order is kept (they form a prefix of the input's chunks with that
    score). *)
Theorem rerank_stable predict `{StableDescSort} cfg query chunks top_k scores out k :
  predict (rerank_pairs query chunks) = Ok scores ->
  rerank predict cfg query chunks top_k = Ok out ->
  List.filter (score_eq k) out `prefix_of` List.filter (score_eq k) (attach_scores chunks scores).
Proof.
  intros Hp Hr. destruct (rerank_ok_keyed _ _ _ _ _ _ _ Hp Hr) as [[-> ->] | (keyed & Hm & Hf & ->)];
    [apply prefix_nil|].
  etransitivity; [apply filter_take_prefix|].
  rewrite <- (key_class_map_snd k _ (dsort_keys _ Hf)), dsort_stable, key_class_map_snd, Hm by done.
  done.
Qed.

(** C12: Error path: when the cross-encoder returns fewer scores than
    chunks and a chunk past the last score has no ['rerank_score'] yet,
    the sort key raises [KeyError]. *)
Theorem rerank_key_error predict `{StableDescSort} cfg query chunks top_k scores c :
  predict (rerank_pairs query chunks) = Ok scores ->
  chunks !! length scores = Some c ->
  c.(rc_rerank_score) = None ->
  rerank predict cfg query chunks top_k = Raise KeyError.
Proof.
  intros Hp Hc Hn. destruct chunks as [|c0 cs]; [done|].
  rewrite rerank_cons, Hp. cbn [py_bind]. erewrite score_key_missing; [done| |done].
  apply list_elem_of_lookup_2 with (length scores). by rewrite attach_scores_beyond.
Qed.

(** ** Witnesses *)

(** A cross-encoder that scores a pair by the length of the chunk text. *)
Abbreviation predict_len :=
  (fun pairs : list (string * string) => Ok (map (fun p => inject_Z (Z.of_nat (String.length p.2))) pairs)).

Abbreviation sample_rcs :=
  [mkRC "a" "xx" ∅ None None; mkRC "b" "yyyy" ∅ None None; mkRC "c" "zz" ∅ None None].

Abbreviation cfg0 := (default_config (fun _ => None)).

Lemma rerank_length_witness :
  predict_len (rerank_pairs "q" sample_rcs) = Ok [2#1; 4#1; 2#1]%Q /\
  exists out, rerank predict_len cfg0 "q" sample_rcs (Some (-1)%Z) = Ok out /\
    length out = py_slice_index (length sample_rcs) (py_or_int (Some (-1)%Z) cfg0.(RERANK_TOP_K)).
Proof. split; [reflexivity|]. apply (rerank_length _ _ _ _ _ [2#1; 4#1; 2#1]%Q); [reflexivity | simpl; lia]. Defined.

Lemma rerank_sorted_witness :
  rerank predict_len cfg0 "q" sample_rcs None =
    Ok [mkRC "b" "yyyy" ∅ None (Some (4#1)%Q); mkRC "a" "xx" ∅ None (Some (2#1)%Q);
        mkRC "c" "zz" ∅ None (Some (2#1)%Q)] /\
  Sorted by_score_desc
    [mkRC "b" "yyyy" ∅ None (Some (4#1)%Q); mkRC "a" "xx" ∅ None (Some (2#1)%Q);
     mkRC "c" "zz" ∅ None (Some (2#1)%Q)].
Proof.
  assert (H : rerank predict_len cfg0 "q" sample_rcs None =
    Ok [mkRC "b" "yyyy" ∅ None (Some (4#1)%Q); mkRC "a" "xx" ∅ None (Some (2#1)%Q);
        mkRC "c" "zz" ∅ None (Some (2#1)%Q)]) by reflexivity.
  split; [exact H | exact (rerank_sorted _ _ _ _ _ _ H)].
Defined.

Lemma rerank_top_witness :
  exists rest, Permutation ([mkRC "b" "yyyy" ∅ None (Some (4#1)%Q)] ++ rest)
                 (attach_scores sample_rcs [2#1; 4#1; 2#1]%Q) /\
    Forall (fun r => Forall (fun o => by_score_desc o r) [mkRC "b" "yyyy" ∅ None (Some (4#1)%Q)]) rest.
Proof. apply (rerank_top predict_len cfg0 "q" _ (Some 1%Z)); reflexivity. Defined.

Lemma rerank_stable_witness :
  List.filter (score_eq (2#1)%Q) [mkRC "b" "yyyy" ∅ None (Some (4#1)%Q); mkRC "a" "xx" ∅ None (Some (2#1)%Q)]
  `prefix_of` List.filter (score_eq (2#1)%Q) (attach_scores sample_rcs [2#1; 4#1; 2#1]%Q).
Proof. apply (rerank_stable predict_len cfg0 "q" _ (Some 2%Z)); reflexivity. Defined.

Lemma rerank_key_error_witness :
  rerank (fun _ => Ok [1#1]%Q) cfg0 "q" sample_rcs None = Raise KeyError.
Proof. apply (rerank_key_error _ _ _ _ _ [1#1]%Q (mkRC "b" "yyyy" ∅ None None)); reflexivity. Defined.

(** [top_k] follows Python, not the spec's "truncate to top-N":
    [top_k=0] is falsy and falls back to [RERANK_TOP_K = 3], and a negative
    [top_k] drops chunks from the end ([chunks[:-1]] keeps all but the
    lowest-scored one). *)
Theorem rerank_top_k_python_semantics :
  rerank predict_len cfg0 "q" sample_rcs (Some 0%Z) =
    Ok [mkRC "b" "yyyy" ∅ None (Some (4#1)%Q); mkRC "a" "xx" ∅ None (Some (2#1)%Q);
        mkRC "c" "zz" ∅ None (Some (2#1)%Q)] /\
  rerank predict_len cfg0 "q" sample_rcs (Some (-1)%Z) =
    Ok [mkRC "b" "yyyy" ∅ None (Some (4#1)%Q); mkRC "a" "xx" ∅ None (Some (2#1)%Q)].
Proof. split; reflexivity. Qed.
