(* ===== verification/VectorStore.v ===== *)
(** * The vector store ([src/vector_store.py])

    [VectorStore] as explicit state passing: the state is the chromadb
    collection (a [gmap] from id to stored record), whether an embedding
    client was configured, and the supply of fresh ids ([uuid.uuid4()]
    draws the next one: the [n]-th id is [uuid4 n], distinct for distinct
    [n]).  [add_chunks], [query] and [clear] are the code's methods;
    [_get_embeddings] is [get_embeddings].

    The embedding API ([embed_api]) and chromadb's nearest-neighbour search
    ([nn_search]) are Section variables that may raise.  chromadb's
    [collection.add] is not in [src/]: [collection_add] models it from the
    spec's index contract (scalar metadata, one non-empty embedding per
    id), which chromadb enforces by raising [ValueError]. *)

From S2P Require Import Prelude PyStr Config Chunk.
From stdpp Require Import pretty.
From Stdlib Require Import QArith_base.
Local Close Scope Q_scope.

(** A record of the collection: document, embedding, metadata. *)
Record StoredRecord := mkSR {
  sr_document : string;
  sr_embedding : list Q;
  sr_metadata : chunk
}.

Record VectorStore := mkVS {
  vs_collection : gmap string StoredRecord;
  vs_client : bool;
  vs_uuid : N
}.

(** The [n]-th id drawn by [uuid.uuid4()]. *)
Definition uuid4 (n : N) : string := pretty n.

(** [str(uuid.uuid4())] in [add_chunks]' loop: the ids drawn for [len] chunks, starting at [u]. *)
Definition drawn_ids (u : N) (len : nat) : list string :=
  map (fun i => uuid4 (u + N.of_nat i)%N) (seq 0 len).

(** [VectorStore()]: open the persisted collection; an embedding client
    exists only for a real API key. *)
Definition VectorStore_init (cfg : Config) (persisted : gmap string StoredRecord) (uuid_seed : N) : VectorStore :=
  mkVS persisted
       (negb (String.eqb cfg.(PERPLEXITY_API_KEY) EmptyString) &&
        negb (String.eqb cfg.(PERPLEXITY_API_KEY) "test_key"))
       uuid_seed.

(** [[0.1] * 1536] *)
Definition mock_embedding : list Q := repeat (1 # 10)%Q 1536.

(** The result of [collection.query] and the empty-but-shaped result. *)
Record QueryResult := mkQR {
  qr_ids : list (list string);
  qr_documents : list (list string);
  qr_metadatas : list (list chunk);
  qr_distances : option (list (list Q))
}.

Definition empty_result : QueryResult := mkQR [[]] [[]] [[]] None.

(** A metadata dict chromadb accepts: every value a str, int, float or
    bool. *)
Definition meta_ok (md : chunk) : bool := bool_decide (map_Forall (fun _ v => is_scalar v = true) md).

Definition doc_str (d : pyval) : py string :=
  match d with VStr s => Ok s | _ => Raise ValueError end.

(** One row [(id, (document, (embedding, metadata)))] of an [add] call. *)
Definition entry_rec (x : string * (string * (list Q * chunk))) : StoredRecord :=
  mkSR x.2.1 x.2.2.1 x.2.2.2.

Definition insert_record (m : gmap string StoredRecord) (x : string * (string * (list Q * chunk))) :
  gmap string StoredRecord := <[x.1 := entry_rec x]> m.

(** chromadb's [collection.add(ids, documents, embeddings, metadatas)]
    (spec-modelled): the four lists must have the same length, every
    document must be a string, every embedding non-empty and every
    metadata value scalar; otherwise [ValueError] and nothing is added. *)
Definition collection_add (coll : gmap string StoredRecord) (ids : list string) (docs : list pyval)
    (embs : list (list Q)) (metas : list chunk) : py (gmap string StoredRecord) :=
  if negb (Nat.eqb (length ids) (length docs) && Nat.eqb (length ids) (length embs) &&
           Nat.eqb (length ids) (length metas)) then Raise ValueError
  else if existsb (fun e => bool_decide (e = [])) embs then Raise ValueError
  else if negb (forallb meta_ok metas) then Raise ValueError
  else
    docs' <- py_mapM doc_str docs ;;
    Ok (fold_left insert_record (zip ids (zip docs' (zip embs metas))) coll).

Section WithBackends.
(** [self.embedding_client.embeddings.create(input=texts, ...)]: the
    embeddings of [response.data], or an exception. *)
Variable embed_api : list pyval -> py (list (list Q)).
(** [self.collection.query(query_embeddings=[e], n_results=k)] *)
Variable nn_search : gmap string StoredRecord -> list Q -> Z -> py QueryResult.

(** [_get_embeddings(texts)] *)
Definition get_embeddings (vs : VectorStore) (texts : list pyval) : list (list Q) :=
  if negb vs.(vs_client) then map (fun _ => mock_embedding) texts
  else match embed_api texts with
       | Ok es => es
       | Raise _ => map (fun _ => []) texts
       end.

(** [add_chunks(chunks)] *)
Definition add_chunks (vs : VectorStore) (chunks : list chunk) : py VectorStore :=
  match chunks with
  | [] => Ok vs
  | _ =>
      let ids := drawn_ids vs.(vs_uuid) (length chunks) in
      let vs1 := mkVS vs.(vs_collection) vs.(vs_client) (vs.(vs_uuid) + N.of_nat (length chunks))%N in
      documents <- py_mapM (dict_getitem "content") chunks ;;
      let metadatas := map without_content chunks in
      let embeddings := get_embeddings vs documents in
      if forallb (fun e => bool_decide (e = [])) embeddings then Ok vs1
      else
        coll <- collection_add vs.(vs_collection) ids documents embeddings metadatas ;;
        Ok (mkVS coll vs.(vs_client) vs1.(vs_uuid))
  end.

(** [query(query, n_results)]: never raises. *)
Definition query (vs : VectorStore) (q : string) (n_results : Z) : QueryResult :=
  match head (get_embeddings vs [VStr q]) with
  | Some ((_ :: _) as e) =>
      match nn_search vs.(vs_collection) e n_results with
      | Ok r => r
      | Raise _ => empty_result
      end
  | _ => empty_result
  end.
End WithBackends.

(** [clear()]: delete the collection and create an empty one. *)
Definition clear (vs : VectorStore) : VectorStore :=
  mkVS ∅ vs.(vs_client) vs.(vs_uuid).

(** ** The store's invariant and its preservation *)

(** Every stored record has a non-empty embedding and scalar metadata, and
    no id the supply has not drawn yet is in use. *)
Definition vs_inv (vs : VectorStore) : Prop :=
  (forall id r, vs.(vs_collection) !! id = Some r ->
     r.(sr_embedding) <> [] /\ meta_ok r.(sr_metadata) = true) /\
  (forall n, (vs.(vs_uuid) <= n)%N -> vs.(vs_collection) !! uuid4 n = None).

Lemma uuid4_inj n m : uuid4 n = uuid4 m -> n = m.
Proof. apply pretty_N_inj. Qed.

Lemma fold_insert_inv l m k r :
  fold_left insert_record l m !! k = Some r ->
  m !! k = Some r \/ exists x, x ∈ l /\ x.1 = k /\ r = entry_rec x.
Proof.
  revert m; induction l as [|x l IH]; intros m H; simpl in *; [by left|].
  destruct (IH _ H) as [Hm | (y & Hy & Hk & ->)].
  - unfold insert_record in Hm. destruct (decide (x.1 = k)) as [<-|Hne].
    + rewrite lookup_insert_eq in Hm. injection Hm as <-. right. exists x. split; [left|]; done.
    + rewrite lookup_insert_ne in Hm by done. by left.
  - right. exists y. split; [by right|done].
Qed.

Lemma fold_insert_fresh l m k :
  k ∉ map fst l -> fold_left insert_record l m !! k = m !! k.
Proof.
  revert m; induction l as [|x l IH]; intros m Hk; simpl in *; [done|].
  apply not_elem_of_cons in Hk as [Hx Hk]. rewrite IH by done.
  unfold insert_record. by rewrite lookup_insert_ne.
Qed.

Lemma fold_insert_lookup l m x :
  NoDup (map fst l) -> x ∈ l -> fold_left insert_record l m !! x.1 = Some (entry_rec x).
Proof.
  revert m; induction l as [|y l IH]; intros m Hnd Hx; [by apply elem_of_nil in Hx|].
  simpl in Hnd. apply NoDup_cons in Hnd as [Hy Hnd]. simpl.
  apply elem_of_cons in Hx as [->|Hx].
  - rewrite fold_insert_fresh by done. unfold insert_record. by rewrite lookup_insert_eq.
  - by apply IH.
Qed.

Lemma collection_add_ok coll ids docs embs metas coll' :
  collection_add coll ids docs embs metas = Ok coll' ->
  exists docs', py_mapM doc_str docs = Ok docs' /\
    coll' = fold_left insert_record (zip ids (zip docs' (zip embs metas))) coll /\
    Forall (fun e => e <> []) embs /\ Forall (fun md => meta_ok md = true) metas /\
    length ids = length docs /\ length ids = length embs /\ length ids = length metas.
Proof.
  unfold collection_add.
  destruct (Nat.eqb_spec (length ids) (length docs)), (Nat.eqb_spec (length ids) (length embs)),
    (Nat.eqb_spec (length ids) (length metas)); simpl; try discriminate.
  destruct (existsb _ embs) eqn:He; [discriminate|].
  destruct (forallb meta_ok metas) eqn:Hm; simpl; [|discriminate].
  destruct (py_mapM doc_str docs) as [docs'|] eqn:Hd; simpl; [|discriminate].
  intros [= <-]. exists docs'. split_and!; try done.
  - apply Forall_forall. intros em Hin ->. apply not_true_iff_false in He. apply He.
    apply existsb_exists. exists []. split; [by apply list_elem_of_In | by rewrite bool_decide_true].
  - apply Forall_forall. intros md Hin. apply forallb_forall with (x := md) in Hm; [done|].
    by apply list_elem_of_In.
Qed.

Lemma map_as_fmap {A B} (f : A -> B) l : map f l = f <$> l.
Proof. induction l; simpl; by f_equal. Qed.

Lemma drawn_ids_NoDup u len : NoDup (drawn_ids u len).
Proof.
  unfold drawn_ids. rewrite map_as_fmap. apply NoDup_fmap_2; [|apply NoDup_seq].
  intros i j Hij%uuid4_inj. lia.
Qed.

Lemma drawn_ids_fresh u len n :
  (u + N.of_nat len <= n)%N -> uuid4 n ∉ drawn_ids u len.
Proof.
  unfold drawn_ids. rewrite map_as_fmap. intros Hn (i & Hi & Hin)%list_elem_of_fmap_1.
  apply uuid4_inj in Hi. apply elem_of_seq in Hin. lia.
Qed.

Lemma drawn_ids_lookup u len i :
  i < len -> drawn_ids u len !! i = Some (uuid4 (u + N.of_nat i)%N).
Proof.
  intros Hi. unfold drawn_ids. rewrite map_as_fmap, list_lookup_fmap.
  replace (seq 0 len !! i) with (Some i) by (symmetry; apply lookup_seq; lia). done.
Qed.

Lemma length_drawn_ids u len : length (drawn_ids u len) = len.
Proof. unfold drawn_ids. by rewrite length_map, length_seq. Qed.

Lemma elem_of_zip4 {A B C D} (x : A * (B * (C * D))) l1 l2 l3 l4 :
  x ∈ zip l1 (zip l2 (zip l3 l4)) -> x.2.2.1 ∈ l3 /\ x.2.2.2 ∈ l4.
Proof.
  destruct x as [a [b [c d]]]. intros H%elem_of_zip_r%elem_of_zip_r. simpl.
  split; [by eapply elem_of_zip_l | by eapply elem_of_zip_r].
Qed.

Lemma fst_zip4 {A B C D} (l1 : list A) (l2 : list B) (l3 : list C) (l4 : list D) :
  length l1 = length l2 -> length l1 = length l3 -> length l1 = length l4 ->
  map fst (zip l1 (zip l2 (zip l3 l4))) = l1.
Proof. intros ???. rewrite map_as_fmap. apply fst_zip. rewrite !length_zip. lia. Qed.

(** [add_chunks] on a non-empty list unfolds to the code's steps. *)
Lemma add_chunks_unfold embed_api vs chunks :
  chunks <> [] ->
  add_chunks embed_api vs chunks =
    (documents <- py_mapM (dict_getitem "content") chunks ;;
     let embeddings := get_embeddings embed_api vs documents in
     if forallb (fun e => bool_decide (e = [])) embeddings
     then Ok (mkVS vs.(vs_collection) vs.(vs_client) (vs.(vs_uuid) + N.of_nat (length chunks))%N)
     else coll <- collection_add vs.(vs_collection) (drawn_ids vs.(vs_uuid) (length chunks))
                    documents embeddings (map without_content chunks) ;;
          Ok (mkVS coll vs.(vs_client) (vs.(vs_uuid) + N.of_nat (length chunks))%N)).
Proof. by destruct chunks. Qed.

(** Every successful [add_chunks] either only advances the id supply or
    stores the rows of one [collection.add] under the drawn ids. *)
Lemma add_chunks_ok_inv embed_api vs chunks vs' :
  add_chunks embed_api vs chunks = Ok vs' ->
  vs'.(vs_client) = vs.(vs_client) /\
  vs'.(vs_uuid) = (vs.(vs_uuid) + N.of_nat (length chunks))%N /\
  (vs'.(vs_collection) = vs.(vs_collection) \/
   exists docs embs, length docs = length chunks /\ length embs = length chunks /\
     Forall (fun e => e <> []) embs /\ Forall (fun md => meta_ok md = true) (map without_content chunks) /\
     vs'.(vs_collection) = fold_left insert_record
        (zip (drawn_ids vs.(vs_uuid) (length chunks)) (zip docs (zip embs (map without_content chunks))))
        vs.(vs_collection)).
Proof.
  destruct (decide (chunks = [])) as [->|Hne].
  { intros [= <-]. rewrite N.add_0_r. by split_and!; [..|left]. }
  rewrite add_chunks_unfold by done.
  destruct (py_mapM _ chunks) as [documents|] eqn:Hd; simpl; [|discriminate].
  destruct (forallb _ _); [intros [= <-]; by split_and!; [..|left]|].
  destruct (collection_add _ _ _ _ _) as [coll|] eqn:Hc; simpl; [|discriminate].
  intros [= <-]. split_and!; [done..|right].
  apply collection_add_ok in Hc as (docs' & Hd' & -> & He & Hm & Hl1 & Hl2 & Hl3).
  rewrite length_drawn_ids in Hl1, Hl2, Hl3.
  apply py_mapM_length in Hd'. exists docs', (get_embeddings embed_api vs documents). split_and!; try done; lia.
Qed.

Lemma add_chunks_preserves_inv embed_api vs chunks vs' :
  vs_inv vs -> add_chunks embed_api vs chunks = Ok vs' -> vs_inv vs'.
Proof.
  intros [Hrec Hfresh] (_ & Hu & [Hc | (docs & embs & Hld & Hle & He & Hm & Hc)])%add_chunks_ok_inv;
    unfold vs_inv; rewrite Hc, Hu.
  - split; [done|]. intros n Hn. apply Hfresh. lia.
  - split.
    + intros id r [Hold | (x & Hx & _ & ->)]%fold_insert_inv; [by eapply Hrec|].
      apply elem_of_zip4 in Hx as [Hx1 Hx2]. simpl. split.
      * by eapply Forall_forall in He.
      * by eapply Forall_forall in Hm.
    + intros n Hn. rewrite fold_insert_fresh.
      * apply Hfresh. lia.
      * rewrite fst_zip4 by (rewrite ?length_drawn_ids, ?length_map; lia). apply drawn_ids_fresh. lia.
Qed.

Lemma clear_preserves_inv vs : vs_inv vs -> vs_inv (clear vs).
Proof. intros _. split; simpl; [intros id r; by rewrite lookup_empty | intros; apply lookup_empty]. Qed.

(** ** The store as a state machine

    From the state [VectorStore()] builds, the store changes only by
    [add_chunks] (whose embedding API may answer differently, or fail, on
    each call) and [clear]. *)
Inductive vs_step : VectorStore -> VectorStore -> Prop :=
| step_add (embed_api : list pyval -> py (list (list Q))) vs chunks vs' :
    add_chunks embed_api vs chunks = Ok vs' -> vs_step vs vs'
| step_clear vs : vs_step vs (clear vs).

Definition vs_reachable (cfg : Config) (persisted : gmap string StoredRecord) (seed : N) (vs : VectorStore) : Prop :=
  rtc vs_step (VectorStore_init cfg persisted seed) vs.

Lemma vs_step_inv vs vs' : vs_step vs vs' -> vs_inv vs -> vs_inv vs'.
Proof.
  destruct 1 as [api vs chunks vs' H | vs]; intros Hi;
    [by eapply add_chunks_preserves_inv | by apply clear_preserves_inv].
Qed.

(** [collection.add] succeeds on well-formed rows. *)
Lemma collection_add_success coll ids docs docs' embs metas :
  length ids = length docs -> length ids = length embs -> length ids = length metas ->
  Forall (fun e => e <> []) embs -> Forall (fun md => meta_ok md = true) metas ->
  py_mapM doc_str docs = Ok docs' ->
  collection_add coll ids docs embs metas =
    Ok (fold_left insert_record (zip ids (zip docs' (zip embs metas))) coll).
Proof.
  intros H1 H2 H3 He Hm Hd. unfold collection_add.
  rewrite <- H1, <- H2, <- H3, !Nat.eqb_refl. simpl.
  replace (existsb _ embs) with false.
  2:{ symmetry. apply not_true_iff_false. intros (e & Hin & Hb)%existsb_exists.
      apply bool_decide_eq_true in Hb. apply list_elem_of_In in Hin.
      rewrite Forall_forall in He. by apply (He e). }
  replace (forallb meta_ok metas) with true.
  2:{ symmetry. apply forallb_forall. intros md Hin%list_elem_of_In. by eapply Forall_forall in Hm. }
  by rewrite Hd.
Qed.

(** [collection.add] raises [ValueError] on any empty embedding. *)
Lemma collection_add_empty_embedding coll ids docs embs metas :
  [] ∈ embs -> collection_add coll ids docs embs metas = Raise ValueError.
Proof.
  intros Hin. unfold collection_add.
  destruct (negb _); [done|].
  replace (existsb _ embs) with true; [done|].
  symmetry. apply existsb_exists. exists []. split; [by apply list_elem_of_In | by rewrite bool_decide_true].
Qed.

(** [collection.add] raises [ValueError] on non-scalar metadata. *)
Lemma collection_add_bad_metadata coll ids docs embs metas md :
  md ∈ metas -> meta_ok md = false -> collection_add coll ids docs embs metas = Raise ValueError.
Proof.
  intros Hin Hmd. unfold collection_add.
  destruct (negb _); [done|]. destruct (existsb _ embs); [done|].
  replace (forallb meta_ok metas) with false; [done|].
  symmetry. apply not_true_iff_false. intros Hf. eapply forallb_forall in Hf; [|by apply list_elem_of_In].
  congruence.
Qed.

Lemma forallb_empty_false (es : list (list Q)) e :
  e ∈ es -> e <> [] -> forallb (fun e => bool_decide (e = [])) es = false.
Proof.
  intros Hin Hne. apply not_true_iff_false. intros Hf.
  eapply forallb_forall in Hf; [|by apply list_elem_of_In]. by apply bool_decide_eq_true in Hf.
Qed.

Lemma mock_embedding_nonempty : mock_embedding <> [].
Proof. discriminate. Qed.

Lemma drawn_ids_elem u len id : id ∈ drawn_ids u len -> exists i, i < len /\ id = uuid4 (u + N.of_nat i)%N.
Proof.
  unfold drawn_ids. rewrite map_as_fmap. intros (i & -> & Hi%elem_of_seq)%list_elem_of_fmap_1.
  exists i. split; [lia|done].
Qed.

Lemma content_docs chunks docs :
  Forall2 (fun c s => c !! "content" = Some (VStr s)) chunks docs ->
  py_mapM (dict_getitem "content") chunks = Ok (map VStr docs).
Proof.
  intros H. apply py_mapM_Ok_iff. induction H as [|c s chunks docs Hc _ IH]; constructor; [|done].
  unfold dict_getitem. by rewrite Hc.
Qed.

Lemma doc_str_map docs : py_mapM doc_str (map VStr docs) = Ok docs.
Proof. apply py_mapM_Ok_iff. induction docs; by constructor. Qed.

#[export] Hint Resolve drawn_ids_NoDup collection_add_success : rag.

(** ** Properties of the store *)

(** Every state reachable from [VectorStore()] by [add_chunks] (with
    any embedding answers) and [clear] keeps the store's invariant: each
    record has a non-empty embedding and scalar metadata, and ids not yet
    drawn are unused. *)
Theorem vs_reachable_inv cfg persisted seed vs :
  vs_inv (VectorStore_init cfg persisted seed) ->
  vs_reachable cfg persisted seed vs -> vs_inv vs.
Proof. intros Hi Hr. induction Hr as [|x y z Hxy _ IH]; [done|]. by apply IH, (vs_step_inv x). Qed.

Section Props.
Variable embed_api : list pyval -> py (list (list Q)).
Variable nn_search : gmap string StoredRecord -> list Q -> Z -> py QueryResult.

(** The two degradation paths of [query]. *)
Lemma query_failure_empty vs q k :
  (vs.(vs_client) = true /\ exists ex, embed_api [VStr q] = Raise ex) \/
  (exists ex, forall emb, nn_search vs.(vs_collection) emb k = Raise ex) ->
  query embed_api nn_search vs q k = empty_result.
Proof.
  unfold query, get_embeddings. intros [[Hcl [ex Hapi]] | [ex Hnn]].
  - by rewrite Hcl, Hapi.
  - destruct (vs_client vs); simpl.
    + destruct (embed_api [VStr q]) as [[|[|??]?]|]; simpl; rewrite ?Hnn; done.
    + destruct mock_embedding; rewrite ?Hnn; done.
Qed.

(** [add_chunks] never loses or changes a record already in a store
    that satisfies the invariant: the fresh ids it draws are unused. *)
Theorem add_chunks_keeps vs chunks vs' id r :
  vs_inv vs -> add_chunks embed_api vs chunks = Ok vs' ->
  vs.(vs_collection) !! id = Some r -> vs'.(vs_collection) !! id = Some r.
Proof.
  intros [_ Hfresh] (_ & _ & [-> | (docs & embs & Hld & Hle & _ & _ & ->)])%add_chunks_ok_inv Hid; [done|].
  rewrite fold_insert_fresh; [done|].
  rewrite fst_zip4 by (rewrite ?length_drawn_ids, ?length_map; lia).
  intros (i & Hi & ->)%drawn_ids_elem. rewrite Hfresh in Hid by lia. discriminate.
Qed.

(** C13: round trip with the mock embedding client (no API key): adding
    chunks whose ["content"] is a string and whose other fields are scalar
    succeeds, advances the id supply by one id per chunk, and stores the
    [i]-th chunk under the [i]-th drawn id with its content as document,
    the mock embedding [[0.1] * 1536] and its other fields as metadata. *)
Theorem add_chunks_mock_roundtrip vs chunks docs :
  vs.(vs_client) = false -> chunks <> [] ->
  Forall2 (fun c s => c !! "content" = Some (VStr s)) chunks docs ->
  Forall (fun c => meta_ok (without_content c) = true) chunks ->
  exists vs', add_chunks embed_api vs chunks = Ok vs' /\
    vs'.(vs_uuid) = (vs.(vs_uuid) + N.of_nat (length chunks))%N /\
    forall i c s, chunks !! i = Some c -> docs !! i = Some s ->
      vs'.(vs_collection) !! uuid4 (vs.(vs_uuid) + N.of_nat i)%N =
        Some (mkSR s mock_embedding (without_content c)).
Proof.
  intros Hcl Hne Hdocs Hmeta. pose proof (Forall2_length _ _ _ Hdocs) as Hlen.
  rewrite add_chunks_unfold by done. rewrite (content_docs _ _ Hdocs). simpl.
  unfold get_embeddings. rewrite Hcl. simpl.
  destruct docs as [|d docs']; [destruct chunks; simpl in Hlen; done|].
  rewrite (forallb_empty_false _ mock_embedding); [|by left|done].
  rewrite (collection_add_success _ _ _ (d :: docs')); rewrite ?length_drawn_ids, ?length_map; try lia.
  2:{ apply Forall_map, Forall_map, Forall_forall. intros _ _. apply mock_embedding_nonempty. }
  2:{ by apply Forall_map. }
  2:{ apply doc_str_map. }
  rewrite py_bind_Ok. eexists. split; [done|]. split; [done|]. intros i c s Hc Hs.
  pose proof (lookup_lt_Some _ _ _ Hc) as Hi.
  pose (x := (uuid4 (vs_uuid vs + N.of_nat i)%N, (s, (mock_embedding, without_content c)))).
  change (uuid4 (vs_uuid vs + N.of_nat i)%N) with x.1.
  apply fold_insert_lookup.
  - rewrite fst_zip4 by (rewrite ?length_drawn_ids, ?length_map; simpl in *; lia). apply drawn_ids_NoDup.
  - apply (list_elem_of_lookup_2 _ i). unfold x. rewrite !lookup_zip_Some.
    rewrite !map_as_fmap, !list_lookup_fmap, Hs, Hc, drawn_ids_lookup by lia.
    done.
Qed.
(** C14: when the embedding API answers with some empty and some
    non-empty embeddings, [add_chunks] does not add the valid subset (as
    its comment "Filter out chunks where embedding failed" and the spec
    say): it passes every row to [collection.add], which raises
    [ValueError], and nothing is stored. *)
Theorem add_chunks_partial_failure vs chunks documents es e :
  vs.(vs_client) = true -> chunks <> [] ->
  py_mapM (dict_getitem "content") chunks = Ok documents ->
  embed_api documents = Ok es -> [] ∈ es -> e ∈ es -> e <> [] ->
  add_chunks embed_api vs chunks = Raise ValueError.
Proof.
  intros Hcl Hne Hd Hapi Hempty He Hnz.
  rewrite add_chunks_unfold, Hd by done. simpl. unfold get_embeddings. rewrite Hcl, Hapi. simpl.
  rewrite (forallb_empty_false _ e), collection_add_empty_embedding by done. done.
Qed.

(** C15: a chunk with a non-scalar field besides ["content"] (the table
    extractor's ["raw_df"] dict) makes the whole [add_chunks] call raise
    [ValueError] as soon as some embedding is non-empty: no chunk of the
    batch is stored. *)
Theorem add_chunks_nonscalar_metadata vs chunks documents c e :
  chunks <> [] ->
  py_mapM (dict_getitem "content") chunks = Ok documents ->
  e ∈ get_embeddings embed_api vs documents -> e <> [] ->
  c ∈ chunks -> meta_ok (without_content c) = false ->
  add_chunks embed_api vs chunks = Raise ValueError.
Proof.
  intros Hne Hd He Hnz Hc Hmd.
  rewrite add_chunks_unfold, Hd by done. simpl.
  rewrite (forallb_empty_false _ e), (collection_add_bad_metadata _ _ _ _ _ (without_content c)); try done.
  rewrite map_as_fmap. by apply list_elem_of_fmap_2.
Qed.

(** C16: When the embedding API raises, [add_chunks] returns normally and
    leaves the collection unchanged; only the id supply moves. *)
Theorem add_chunks_api_failure_noop vs chunks documents ex :
  vs.(vs_client) = true ->
  py_mapM (dict_getitem "content") chunks = Ok documents ->
  embed_api documents = Raise ex ->
  add_chunks embed_api vs chunks =
    Ok (mkVS vs.(vs_collection) vs.(vs_client) (vs.(vs_uuid) + N.of_nat (length chunks))%N).
Proof.
  intros Hcl Hd Hapi. destruct (decide (chunks = [])) as [->|Hne].
  { destruct vs. simpl. by rewrite N.add_0_r. }
  rewrite add_chunks_unfold, Hd by done. simpl. unfold get_embeddings. rewrite Hcl, Hapi. simpl.
  replace (forallb _ _) with true; [done|]. symmetry. apply forallb_forall.
  intros x (? & <- & _)%in_map_iff. by apply bool_decide_eq_true.
Qed.

(** [query] never raises: when the query embedding cannot be computed
    (the API raises) or the nearest-neighbour search raises, it returns the
    empty-but-shaped result [{"ids": [[]], "documents": [[]], "metadatas": [[]]}]. *)
Theorem query_empty_on_failure vs q k :
  (vs.(vs_client) = true /\ exists ex, embed_api [VStr q] = Raise ex) \/
  (exists ex, forall emb, nn_search vs.(vs_collection) emb k = Raise ex) ->
  query embed_api nn_search vs q k = empty_result.
Proof. apply query_failure_empty. Qed.
End Props.

(** ** Witnesses *)

Abbreviation cfg_nokey := (default_config (fun _ => None)).
Abbreviation text_chunk := (<["content" := VStr "hello"]> (<["page" := VInt 1]> (∅ : chunk))).
Abbreviation text_chunk2 := (<["content" := VStr "world"]> (<["page" := VInt 2]> (∅ : chunk))).
Abbreviation table_chunk :=
  (<["content" := VStr "[]"]> (<["raw_df" := VDict [("0", VDict [("0", VStr "x")])]]> (∅ : chunk))).
Abbreviation api_fail := (fun _ : list pyval => Raise (A := list (list Q)) ExtError).
Abbreviation vs_one :=
  (match add_chunks api_fail (VectorStore_init cfg_nokey ∅ 0) [text_chunk] with
   | Ok v => v | Raise _ => VectorStore_init cfg_nokey ∅ 0 end).

Lemma vs_init_empty_inv : vs_inv (VectorStore_init cfg_nokey ∅ 0).
Proof. unfold vs_inv, VectorStore_init; cbn [vs_collection]. split; intros *; by rewrite lookup_empty. Qed.

Lemma vs_one_step : add_chunks api_fail (VectorStore_init cfg_nokey ∅ 0) [text_chunk] = Ok vs_one.
Proof. vm_compute. reflexivity. Qed.

Lemma vs_reachable_inv_witness :
  vs_reachable cfg_nokey ∅ 0 vs_one /\ vs_inv vs_one.
Proof.
  assert (Hr : vs_reachable cfg_nokey ∅ 0 vs_one) by (apply rtc_once, (step_add api_fail _ [text_chunk]); vm_compute; reflexivity).
  split; [exact Hr | apply (vs_reachable_inv cfg_nokey ∅ 0 vs_one); [apply vs_init_empty_inv | exact Hr]].
Defined.

Lemma add_chunks_keeps_witness :
  exists vs' r, vs_one.(vs_collection) !! uuid4 0 = Some r /\
    add_chunks api_fail vs_one [text_chunk2] = Ok vs' /\ vs'.(vs_collection) !! uuid4 0 = Some r.
Proof.
  eexists; eexists. split; [vm_compute; reflexivity|]. split; [vm_compute; reflexivity|].
  apply (add_chunks_keeps api_fail vs_one [text_chunk2]).
  - apply (add_chunks_preserves_inv api_fail (VectorStore_init cfg_nokey ∅ 0) [text_chunk] vs_one); [apply vs_init_empty_inv | apply vs_one_step].
  - vm_compute; reflexivity.
  - vm_compute; reflexivity.
Defined.

Lemma add_chunks_mock_roundtrip_witness :
  exists vs', add_chunks api_fail (VectorStore_init cfg_nokey ∅ 0) [text_chunk; text_chunk2] = Ok vs' /\
    vs'.(vs_uuid) = 2%N /\
    vs'.(vs_collection) !! uuid4 1 = Some (mkSR "world" mock_embedding (<["page" := VInt 2]> ∅)).
Proof.
  destruct (add_chunks_mock_roundtrip api_fail (VectorStore_init cfg_nokey ∅ 0) [text_chunk; text_chunk2]
              ["hello"; "world"]) as (vs' & Hadd & Hu & Hlook).
  - reflexivity.
  - discriminate.
  - repeat constructor.
  - repeat constructor; vm_compute; reflexivity.
  - exists vs'. split; [exact Hadd|]. split; [exact Hu|].
    change (uuid4 1) with (uuid4 (vs_uuid (VectorStore_init cfg_nokey ∅ 0) + N.of_nat 1)).
    rewrite (Hlook 1 text_chunk2 "world") by reflexivity. vm_compute. reflexivity.
Defined.

Lemma add_chunks_partial_failure_witness :
  add_chunks (fun _ => Ok [[]; [1#1]%Q]) (mkVS ∅ true 0) [text_chunk; text_chunk2] = Raise ValueError.
Proof.
  apply (add_chunks_partial_failure _ _ _ [VStr "hello"; VStr "world"] [[]; [1#1]%Q] [1#1]%Q).
  - reflexivity.
  - discriminate.
  - vm_compute; reflexivity.
  - reflexivity.
  - left.
  - right; left.
  - discriminate.
Defined.

Lemma add_chunks_nonscalar_metadata_witness :
  add_chunks api_fail (VectorStore_init cfg_nokey ∅ 0) [text_chunk; table_chunk] = Raise ValueError.
Proof.
  apply (add_chunks_nonscalar_metadata _ _ _ [VStr "hello"; VStr "[]"] table_chunk mock_embedding).
  - discriminate.
  - vm_compute; reflexivity.
  - left.
  - discriminate.
  - right; left.
  - vm_compute; reflexivity.
Defined.

Lemma add_chunks_api_failure_noop_witness :
  add_chunks api_fail (mkVS ∅ true 5) [text_chunk] = Ok (mkVS ∅ true 6).
Proof.
  change (mkVS ∅ true 6) with (mkVS (mkVS ∅ true 5).(vs_collection) (mkVS ∅ true 5).(vs_client)
                                    ((mkVS ∅ true 5).(vs_uuid) + N.of_nat (length [text_chunk]))%N).
  apply (add_chunks_api_failure_noop _ _ _ [VStr "hello"] ExtError); reflexivity.
Defined.

Lemma query_empty_on_failure_witness :
  query api_fail (fun _ _ _ => Ok (mkQR [["x"]] [["y"]] [[∅]] None)) (mkVS ∅ true 0) "q" 5 = empty_result.
Proof. apply query_empty_on_failure. left. split; [reflexivity | exists ExtError; reflexivity]. Defined.
