(* ===== verification/Retriever.v ===== *)
(** * The retriever ([src/retriever.py]) and the index contract

    [Retriever.retrieve(query, top_k)] asks the vector store for the
    nearest chunks ([VectorStore.query]) and turns the parallel arrays of
    the answer ([ids[0]], [documents[0]], [metadatas[0]], [distances[0]])
    into one record per id by indexing them with [i]; every index is a
    Python subscript that raises [IndexError] out of range.
    [format_results] is that loop, [retrieve] the method with its
    [top_k or config.TOP_K] fallback, for any query function; [zip_rows]
    is the reference the loop is proved equal to when the arrays are
    aligned.

    The class [NNSearch] states what the retriever needs from chromadb's
    nearest-neighbour search (not under [src/], modelled from the spec's
    index contract): an answer is a list of distinct rows of the
    collection, [min(k, size)] of them, and a query with a positive [k]
    and a non-empty embedding is answered.  [brute_force_nn] (exact
    search by any distance, the rows sorted by ascending distance with the
    stable sort of [StableSort]) is an instance.  The end-to-end theorems
    compose [add_chunks], [query] and [retrieve] against the class. *)

From S2P Require Import Prelude PyStr Config Chunk StableSort VectorStore.
From Stdlib Require Import QArith_base Sorting.Permutation.
Local Close Scope Q_scope.

(** A row of the answer: id, record, distance. *)
Definition row : Type := string * StoredRecord * Q.

Definition row_id (r : row) : string := r.1.1.
Definition row_rec (r : row) : StoredRecord := r.1.2.
Definition row_dist (r : row) : Q := r.2.

(** [collection.query] for one query embedding: one list per array. *)
Definition rows_result (rows : list row) : QueryResult :=
  mkQR [map row_id rows] [map (fun r => (row_rec r).(sr_document)) rows]
       [map (fun r => (row_rec r).(sr_metadata)) rows] (Some [map row_dist rows]).

(** ** The retriever *)

(** [results[key][0][i]] *)
Definition index2 {A} (l : list (list A)) (i : nat) : py A :=
  l0 <- py_index l 0 ;; py_index l0 i.

(** One iteration of the loop: the dict built from row [i]. *)
Definition result_row (r : QueryResult) (i : nat) : py RetrievedChunk :=
  id <- index2 r.(qr_ids) i ;;
  doc <- index2 r.(qr_documents) i ;;
  md <- index2 r.(qr_metadatas) i ;;
  dist <- (match r.(qr_distances) with
           | Some ds => d <- index2 ds i ;; Ok (Some d)
           | None => Ok None
           end) ;;
  Ok (mkRC id doc md dist None).

(** [for i in range(len(results['ids'][0])): chunks.append(...)] *)
Definition format_results (r : QueryResult) : py (list RetrievedChunk) :=
  ids0 <- py_index r.(qr_ids) 0 ;;
  py_mapM (result_row r) (seq 0 (length ids0)).

(** [retrieve(query, top_k)], for the store's [query] method [vquery]. *)
Definition retrieve (vquery : string -> Z -> QueryResult) (cfg : Config) (q : string) (top_k : option Z) :
    py (list RetrievedChunk) :=
  let k := py_or_int top_k cfg.(TOP_K) in
  format_results (vquery q k).

(** The reference: zip the aligned arrays. *)
Fixpoint zip_rows (ids docs : list string) (mds : list chunk) (dists : option (list Q)) : list RetrievedChunk :=
  match ids, docs, mds with
  | i :: ids', d :: docs', m :: mds' =>
      mkRC i d m (dists ≫= head) None :: zip_rows ids' docs' mds' (tail <$> dists)
  | _, _, _ => []
  end.

(** ** Lemmas on the loop *)

Lemma py_index_lookup {A} (l : list A) i : py_index l i = match l !! i with Some x => Ok x | None => Raise IndexError end.
Proof. unfold py_index. revert i; induction l; intros [|i]; simpl; auto. Qed.

Lemma py_index_lt {A} (l : list A) i : i < length l -> exists x, l !! i = Some x /\ py_index l i = Ok x.
Proof.
  intros Hi. destruct (lookup_lt_is_Some_2 l i Hi) as [x Hx]. exists x. by rewrite py_index_lookup, Hx.
Qed.

Lemma py_index_ge {A} (l : list A) i : length l <= i -> py_index l i = Raise IndexError.
Proof. intros Hi. rewrite py_index_lookup, lookup_ge_None_2 by done. done. Qed.

Lemma index2_ok {A} (l0 : list A) rest i x :
  l0 !! i = Some x -> index2 (l0 :: rest) i = Ok x.
Proof. intros H. unfold index2. simpl. by rewrite py_index_lookup, H. Qed.

(** The first distance array, when the answer has distances. *)
Definition first_dists (r : QueryResult) : option (list Q) := r.(qr_distances) ≫= head.

Lemma zip_rows_length ids docs mds dists :
  length ids <= length docs -> length ids <= length mds ->
  length (zip_rows ids docs mds dists) = length ids.
Proof.
  revert docs mds dists; induction ids as [|a ids IH]; intros [|d docs] [|m mds] dists; simpl; try lia.
  intros. f_equal. apply IH; lia.
Qed.

Lemma zip_rows_lookup ids docs mds dists i a d m :
  ids !! i = Some a -> docs !! i = Some d -> mds !! i = Some m ->
  zip_rows ids docs mds dists !! i = Some (mkRC a d m (dists ≫= (fun ds => ds !! i)) None).
Proof.
  revert docs mds dists i; induction ids as [|a' ids IH]; intros [|d' docs] [|m' mds] dists [|i];
    simpl; try discriminate; intros Ha Hd Hm.
  - simplify_eq. by destruct dists as [[|??]|].
  - rewrite (IH _ _ _ _ Ha Hd Hm). by destruct dists as [[|??]|].
Qed.

(** Row [i] of an aligned answer. *)
Lemma result_row_aligned r ids docs mds i a d m :
  head r.(qr_ids) = Some ids -> head r.(qr_documents) = Some docs -> head r.(qr_metadatas) = Some mds ->
  (forall dss, r.(qr_distances) = Some dss -> exists ds, head dss = Some ds /\ length ids <= length ds) ->
  ids !! i = Some a -> docs !! i = Some d -> mds !! i = Some m ->
  result_row r i = Ok (mkRC a d m (first_dists r ≫= (fun ds => ds !! i)) None).
Proof.
  destruct r as [[|ids' ?] [|docs' ?] [|mds' ?] dss]; simpl; try discriminate.
  intros [= ->] [= ->] [= ->] Hds Ha Hd Hm. unfold result_row. simpl.
  rewrite (index2_ok ids _ i a), (index2_ok docs _ i d), (index2_ok mds _ i m) by done. simpl.
  destruct dss as [dss|]; simpl; [|done].
  destruct (Hds dss eq_refl) as (ds & Hh & Hl). destruct dss as [|ds' dss]; [done|]. simpl in *.
  injection Hh as ->. destruct (lookup_lt_is_Some_2 ds i) as [x Hx].
  { apply lookup_lt_Some in Ha. lia. }
  rewrite (index2_ok ds _ i x) by done. simpl. by rewrite Hx.
Qed.

(** ** The index contract *)

Class NNSearch (nn : gmap string StoredRecord -> list Q -> Z -> py QueryResult) := {
  (** an answer lists distinct rows of the collection, [min(k, size)] of them *)
  nn_rows : forall coll e k r, nn coll e k = Ok r ->
    exists rows, r = rows_result rows /\
      Forall (fun x => coll !! row_id x = Some (row_rec x)) rows /\
      NoDup (map row_id rows) /\ length rows = Nat.min (Z.to_nat k) (size coll);
  (** a positive [k] and a non-empty embedding get an answer *)
  nn_answers : forall coll e k, (0 < k)%Z -> e <> [] -> exists r, nn coll e k = Ok r
}.

(** ** An instance: exact search by a distance *)

Section BruteForce.
Variable dist : list Q -> list Q -> Q.

Definition bf_key (e : list Q) (p : string * StoredRecord) : Q * row :=
  ((- dist e p.2.(sr_embedding))%Q, (p.1, p.2, dist e p.2.(sr_embedding))).

(** The records by ascending distance, ties in the map's order. *)
Definition bf_rows (coll : gmap string StoredRecord) (e : list Q) : list row :=
  map snd (sort_desc (map (bf_key e) (map_to_list coll))).

Definition bf_search (coll : gmap string StoredRecord) (e : list Q) (k : Z) : py QueryResult :=
  if Z.leb k 0 then Raise ValueError else Ok (rows_result (take (Z.to_nat k) (bf_rows coll e))).

Lemma bf_rows_perm coll e : Permutation (bf_rows coll e) (map (fun p => snd (bf_key e p)) (map_to_list coll)).
Proof. unfold bf_rows. rewrite sort_desc_perm, map_map. done. Qed.

Lemma bf_rows_in coll e x : x ∈ bf_rows coll e -> coll !! row_id x = Some (row_rec x).
Proof.
  rewrite bf_rows_perm. intros (p & Hx & Hp)%list_elem_of_In%in_map_iff. subst x.
  destruct p as [id rec]. apply elem_of_map_to_list. by apply list_elem_of_In.
Qed.

Lemma bf_rows_ids coll e : NoDup (map row_id (bf_rows coll e)).
Proof.
  rewrite bf_rows_perm, map_map. pose proof (NoDup_fst_map_to_list coll) as H.
  rewrite <- map_as_fmap in H. erewrite map_ext; [exact H|]. done.
Qed.

Lemma length_bf_rows coll e : length (bf_rows coll e) = size coll.
Proof. by rewrite bf_rows_perm, length_map, length_map_to_list. Qed.

#[export] Instance brute_force_nn : NNSearch bf_search.
Proof.
  split.
  - intros coll e k r. unfold bf_search. destruct (Z.leb_spec k 0); [discriminate|]. intros [= <-].
    eexists. split; [done|]. split_and!.
    + apply Forall_forall. intros x (i & Hi & _)%elem_of_take.
      by apply (bf_rows_in coll e), (list_elem_of_lookup_2 _ i).
    + apply (sublist_NoDup _ (map row_id (bf_rows coll e))); [apply bf_rows_ids|].
      rewrite !map_as_fmap. apply fmap_sublist, sublist_take.
    + by rewrite length_take, length_bf_rows.
  - intros coll e k Hk _. unfold bf_search. destruct (Z.leb_spec k 0); [lia|]. by eexists.
Qed.
End BruteForce.

(** ** The loop against the reference *)

(** When the first arrays are aligned with [ids[0]], the loop returns
    their zip. *)
Lemma format_results_zip r ids docs mds :
  head r.(qr_ids) = Some ids -> head r.(qr_documents) = Some docs -> head r.(qr_metadatas) = Some mds ->
  length ids <= length docs -> length ids <= length mds ->
  (forall dss, r.(qr_distances) = Some dss -> exists ds, head dss = Some ds /\ length ids <= length ds) ->
  format_results r = Ok (zip_rows ids docs mds (first_dists r)).
Proof.
  intros Hi Hd Hm Hld Hlm Hds. unfold format_results.
  replace (py_index r.(qr_ids) 0) with (Ok (A := list string) ids)
    by (destruct r as [[|??]]; simpl in *; by simplify_eq).
  rewrite py_bind_Ok. apply py_mapM_Ok_iff, Forall2_lookup. intros i.
  destruct (decide (i < length ids)) as [Hlt|Hge].
  - rewrite (proj2 (lookup_seq 0 _ i i)) by lia.
    destruct (lookup_lt_is_Some_2 ids i Hlt) as [a Ha].
    destruct (lookup_lt_is_Some_2 docs i) as [d Hd']; [lia|].
    destruct (lookup_lt_is_Some_2 mds i) as [m Hm']; [lia|].
    rewrite (zip_rows_lookup _ _ _ _ i a d m) by done. constructor.
    by apply (result_row_aligned r ids docs mds).
  - rewrite !lookup_ge_None_2; [constructor | rewrite zip_rows_length; lia | rewrite length_seq; lia].
Qed.

(** The dict the loop builds for a row of the index's answer. *)
Definition row_chunk (x : row) : RetrievedChunk :=
  mkRC (row_id x) (row_rec x).(sr_document) (row_rec x).(sr_metadata) (Some (row_dist x)) None.

Lemma zip_rows_map rows dists :
  dists = Some (map row_dist rows) ->
  zip_rows (map row_id rows) (map (fun r => (row_rec r).(sr_document)) rows)
           (map (fun r => (row_rec r).(sr_metadata)) rows) dists = map row_chunk rows.
Proof. revert dists; induction rows as [|x rows IH]; intros dists ->; simpl; [done|]. by rewrite (IH _ eq_refl). Qed.

Lemma format_results_rows_ok rows : format_results (rows_result rows) = Ok (map row_chunk rows).
Proof.
  rewrite (format_results_zip _ (map row_id rows) (map (fun r => (row_rec r).(sr_document)) rows)
             (map (fun r => (row_rec r).(sr_metadata)) rows)); rewrite ?length_map; try done.
  - by rewrite zip_rows_map.
  - intros dss [= <-]. exists (map row_dist rows). by rewrite length_map.
Qed.

(** [retrieve] through the store's [query] is either the empty answer
    or the rows of one neighbour search. *)
Lemma retrieve_query_cases embed_api nn vs cfg q top_k out :
  retrieve (query embed_api nn vs) cfg q top_k = Ok out ->
  out = [] \/ exists e r, e <> [] /\
    nn vs.(vs_collection) e (py_or_int top_k cfg.(TOP_K)) = Ok r /\ format_results r = Ok out.
Proof.
  unfold retrieve, query.
  destruct (head (get_embeddings embed_api vs [VStr q])) as [[|x e]|]; try (vm_compute; intros [= <-]; by left).
  destruct (nn _ _ _) as [r|] eqn:Hnn; [|vm_compute; intros [= <-]; by left].
  intros Hf. right. exists (x :: e), r. split_and!; done.
Qed.

Lemma index2_errors {A} (l : list (list A)) i : (exists x, index2 l i = Ok x) \/ index2 l i = Raise IndexError.
Proof.
  unfold index2, py_index. destruct (nth_error l 0) as [l0|]; simpl; [|by right].
  destruct (nth_error l0 i); simpl; [left; by eexists | by right].
Qed.

(** Every failure of a row is an [IndexError]. *)
Lemma result_row_errors r i : (exists rc, result_row r i = Ok rc) \/ result_row r i = Raise IndexError.
Proof.
  unfold result_row.
  destruct (index2_errors r.(qr_ids) i) as [[? ->]| ->]; simpl; [|by right].
  destruct (index2_errors r.(qr_documents) i) as [[? ->]| ->]; simpl; [|by right].
  destruct (index2_errors r.(qr_metadatas) i) as [[? ->]| ->]; simpl; [|by right].
  destruct r.(qr_distances) as [ds|]; simpl; [|left; by eexists].
  destruct (index2_errors ds i) as [[? ->]| ->]; simpl; [left; by eexists | by right].
Qed.

(** The store after adding one chunk to an empty collection. *)
Lemma add_one_chunk embed_api vs c s e vs' :
  vs.(vs_collection) = ∅ -> c !! "content" = Some (VStr s) -> meta_ok (without_content c) = true ->
  get_embeddings embed_api vs [VStr s] = [e] -> e <> [] ->
  add_chunks embed_api vs [c] = Ok vs' ->
  vs'.(vs_collection) = <[uuid4 vs.(vs_uuid) := mkSR s e (without_content c)]> ∅ /\
  vs'.(vs_client) = vs.(vs_client).
Proof.
  intros Hempty Hc Hmd He Hne. rewrite add_chunks_unfold by done. simpl.
  unfold dict_getitem at 1. rewrite Hc. simpl. rewrite He. simpl.
  rewrite (bool_decide_false _ Hne). simpl.
  rewrite (collection_add_success _ _ _ [s]); try done; [|by repeat constructor..].
  simpl. intros [= <-]. simpl. rewrite Hempty, N.add_0_r. done.
Qed.

(** ** Properties of the retriever *)

(** C17: when the store's answer has [documents[0]] and [metadatas[0]]
    (and [distances[0]], if present) at least as long as [ids[0]],
    [retrieve] returns their zip: one record per id, in the answer's order,
    with the id's document, metadata and distance. *)
Theorem retrieve_aligned vquery cfg q top_k ids docs mds :
  let r := vquery q (py_or_int top_k cfg.(TOP_K)) in
  head r.(qr_ids) = Some ids -> head r.(qr_documents) = Some docs -> head r.(qr_metadatas) = Some mds ->
  length ids <= length docs -> length ids <= length mds ->
  (forall dss, r.(qr_distances) = Some dss -> exists ds, head dss = Some ds /\ length ids <= length ds) ->
  retrieve vquery cfg q top_k = Ok (zip_rows ids docs mds (first_dists r)).
Proof. intros r. apply format_results_zip. Qed.

(** When [documents[0]] is shorter than [ids[0]], [retrieve] raises
    [IndexError] (the spec assumes the arrays are aligned). *)
Theorem retrieve_short_documents vquery cfg q top_k ids docs :
  let r := vquery q (py_or_int top_k cfg.(TOP_K)) in
  head r.(qr_ids) = Some ids -> head r.(qr_documents) = Some docs -> length docs < length ids ->
  retrieve vquery cfg q top_k = Raise IndexError.
Proof.
  intros r Hi Hd Hlt. unfold retrieve. fold r. unfold format_results.
  destruct r as [[|ids' ?] [|docs' ?] mds dss]; simpl in *; simplify_eq. rewrite ?py_bind_Ok.
  apply py_mapM_raise; [intros; apply result_row_errors|].
  exists (length docs). split; [apply elem_of_seq; lia|].
  unfold result_row. destruct (lookup_lt_is_Some_2 ids (length docs)) as [a Ha]; [lia|].
  cbn [qr_ids qr_documents]. rewrite (index2_ok _ _ _ a) by done. simpl.
  unfold index2. simpl. by rewrite py_index_ge.
Qed.

(** C20: When the query embedding fails or the neighbour search raises,
    [retrieve] through the store's [query] returns [[]] and does not
    raise. *)
Theorem retrieve_degrades embed_api nn vs cfg q top_k :
  (vs.(vs_client) = true /\ exists ex, embed_api [VStr q] = Raise ex) \/
  (exists ex, forall e k, nn vs.(vs_collection) e k = Raise ex) ->
  retrieve (query embed_api nn vs) cfg q top_k = Ok [].
Proof.
  intros H. unfold retrieve. rewrite query_failure_empty; [done|].
  destruct H as [H | [ex Hnn]]; [by left | right; exists ex; intros; apply Hnn].
Qed.

(** C18: against any index meeting [NNSearch], every chunk [retrieve]
    returns is a record of the collection (same id, document and
    metadata), no id is returned twice, and at most [k] chunks are
    returned, [k = top_k or TOP_K]. *)
Theorem retrieve_sound `{NNSearch nn} embed_api vs cfg q top_k out :
  retrieve (query embed_api nn vs) cfg q top_k = Ok out ->
  Forall (fun rc => exists rec, vs.(vs_collection) !! rc.(rc_id) = Some rec /\
            rec.(sr_document) = rc.(rc_content) /\ rec.(sr_metadata) = rc.(rc_metadata)) out /\
  NoDup (map rc_id out) /\ length out <= Z.to_nat (py_or_int top_k cfg.(TOP_K)).
Proof.
  intros [-> | (e & r & _ & Hnn & Hf)]%retrieve_query_cases; [split_and!; [constructor..|simpl; lia]|].
  destruct (nn_rows _ _ _ _ Hnn) as (rows & -> & Hin & Hnd & Hlen).
  rewrite format_results_rows_ok in Hf. injection Hf as <-. split_and!.
  - apply Forall_map. eapply Forall_impl; [exact Hin|]. intros x Hx. by exists (row_rec x).
  - by rewrite map_map.
  - rewrite length_map, Hlen. lia.
Qed.

(** C19: round trip through the index.  After [add_chunks] of one chunk
    into an empty collection, with a non-empty embedding for its content,
    a [retrieve] whose query embedding is non-empty and whose [k] is
    positive returns exactly that chunk: its fresh id, its content, its
    other fields, and the index's distance. *)
Theorem add_then_retrieve `{NNSearch nn} embed_api vs vs' cfg c s q top_k e e' :
  vs.(vs_collection) = ∅ -> c !! "content" = Some (VStr s) -> meta_ok (without_content c) = true ->
  get_embeddings embed_api vs [VStr s] = [e] -> e <> [] ->
  head (get_embeddings embed_api vs [VStr q]) = Some e' -> e' <> [] ->
  (0 < py_or_int top_k cfg.(TOP_K))%Z ->
  add_chunks embed_api vs [c] = Ok vs' ->
  exists d, retrieve (query embed_api nn vs') cfg q top_k =
    Ok [mkRC (uuid4 vs.(vs_uuid)) s (without_content c) (Some d) None].
Proof.
  intros Hempty Hc Hmd He Hne Hq Hne' Hk Hadd.
  destruct (add_one_chunk _ _ _ _ _ _ Hempty Hc Hmd He Hne Hadd) as [Hcoll Hcl].
  unfold retrieve, query.
  replace (get_embeddings embed_api vs' [VStr q]) with (get_embeddings embed_api vs [VStr q])
    by (unfold get_embeddings; by rewrite Hcl).
  rewrite Hq. destruct e' as [|x e'']; [done|].
  destruct (nn_answers (vs_collection vs') (x :: e'') _ Hk Hne') as [r Hr]. rewrite Hr.
  destruct (nn_rows _ _ _ _ Hr) as (rows & -> & Hin & _ & Hlen).
  rewrite Hcoll, map_size_insert, lookup_empty, map_size_empty in Hlen.
  destruct rows as [|y [|??]]; simpl in Hlen; try lia.
  rewrite Forall_singleton, Hcoll in Hin.
  apply lookup_insert_Some in Hin as [[Hid Hrec] | [_ Hin]]; [|by rewrite lookup_empty in Hin].
  exists (row_dist y). rewrite format_results_rows_ok. simpl. unfold row_chunk. by rewrite <- Hid, <- Hrec.
Qed.

(** ** Witnesses *)

Abbreviation answer2 :=
  (mkQR [["a"; "b"]] [["x"; "y"]] [[∅; ∅]] (Some [[1#1; 2#1]%Q])).
Abbreviation answer_short := (mkQR [["a"; "b"]] [["x"]] [[∅; ∅]] None).
Abbreviation dist0 := (fun _ _ : list Q => 0%Q).

Lemma retrieve_aligned_witness :
  retrieve (fun _ _ => answer2) cfg_nokey "q" None =
    Ok [mkRC "a" "x" ∅ (Some (1#1)%Q) None; mkRC "b" "y" ∅ (Some (2#1)%Q) None].
Proof.
  apply (retrieve_aligned (fun _ _ => answer2) cfg_nokey "q" None ["a"; "b"] ["x"; "y"] [∅; ∅]);
    simpl; try reflexivity; try lia.
  intros dss [= <-]. exists [1#1; 2#1]%Q. split; [reflexivity | simpl; lia].
Defined.

Lemma retrieve_short_documents_witness :
  retrieve (fun _ _ => answer_short) cfg_nokey "q" None = Raise IndexError.
Proof. apply (retrieve_short_documents _ _ _ _ ["a"; "b"] ["x"]); simpl; try reflexivity; lia. Defined.

Lemma retrieve_degrades_witness :
  retrieve (query api_fail (bf_search dist0) (mkVS ∅ true 0)) cfg_nokey "q" None = Ok [].
Proof. apply retrieve_degrades. left. split; [reflexivity | exists ExtError; reflexivity]. Defined.

Lemma retrieve_sound_witness :
  retrieve (query api_fail (bf_search dist0) vs_one) cfg_nokey "q" None =
    Ok [mkRC (uuid4 0) "hello" (<["page" := VInt 1]> ∅) (Some 0%Q) None] /\
  length [mkRC (uuid4 0) "hello" (<["page" := VInt 1]> ∅) (Some 0%Q) None] <= Z.to_nat (py_or_int None cfg_nokey.(TOP_K)).
Proof.
  assert (H : retrieve (query api_fail (bf_search dist0) vs_one) cfg_nokey "q" None =
    Ok [mkRC (uuid4 0) "hello" (<["page" := VInt 1]> ∅) (Some 0%Q) None]) by (vm_compute; reflexivity).
  split; [exact H|]. exact (proj2 (proj2 (retrieve_sound _ _ _ _ _ _ H))).
Defined.

Lemma add_then_retrieve_witness :
  exists d, retrieve (query api_fail (bf_search dist0) vs_one) cfg_nokey "q" None =
    Ok [mkRC (uuid4 0) "hello" (<["page" := VInt 1]> ∅) (Some d) None].
Proof.
  refine (add_then_retrieve api_fail (VectorStore_init cfg_nokey ∅ 0) vs_one cfg_nokey text_chunk "hello" "q" None
            mock_embedding mock_embedding _ _ _ _ _ _ _ _ _); try reflexivity; apply mock_embedding_nonempty.
Defined.
