(* ===== verification/Merger.v ===== *)
(** * The multimodal merger ([src/multimodal_merger.py])

    [create_context] renders each retrieved chunk (numbered from 1) as a
    type-specific header and its content, and joins the blocks with a
    separator line; [merge_by_page] and [merge_by_type] group chunks in a
    [defaultdict(list)] keyed by a metadata value.

    f-strings format a value with [str()]: [py_format] writes out [str] for
    strings, ints (stdpp's [pretty] on [Z] prints the sign and the decimal
    digits as CPython does), booleans and [None]; the [str()] of floats,
    dicts and lists is the Section variable [fmt_other].

    Dict keys compare by Python's [==] and hash: [1], [1.0] and [True] are
    one key, the first one inserted is kept; a dict or list key raises
    [TypeError] (unhashable). *)

From S2P Require Import Prelude PyStr Chunk.
From stdpp Require Import pretty.
From Stdlib Require Import Ascii QArith_base.
Local Close Scope Q_scope.

(** ["\n"] *)
Definition nl : string := String "010"%char EmptyString.

(** The separator ["\n-------------------\n"]. *)
Definition context_sep : string := (nl ++ "-------------------" ++ nl)%string.

Section WithFormat.
Local Open Scope string_scope.
(** [str(v)] of a float, a dict or a list. *)
Variable fmt_other : pyval -> string.

(** [f"{v}"] *)
Definition py_format (v : pyval) : string :=
  match v with
  | VStr s => s
  | VInt z => pretty z
  | VBool true => "True"
  | VBool false => "False"
  | VNone => "None"
  | _ => fmt_other v
  end.

(** The header of the [i]-th chunk. *)
Definition header (i : nat) (md : chunk) : string :=
  let chunk_type := dict_get "type" md (VStr "text") in
  let page := py_format (dict_get "page" md (VStr "Unknown")) in
  let idx := pretty (N.of_nat i) in
  if pyval_eq_str chunk_type "table" then
    "[Table " ++ idx ++ "]" ++ nl ++ "Page: " ++ page
  else if pyval_eq_str chunk_type "ocr" then
    "[OCR Extract " ++ idx ++ "]" ++ nl ++ "Page: " ++ page ++ ", Figure: " ++
      py_format (dict_get "image_index" md (VStr "N/A"))
  else if pyval_eq_str chunk_type "chart_metadata" then
    "[Chart Metadata " ++ idx ++ "]" ++ nl ++ "Page: " ++ page ++ nl ++ "Title: " ++
      py_format (dict_get "title" md (VStr "N/A"))
  else
    "[Text Chunk " ++ idx ++ "]" ++ nl ++ "Page: " ++ page ++ ", Section: " ++
      py_format (dict_get "section" md (VStr "N/A")).

(** [f"{header}\nContent: {chunk['content']}\n"] *)
Definition block (i : nat) (c : RetrievedChunk) : string :=
  header i c.(rc_metadata) ++ nl ++ "Content: " ++ c.(rc_content) ++ nl.

(** The loop [for i, chunk in enumerate(chunks, 1)], from index [i]. *)
Fixpoint blocks (i : nat) (cs : list RetrievedChunk) : list string :=
  match cs with
  | [] => []
  | c :: cs' => block i c :: blocks (S i) cs'
  end.

(** [create_context(chunks)] *)
Definition create_context (cs : list RetrievedChunk) : string :=
  py_join context_sep (blocks 1 cs).

(** The formatted metadata values and the content a block shows. *)
Definition shown_fields (c : RetrievedChunk) : list string :=
  let md := c.(rc_metadata) in
  let chunk_type := dict_get "type" md (VStr "text") in
  let extra :=
    if pyval_eq_str chunk_type "table" then []
    else if pyval_eq_str chunk_type "ocr" then [py_format (dict_get "image_index" md (VStr "N/A"))]
    else if pyval_eq_str chunk_type "chart_metadata" then [py_format (dict_get "title" md (VStr "N/A"))]
    else [py_format (dict_get "section" md (VStr "N/A"))] in
  py_format (dict_get "page" md (VStr "Unknown")) :: extra ++ [c.(rc_content)].
End WithFormat.

(** ** Counting ["Content:"] *)

Definition content_marker : string := "Content:".

Lemma pretty_N_char_not_C d : Ascii.eqb "C" (pretty_N_char d) = false.
Proof.
  unfold pretty_N_char.
  destruct d as [|[[[[]|[]|]|[[]|[]|]|]|[[[]|[]|]|[[]|[]|]|]|]]; reflexivity.
Qed.

Lemma char_in_C_pretty_N_go x s :
  char_in "C" s = false -> char_in "C" (pretty_N_go x s) = false.
Proof.
  revert s. induction (N.lt_wf_0 x) as [x _ IH]; intros s Hs.
  destruct (decide (0 < x)%N) as [Hx|Hx]; [|by replace x with 0%N by lia].
  rewrite pretty_N_go_step by done. apply IH; [by apply N.div_lt|].
  cbn [char_in]. by rewrite Hs, orb_false_r, pretty_N_char_not_C.
Qed.

Lemma occ_pretty_N (n : N) : occ content_marker (pretty n) = 0.
Proof.
  apply (occ_no_head _ _ "C" "ontent:"); [done|].
  unfold pretty, pretty_N. case_decide; [done|]. by apply char_in_C_pretty_N_go.
Qed.

#[export] Hint Rewrite occ_pretty_N : pydb.

Lemma occ_block fmt_other i c :
  occ content_marker (block fmt_other i c) = 1 + sum_list (map (occ content_marker) (shown_fields fmt_other c)).
Proof.
  unfold block, header, shown_fields, content_marker.
  destruct (pyval_eq_str _ "table"); [|destruct (pyval_eq_str _ "ocr"); [|destruct (pyval_eq_str _ "chart_metadata")]];
    rewrite <- ?app_assoc; autorewrite with pydb; simpl; lia.
Qed.

Lemma occ_join_sep l : occ content_marker (py_join context_sep l) = sum_list (map (occ content_marker) l).
Proof.
  induction l as [|x [|y l] IH]; simpl; [done|lia|].
  unfold context_sep in *. autorewrite with pydb in *. simpl in *. lia.
Qed.

Lemma occ_blocks fmt_other i cs :
  sum_list (map (occ content_marker) (blocks fmt_other i cs)) =
  length cs + sum_list (map (fun c => sum_list (map (occ content_marker) (shown_fields fmt_other c))) cs).
Proof. revert i; induction cs as [|c cs IH]; intros i; cbn [blocks map sum_list length]; [done|]. rewrite occ_block, IH. unfold id. lia. Qed.

(** C21: ["Content:"] occurs in [create_context(chunks)] once per chunk
    plus the occurrences inside the values the blocks show (page, figure,
    title or section, and the content): the spec's "one ["Content:"] per
    chunk" holds exactly when no shown value contains it. *)
Theorem create_context_content_count fmt_other cs :
  occ content_marker (create_context fmt_other cs) =
  length cs + sum_list (map (fun c => sum_list (map (occ content_marker) (shown_fields fmt_other c))) cs).
Proof. unfold create_context. by rewrite occ_join_sep, occ_blocks. Qed.

(** ** Grouping: [merge_by_page] and [merge_by_type] *)

(** The number a value stands for under [==]: ints, floats and bools. *)
Definition num_val (v : pyval) : option Q :=
  match v with
  | VInt z => Some (inject_Z z)
  | VFloat q => Some q
  | VBool b => Some (if b then 1%Q else 0%Q)
  | _ => None
  end.

(** [a == b] between dict keys. *)
Definition py_eq_key (a b : pyval) : bool :=
  match num_val a, num_val b with
  | Some x, Some y => Qeq_bool x y
  | None, None =>
      match a, b with
      | VStr s, VStr t => String.eqb s t
      | VNone, VNone => true
      | _, _ => false
      end
  | _, _ => false
  end.

(** [hash(v)] succeeds. *)
Definition hashable (v : pyval) : bool :=
  match v with VDict _ | VList _ => false | _ => true end.

(** [groups[k].append(c)] on a [defaultdict(list)] kept as an association
    list in insertion order. *)
Fixpoint group_add (groups : list (pyval * list RetrievedChunk)) (k : pyval) (c : RetrievedChunk) :
    list (pyval * list RetrievedChunk) :=
  match groups with
  | [] => [(k, [c])]
  | (k', g) :: gs => if py_eq_key k' k then (k', g ++ [c]) :: gs else (k', g) :: group_add gs k c
  end.

(** The loop of [merge_by_page] / [merge_by_type] for the key function. *)
Fixpoint merge_loop (key : RetrievedChunk -> pyval) (groups : list (pyval * list RetrievedChunk))
    (cs : list RetrievedChunk) : py (list (pyval * list RetrievedChunk)) :=
  match cs with
  | [] => Ok groups
  | c :: cs' => if hashable (key c) then merge_loop key (group_add groups (key c) c) cs' else Raise TypeError
  end.

(** [chunk['metadata'].get('page', 0)] *)
Definition page_key (c : RetrievedChunk) : pyval := dict_get "page" c.(rc_metadata) (VInt 0).
(** [chunk['metadata'].get('type', 'unknown')] *)
Definition type_key (c : RetrievedChunk) : pyval := dict_get "type" c.(rc_metadata) (VStr "unknown").

Definition merge_by_page (cs : list RetrievedChunk) := merge_loop page_key [] cs.
Definition merge_by_type (cs : list RetrievedChunk) := merge_loop type_key [] cs.

(** The reference grouping: the keys in order of first occurrence (one
    per class of [==]), each with the chunks whose key equals it. *)
Definition reps_step (rs : list pyval) (k : pyval) : list pyval :=
  if existsb (fun r => py_eq_key r k) rs then rs else rs ++ [k].

Definition group_ref (key : RetrievedChunk -> pyval) (cs : list RetrievedChunk) : list (pyval * list RetrievedChunk) :=
  map (fun r => (r, filter (fun c => py_eq_key r (key c)) cs)) (fold_left reps_step (map key cs) []).

Lemma py_eq_key_sym a b : py_eq_key a b = py_eq_key b a.
Proof.
  unfold py_eq_key. destruct (num_val a) as [x|], (num_val b) as [y|]; try done.
  - apply eq_true_iff_eq. rewrite !Qeq_bool_iff. split; intros; by symmetry.
  - destruct a, b; try done. apply eq_true_iff_eq. rewrite !String.eqb_eq. split; intros; by symmetry.
Qed.

Lemma py_eq_key_trans a b c : py_eq_key a b = true -> py_eq_key b c = true -> py_eq_key a c = true.
Proof.
  unfold py_eq_key. destruct (num_val a) as [x|] eqn:Ha, (num_val b) as [y|] eqn:Hb, (num_val c) as [z|] eqn:Hc;
    try done.
  - rewrite !Qeq_bool_iff. apply Qeq_trans.
  - destruct a, b, c; simpl in *; try done. rewrite !String.eqb_eq. congruence.
Qed.

Lemma py_eq_key_refl a : hashable a = true -> py_eq_key a a = true.
Proof.
  destruct a; simpl; try done; intros _.
  - apply String.eqb_refl.
  - apply Qeq_bool_iff. reflexivity.
  - apply Qeq_bool_iff. reflexivity.
  - apply Qeq_bool_iff. reflexivity.
Qed.

#[export] Hint Resolve py_eq_key_refl : rag.

(** No two representatives are [==]. *)
Definition distinct_keys (rs : list pyval) : Prop :=
  forall i j r1 r2, rs !! i = Some r1 -> rs !! j = Some r2 -> py_eq_key r1 r2 = true -> i = j.

Lemma existsb_false_lookup (rs : list pyval) k i r :
  existsb (fun r => py_eq_key r k) rs = false -> rs !! i = Some r -> py_eq_key r k = false.
Proof.
  intros Hf Hi. apply not_true_iff_false. intros Hr. apply not_true_iff_false in Hf. apply Hf.
  apply existsb_exists. exists r. split; [apply list_elem_of_In; by apply (list_elem_of_lookup_2 _ i)|done].
Qed.

Lemma reps_step_distinct rs k : distinct_keys rs -> distinct_keys (reps_step rs k).
Proof.
  unfold reps_step. destruct (existsb _ rs) eqn:E; [done|]. intros Hd i j r1 r2 H1 H2 H12.
  apply lookup_app_Some in H1 as [H1|[Hl1 H1]], H2 as [H2|[Hl2 H2]].
  - by apply (Hd i j r1 r2).
  - apply list_lookup_singleton_Some in H2 as [_ <-]. by rewrite (existsb_false_lookup _ _ _ _ E H1) in H12.
  - apply list_lookup_singleton_Some in H1 as [_ <-]. rewrite py_eq_key_sym in H12.
    by rewrite (existsb_false_lookup _ _ _ _ E H2) in H12.
  - apply list_lookup_singleton_Some in H1 as [? _], H2 as [? _]. lia.
Qed.

Lemma reps_step_incl rs k r : r ∈ rs -> r ∈ reps_step rs k.
Proof. unfold reps_step. destruct (existsb _ _); [done|]. intros. apply elem_of_app. by left. Qed.

Lemma reps_step_cover rs k :
  hashable k = true -> exists r, r ∈ reps_step rs k /\ py_eq_key r k = true.
Proof.
  intros Hk. unfold reps_step. destruct (existsb _ rs) eqn:E.
  - apply existsb_exists in E as (r & Hr & Hrk). exists r. split; [by apply list_elem_of_In|done].
  - exists k. split; [apply elem_of_app; right; by left | by apply py_eq_key_refl].
Qed.

Section Grouping.
Variable key : RetrievedChunk -> pyval.

Definition reps (p : list RetrievedChunk) : list pyval := fold_left reps_step (map key p) [].

Lemma reps_snoc p c : reps (p ++ [c]) = reps_step (reps p) (key c).
Proof. unfold reps. by rewrite map_app, fold_left_app. Qed.

Lemma reps_distinct p : distinct_keys (reps p).
Proof.
  induction p as [|c p IH] using rev_ind.
  - intros i j r1 r2 H1. unfold reps in H1. simpl in H1. by rewrite lookup_nil in H1.
  - rewrite reps_snoc. by apply reps_step_distinct.
Qed.

Lemma reps_cover p :
  Forall (fun c => hashable (key c) = true) p ->
  forall x, x ∈ p -> exists r, r ∈ reps p /\ py_eq_key r (key x) = true.
Proof.
  induction p as [|c p IH] using rev_ind; intros Hh x Hx; [by apply elem_of_nil in Hx|].
  apply Forall_app in Hh as [Hh Hc]. rewrite Forall_singleton in Hc. rewrite reps_snoc.
  apply elem_of_app in Hx as [Hx|Hx%list_elem_of_singleton].
  - destruct (IH Hh x Hx) as (r & Hr & Hrx). exists r. split; [by apply reps_step_incl|done].
  - subst x. by apply reps_step_cover.
Qed.

Lemma filter_none {A} (P : A -> Prop) `{forall x, Decision (P x)} l :
  (forall x, x ∈ l -> ~ P x) -> filter P l = [].
Proof.
  induction l as [|x l IH]; intros Hn; [done|]. rewrite filter_cons.
  rewrite decide_False by (apply Hn; by left). apply IH. intros y Hy. apply Hn. by right.
Qed.

Lemma filter_snoc_bool {A} (f : A -> bool) l c :
  filter (fun x => f x) (l ++ [c]) = filter (fun x => f x) l ++ (if f c then [c] else []).
Proof. rewrite filter_app, filter_singleton by exact []. by destruct (f c). Qed.

Lemma distinct_keys_cons r rs :
  distinct_keys (r :: rs) -> distinct_keys rs /\ forall r', r' ∈ rs -> py_eq_key r r' = false.
Proof.
  intros Hd. split.
  - intros i j r1 r2 H1 H2 H12. assert (S i = S j) by (by apply (Hd (S i) (S j) r1 r2)). lia.
  - intros r' (j & Hj)%list_elem_of_lookup. apply not_true_iff_false. intros Hr.
    by pose proof (Hd 0 (S j) r r' eq_refl Hj Hr).
Qed.

(** Appending to the group of [k] in a grouping whose keys are distinct. *)
Lemma group_add_map rs k c (F : pyval -> list RetrievedChunk) :
  distinct_keys rs ->
  group_add (map (fun r => (r, F r)) rs) k c =
  if existsb (fun r => py_eq_key r k) rs
  then map (fun r => (r, F r ++ (if py_eq_key r k then [c] else []))) rs
  else map (fun r => (r, F r)) rs ++ [(k, [c])].
Proof.
  induction rs as [|r rs IH]; intros Hd; [done|].
  apply distinct_keys_cons in Hd as [Hd Hr]. simpl. destruct (py_eq_key r k) eqn:Erk; simpl.
  - f_equal. apply map_ext_in. intros r' Hin%list_elem_of_In.
    destruct (py_eq_key r' k) eqn:E; [|by rewrite app_nil_r].
    pose proof (Hr r' Hin) as Hrr. rewrite (py_eq_key_trans r k r') in Hrr; [done|done|].
    by rewrite py_eq_key_sym.
  - rewrite IH by done. destruct (existsb _ rs); [|done]. by rewrite app_nil_r.
Qed.

Lemma group_add_ref p c :
  Forall (fun c => hashable (key c) = true) p -> hashable (key c) = true ->
  group_add (group_ref key p) (key c) c = group_ref key (p ++ [c]).
Proof.
  intros Hp Hc. unfold group_ref. change (fold_left reps_step (map key p) []) with (reps p).
  change (fold_left reps_step (map key (p ++ [c])) []) with (reps (p ++ [c])).
  rewrite group_add_map by apply reps_distinct. rewrite reps_snoc. unfold reps_step.
  destruct (existsb _ (reps p)) eqn:E.
  - apply map_ext. intros r. by rewrite filter_snoc_bool.
  - rewrite map_app. f_equal.
    + apply map_ext_in. intros r Hr%list_elem_of_In. rewrite filter_snoc_bool.
      apply list_elem_of_lookup in Hr as [i Hi]. by rewrite (existsb_false_lookup _ _ _ _ E Hi), app_nil_r.
    + simpl. rewrite filter_snoc_bool, py_eq_key_refl by done. rewrite filter_none; [done|].
      intros x Hx Hcx. destruct (reps_cover p Hp x Hx) as (r & Hr & Hrx).
      apply list_elem_of_lookup in Hr as [i Hi].
      pose proof (existsb_false_lookup _ _ _ _ E Hi) as Hrc.
      rewrite (py_eq_key_trans r (key x) (key c)) in Hrc; [done|done|].
      rewrite py_eq_key_sym. by destruct (py_eq_key (key c) (key x)).
Qed.
End Grouping.

Lemma merge_loop_ref key p cs :
  Forall (fun c => hashable (key c) = true) (p ++ cs) ->
  merge_loop key (group_ref key p) cs = Ok (group_ref key (p ++ cs)).
Proof.
  revert p; induction cs as [|c cs IH]; intros p Hh; simpl; [by rewrite app_nil_r|].
  apply Forall_app in Hh as [Hp Hcs]. apply Forall_cons in Hcs as [Hc Hcs]. rewrite Hc.
  rewrite group_add_ref by done. rewrite IH; [by rewrite <- app_assoc|].
  rewrite <- app_assoc. apply Forall_app. split; [done|by constructor].
Qed.

Lemma merge_loop_hashable key gs cs r :
  merge_loop key gs cs = Ok r -> Forall (fun c => hashable (key c) = true) cs.
Proof.
  revert gs; induction cs as [|c cs IH]; intros gs; simpl; [constructor|].
  destruct (hashable (key c)) eqn:E; [|discriminate]. intros H. constructor; [done|]. by eapply IH.
Qed.

Lemma elem_of_filter_bool {A} (f : A -> bool) (l : list A) x : x ∈ filter (fun y => f y) l <-> f x = true /\ x ∈ l.
Proof. rewrite list_elem_of_filter. destruct (f x); simpl; intuition discriminate. Qed.

(** ** Properties of the merger *)

(** C22: [merge_by_page] and [merge_by_type] compute the reference
    grouping whenever every key is hashable: the distinct keys (up to
    [==]) in order of first occurrence, each with the chunks whose key
    equals it in input order. *)
Theorem merge_by_ref cs :
  (Forall (fun c => hashable (page_key c) = true) cs -> merge_by_page cs = Ok (group_ref page_key cs)) /\
  (Forall (fun c => hashable (type_key c) = true) cs -> merge_by_type cs = Ok (group_ref type_key cs)).
Proof. split; intros H; apply (merge_loop_ref _ []); exact H. Qed.

(** The groups of [merge_by_page] partition the chunks: every chunk
    is in exactly one group, and each group lists, in input order, the
    chunks whose page equals its key. *)
Theorem merge_by_page_partition cs gs :
  merge_by_page cs = Ok gs ->
  (forall i k g, gs !! i = Some (k, g) -> g = filter (fun c => py_eq_key k (page_key c)) cs) /\
  (forall c, c ∈ cs -> exists i k g, gs !! i = Some (k, g) /\ c ∈ g /\
     forall j k' g', gs !! j = Some (k', g') -> c ∈ g' -> j = i).
Proof.
  intros H. pose proof (merge_loop_hashable _ _ _ _ H) as Hh.
  rewrite (merge_loop_ref page_key [] cs Hh : merge_by_page cs = _) in H. injection H as <-. unfold group_ref.
  change (fold_left reps_step (map page_key cs) []) with (reps page_key cs). split.
  - intros i k g (r & [= -> ->] & _)%list_lookup_fmap_Some. done.
  - intros c Hc. destruct (reps_cover page_key cs Hh c Hc) as (r & Hr & Hrc).
    apply list_elem_of_lookup in Hr as [i Hi]. exists i, r, (filter (fun c => py_eq_key r (page_key c)) cs).
    split_and!.
    + by rewrite list_lookup_fmap, Hi.
    + by apply elem_of_filter_bool.
    + intros j k' g' (r' & [= -> ->] & Hj)%list_lookup_fmap_Some [Hr'c _]%elem_of_filter_bool.
      apply (reps_distinct page_key cs j i r' r Hj Hi).
      apply (py_eq_key_trans _ (page_key c)); [done|]. by rewrite py_eq_key_sym.
Qed.

(** C23: A chunk whose page is a dict or a list (unhashable) makes
    [merge_by_page] raise [TypeError]. *)
Theorem merge_by_page_unhashable cs c :
  c ∈ cs -> hashable (page_key c) = false -> merge_by_page cs = Raise TypeError.
Proof.
  unfold merge_by_page. generalize (@nil (pyval * list RetrievedChunk)).
  induction cs as [|c' cs IH]; intros gs Hc Hh; [by apply elem_of_nil in Hc|]. simpl.
  apply elem_of_cons in Hc as [->|Hc]; [by rewrite Hh|].
  destruct (hashable (page_key c')); [by apply IH|done].
Qed.

(** ** Witnesses *)

Abbreviation fmt_none := (fun _ : pyval => "?"%string).
Abbreviation rc_page id p := (mkRC id "x" (<["page" := p]> (∅ : chunk)) None None).
Abbreviation rc_three := [rc_page "a" (VInt 1); rc_page "b" (VFloat (1#1)%Q); rc_page "c" (VInt 2)].

(** The rendering of a table chunk and a text chunk, and a content
    that itself contains ["Content:"] counted on top of the one per
    chunk. *)
Example create_context_example :
  create_context fmt_none
    [mkRC "a" "r1" (<["type" := VStr "table"]> (<["page" := VInt 2]> ∅)) None None;
     mkRC "b" "see Content: here" (<["page" := VInt 3]> ∅) None None] =
  ("[Table 1]" ++ nl ++ "Page: 2" ++ nl ++ "Content: r1" ++ nl ++
   nl ++ "-------------------" ++ nl ++
   "[Text Chunk 2]" ++ nl ++ "Page: 3, Section: N/A" ++ nl ++ "Content: see Content: here" ++ nl)%string /\
  occ content_marker (create_context fmt_none
    [mkRC "a" "r1" (<["type" := VStr "table"]> (<["page" := VInt 2]> ∅)) None None;
     mkRC "b" "see Content: here" (<["page" := VInt 3]> ∅) None None]) = 3.
Proof. split; vm_compute; reflexivity. Qed.

Lemma merge_by_ref_witness :
  merge_by_page rc_three = Ok [(VInt 1, [rc_page "a" (VInt 1); rc_page "b" (VFloat (1#1)%Q)]); (VInt 2, [rc_page "c" (VInt 2)])].
Proof.
  assert (H : group_ref page_key rc_three =
    [(VInt 1, [rc_page "a" (VInt 1); rc_page "b" (VFloat (1#1)%Q)]); (VInt 2, [rc_page "c" (VInt 2)])])
    by (vm_compute; reflexivity).
  rewrite <- H. apply (proj1 (merge_by_ref rc_three)). repeat constructor.
Defined.

Lemma merge_by_page_partition_witness :
  filter (fun c => py_eq_key (VInt 1) (page_key c)) rc_three = [rc_page "a" (VInt 1); rc_page "b" (VFloat (1#1)%Q)].
Proof.
  assert (H : merge_by_page rc_three =
    Ok [(VInt 1, [rc_page "a" (VInt 1); rc_page "b" (VFloat (1#1)%Q)]); (VInt 2, [rc_page "c" (VInt 2)])])
    by (vm_compute; reflexivity).
  apply (proj1 (merge_by_page_partition _ _ H) 0 (VInt 1)).
  vm_compute. reflexivity.
Defined.

Lemma merge_by_page_unhashable_witness :
  merge_by_page [rc_page "a" (VInt 1); rc_page "b" (VDict [])] = Raise TypeError.
Proof. apply (merge_by_page_unhashable _ (rc_page "b" (VDict []))); [right; left | reflexivity]. Defined.
