(* ===== verification/Extractors.v ===== *)
(** * The extractors ([src/text_extractor.py], [src/table_extractor.py],
      [src/image_ocr.py])

    Each extractor turns a PDF into a list of chunk dicts.  The libraries
    they call are Section variables over an abstract document: PyMuPDF's
    [fitz.open] ([fitz_open], which may raise) gives the pages, each with
    [page.get_text()] and [page.get_images()] (both may raise); the OCR of
    one image ([doc.extract_image], [Image.open],
    [pytesseract.image_to_string], inside the per-image [try]) is
    [ocr_image]; camelot's [read_pdf] is [camelot_read]; the pandas frame
    operations of [_dataframe_to_json] are [df_len], [df_set_header]
    ([df.columns = df.iloc[0]], in place), [df_drop_first] ([df[1:]], a
    new frame), [df_records_json] and [df_to_dict].

    Because [_dataframe_to_json] renames the columns of the caller's frame
    in place, the ["raw_df"] of a table is [df.to_dict()] of the renamed
    frame: [dataframe_to_json] returns the mutated frame and [table_loop]
    reads it, as the code does.

    The loops are structural recursions carrying the page or table index;
    each [try]/[except] is a match on the [py] result. *)

From S2P Require Import Prelude PyStr Chunk.
From Stdlib Require Import Ascii.

(** A page of an open document: [page.get_text()] and the xrefs of
    [page.get_images()]. *)
Record PdfPage := mkPage {
  page_text : py string;
  page_images : py (list Z)
}.

Record PdfDoc := mkDoc { doc_pages : list PdfPage }.

(** ["\n"] and [s.split('\n\n')], scanned left to right as CPython does
    (["\n\n"] overlaps itself, so the direction matters). *)
Definition newline : ascii := "010"%char.

Fixpoint split_nn_aux (s : string) : string * list string :=
  match s with
  | EmptyString => (EmptyString, [])
  | String c s1 =>
      match s1 with
      | String d s2 =>
          if Ascii.eqb c newline && Ascii.eqb d newline then
            let '(w, ws) := split_nn_aux s2 in (EmptyString, w :: ws)
          else let '(w, ws) := split_nn_aux s1 in (String c w, ws)
      | EmptyString => (String c EmptyString, [])
      end
  end.

Definition split_nn (s : string) : list string :=
  let '(w, ws) := split_nn_aux s in w :: ws.

Section Backends.
Variable fitz_open : string -> py PdfDoc.
Variable ocr_image : Z -> py string.
Variable DF : Type.
Variable df_len : DF -> nat.
Variable df_set_header : DF -> DF.
Variable df_drop_first : DF -> DF.
Variable df_records_json : DF -> py string.
Variable df_to_dict : DF -> py pyval.

(** ** [TextExtractor] *)

Definition text_chunk (path : string) (page_num : nat) (text : string) : chunk :=
  dict_of [("type", VStr "text"); ("content", VStr text);
           ("page", VInt (Z.of_nat page_num + 1)); ("source", VStr path)].

(** [for page_num in range(len(doc)): ... if text.strip(): chunks.append(...)] *)
Fixpoint text_chunks (path : string) (page_num : nat) (texts : list string) : list chunk :=
  match texts with
  | [] => []
  | t :: ts =>
      if all_space t then text_chunks path (S page_num) ts
      else text_chunk path page_num t :: text_chunks path (S page_num) ts
  end.

(** [extract_from_pdf(pdf_path)]: no [try], so a failing [fitz.open] or
    [get_text] propagates. *)
Definition extract_from_pdf (path : string) : py (list chunk) :=
  doc <- fitz_open path ;;
  texts <- py_mapM page_text doc.(doc_pages) ;;
  Ok (text_chunks path 0 texts).

(** [extract_paragraphs(text, page, source)] *)
Definition extract_paragraphs (text : string) (page : pyval) (source : string) : list chunk :=
  map (fun para => dict_of [("type", VStr "text"); ("content", VStr para); ("page", page); ("source", VStr source)])
      (map py_strip (filter (fun p => negb (all_space p)) (split_nn text))).

(** ** [TableExtractor] *)

Record CamelotTable := mkTable { tbl_df : DF; tbl_page : pyval }.

(** [_dataframe_to_json(df)]: the JSON text and the caller's frame after
    the in-place header assignment. *)
Definition dataframe_to_json (df : DF) : py (string * DF) :=
  let nonempty := Nat.ltb 0 (df_len df) in
  let df1 := if nonempty then df_set_header df else df in
  let df2 := if nonempty then df_drop_first df1 else df1 in
  j <- df_records_json df2 ;;
  Ok (j, df1).

Definition table_chunk (path : string) (i : nat) (page : pyval) (json : string) (raw : pyval) : chunk :=
  dict_of [("type", VStr "table"); ("content", VStr json); ("table_index", VInt (Z.of_nat i + 1));
           ("page", page); ("source", VStr path); ("raw_df", raw)].

(** The loop over [enumerate(table_list)]: the first exception ends it
    and [tables] so far is returned. *)
Fixpoint table_loop (path : string) (i : nat) (tables : list CamelotTable) : list chunk :=
  match tables with
  | [] => []
  | t :: ts =>
      match dataframe_to_json t.(tbl_df) with
      | Raise _ => []
      | Ok (j, df1) =>
          match df_to_dict df1 with
          | Raise _ => []
          | Ok raw => table_chunk path i t.(tbl_page) j raw :: table_loop path (S i) ts
          end
      end
  end.

Variable camelot_read : string -> py (list CamelotTable).

(** [extract_tables_from_pdf(pdf_path)]: never raises. *)
Definition extract_tables_from_pdf (path : string) : list chunk :=
  match camelot_read path with
  | Raise _ => []
  | Ok tl => table_loop path 0 tl
  end.

(** ** [ImageOCR] *)

Definition ocr_chunk (path : string) (page_num img_index : nat) (text : string) : chunk :=
  dict_of [("type", VStr "ocr"); ("content", VStr (py_strip text)); ("page", VInt (Z.of_nat page_num + 1));
           ("image_index", VInt (Z.of_nat img_index + 1)); ("source", VStr path)].

(** [for img_index, img in enumerate(image_list): try: ... except: warn] *)
Fixpoint ocr_images (path : string) (page_num img_index : nat) (imgs : list Z) : list chunk :=
  match imgs with
  | [] => []
  | x :: xs =>
      let rest := ocr_images path page_num (S img_index) xs in
      match ocr_image x with
      | Ok text => if all_space text then rest else ocr_chunk path page_num img_index text :: rest
      | Raise _ => rest
      end
  end.

(** [for page_num in range(len(doc)):]; [page.get_images()] is outside
    the [try]. *)
Fixpoint ocr_pages (path : string) (page_num : nat) (pages : list PdfPage) : py (list chunk) :=
  match pages with
  | [] => Ok []
  | p :: ps =>
      imgs <- page_images p ;;
      rest <- ocr_pages path (S page_num) ps ;;
      Ok (ocr_images path page_num 0 imgs ++ rest)
  end.

(** [extract_from_pdf_images(pdf_path)] *)
Definition extract_from_pdf_images (path : string) : py (list chunk) :=
  match fitz_open path with
  | Raise _ => Ok []
  | Ok doc => ocr_pages path 0 doc.(doc_pages)
  end.
End Backends.

Arguments mkTable {DF}.
Arguments dataframe_to_json {DF}.
Arguments table_loop {DF}.
Arguments extract_tables_from_pdf {DF}.
Arguments tbl_df {DF}.
Arguments tbl_page {DF}.

(** ** Lemmas *)

Lemma text_chunk_lookup path i t :
  text_chunk path i t !! "type" = Some (VStr "text") /\ text_chunk path i t !! "content" = Some (VStr t) /\
  text_chunk path i t !! "page" = Some (VInt (Z.of_nat i + 1)) /\ text_chunk path i t !! "source" = Some (VStr path).
Proof. unfold text_chunk. rewrite !dict_of_lookup. vm_compute. done. Qed.

Lemma text_chunks_emit path i texts :
  text_chunks path i texts = emit_some (fun j t => if all_space t then None else Some (text_chunk path j t)) i texts.
Proof. revert i; induction texts as [|t ts IH]; intros i; simpl; [done|]. rewrite IH. by destruct (all_space t). Qed.

Lemma text_chunks_elem path i texts c :
  c ∈ text_chunks path i texts <->
  exists j t, texts !! j = Some t /\ all_space t = false /\ c = text_chunk path (i + j) t.
Proof.
  rewrite text_chunks_emit, elem_of_emit_some. split.
  - intros (j & t & Hj & Hf). exists j, t. destruct (all_space t); simplify_eq. done.
  - intros (j & t & Hj & Ht & ->). exists j, t. by rewrite Ht.
Qed.

Lemma length_text_chunks path i texts :
  length (text_chunks path i texts) = length (filter (fun t => negb (all_space t)) texts).
Proof.
  revert i; induction texts as [|t ts IH]; intros i; [done|]. simpl. rewrite filter_cons.
  destruct (all_space t); simpl; rewrite IH; done.
Qed.

Section Tables.
Context {DF : Type} (df_len : DF -> nat) (df_set_header df_drop_first : DF -> DF)
        (df_records_json : DF -> py string) (df_to_dict : DF -> py pyval).

(** A table whose frame converts: its JSON text, the frame after the
    in-place header assignment, and that frame's [to_dict()]. *)
Definition table_converts (t : CamelotTable DF) (j : string) (raw : pyval) : Prop :=
  exists df1, dataframe_to_json df_len df_set_header df_drop_first df_records_json t.(tbl_df) = Ok (j, df1) /\
              df_to_dict df1 = Ok raw.

Lemma table_loop_spec path i tl :
  let out := table_loop df_len df_set_header df_drop_first df_records_json df_to_dict path i tl in
  length out <= length tl /\
  (forall k c, out !! k = Some c ->
     exists t j raw, tl !! k = Some t /\ table_converts t j raw /\ c = table_chunk path (i + k) t.(tbl_page) j raw) /\
  (forall t, tl !! length out = Some t -> forall j raw, ~ table_converts t j raw).
Proof.
  revert i; induction tl as [|t ts IH]; intros i out; subst out; simpl; [split_and!; [lia | done | done]|].
  unfold table_converts.
  destruct (dataframe_to_json _ _ _ _ (tbl_df t)) as [[j df1]|e] eqn:Ej.
  2:{ split_and!; simpl; [lia | done |]. intros t' [= <-] j raw (df1 & Hc & _). congruence. }
  destruct (df_to_dict df1) as [raw|e] eqn:Er.
  2:{ split_and!; simpl; [lia | done |]. intros t' [= <-] j' raw (df1' & Hc & Hr). congruence. }
  destruct (IH (S i)) as (Hlen & Hk & Hstop). simpl. split_and!; [lia| |done].
  intros [|k] c Hc; simpl in Hc.
  - injection Hc as <-. exists t, j, raw. rewrite Nat.add_0_r. split_and!; [done| |done]. by exists df1.
  - destruct (Hk k c Hc) as (t' & j' & raw' & Ht' & Hconv & ->). exists t', j', raw'.
    by rewrite Nat.add_succ_r.
Qed.
End Tables.


Section Ocr.
Variable ocr_image : Z -> py string.

Lemma ocr_images_emit path p i imgs :
  ocr_images ocr_image path p i imgs =
  emit_some (fun j x => match ocr_image x with
                        | Ok text => if all_space text then None else Some (ocr_chunk path p j text)
                        | Raise _ => None
                        end) i imgs.
Proof.
  revert i; induction imgs as [|x xs IH]; intros i; simpl; [done|]. rewrite IH.
  destruct (ocr_image x) as [text|]; [by destruct (all_space text)|done].
Qed.

Lemma ocr_images_elem path p i imgs c :
  c ∈ ocr_images ocr_image path p i imgs <->
  exists j x text, imgs !! j = Some x /\ ocr_image x = Ok text /\ all_space text = false /\
                   c = ocr_chunk path p (i + j) text.
Proof.
  rewrite ocr_images_emit, elem_of_emit_some. split.
  - intros (j & x & Hj & Hf). destruct (ocr_image x) as [text|] eqn:Ex; [|done].
    destruct (all_space text) eqn:Ht; simplify_eq. by exists j, x, text.
  - intros (j & x & text & Hj & Hx & Ht & ->). exists j, x. by rewrite Hx, Ht.
Qed.

(** An image of page [p] whose OCR gives the non-blank [text]. *)
Definition ocr_found (pages : list PdfPage) (p j : nat) (text : string) : Prop :=
  exists pg imgs x, pages !! p = Some pg /\ page_images pg = Ok imgs /\ imgs !! j = Some x /\
                    ocr_image x = Ok text /\ all_space text = false.

Lemma ocr_pages_ok path n pages cs :
  ocr_pages ocr_image path n pages = Ok cs ->
  forall c, c ∈ cs <-> exists p j text, ocr_found pages p j text /\ c = ocr_chunk path (n + p) j text.
Proof.
  unfold ocr_found. revert n cs; induction pages as [|pg pages IH]; intros n cs; simpl.
  - intros [= <-] c. split; [by intros ?%elem_of_nil|]. intros (p & j & text & (pg & ? & ? & Hp & _) & _).
    by rewrite lookup_nil in Hp.
  - destruct (page_images pg) as [imgs|e] eqn:Himgs; simpl; [|done].
    destruct (ocr_pages _ _ _ pages) as [rest|e] eqn:Hrest; simpl; [|done].
    intros [= <-] c. rewrite elem_of_app, ocr_images_elem, (IH _ _ Hrest). split.
    + intros [(j & x & text & Hj & Hx & Ht & ->) | (p & j & text & (pg' & imgs' & x & Hp & Hi & Hj & Hx & Ht) & ->)].
      * exists 0, j, text. rewrite Nat.add_0_r. split; [by exists pg, imgs, x|done].
      * exists (S p), j, text. rewrite Nat.add_succ_r. split; [by exists pg', imgs', x|done].
    + intros ([|p] & j & text & (pg' & imgs' & x & Hp & Hi & Hj & Hx & Ht) & ->); simpl in Hp; simplify_eq.
      * left. exists j, x, text. split_and!; [congruence|done|done|simpl; by rewrite Nat.add_0_r].
      * right. exists p, j, text. rewrite Nat.add_succ_r. split; [by exists pg', imgs', x|done].
Qed.

(** The 0-based number an OCR chunk records under [k] (stored from 1). *)
Definition int_field (k : string) (c : chunk) : nat :=
  match c !! k with Some (VInt z) => Z.to_nat (z - 1) | _ => 0 end.

Lemma ocr_chunk_fields path p j text :
  int_field "page" (ocr_chunk path p j text) = p /\ int_field "image_index" (ocr_chunk path p j text) = j.
Proof. unfold int_field, ocr_chunk. rewrite !dict_of_lookup. simpl. split; lia. Qed.

(** The chunks of [ocr_pages] are distinct: the chunks of one page carry
    distinct image numbers, and the pages after it larger page numbers. *)
Lemma ocr_pages_NoDup path n pages cs :
  ocr_pages ocr_image path n pages = Ok cs ->
  NoDup cs /\ forall c, c ∈ cs -> n <= int_field "page" c.
Proof.
  revert n cs; induction pages as [|pg pages IH]; intros n cs; simpl.
  - intros [= <-]. split; [constructor | by intros ? ?%elem_of_nil].
  - destruct (page_images pg) as [imgs|e]; simpl; [|done].
    destruct (ocr_pages _ _ _ pages) as [rest|e] eqn:Hrest; simpl; [|done].
    intros [= <-]. destruct (IH _ _ Hrest) as [Hnd Hge].
    assert (Hpg : forall c, c ∈ ocr_images ocr_image path n 0 imgs -> int_field "page" c = n).
    { intros c (j & x & text & _ & _ & _ & ->)%ocr_images_elem. apply ocr_chunk_fields. }
    split.
    + apply NoDup_app. split_and!; [| |done].
      * rewrite ocr_images_emit. apply (NoDup_emit_some _ (int_field "image_index")).
        intros j x y. destruct (ocr_image x); [|done]. destruct (all_space _); [done|].
        intros [= <-]. apply ocr_chunk_fields.
      * intros c Hc Hc'. apply Hge in Hc'. rewrite (Hpg c Hc) in Hc'. lia.
    + intros c [Hc|Hc]%elem_of_app; [rewrite (Hpg c Hc); lia | apply Hge in Hc; lia].
Qed.

Lemma ocr_pages_raise path n pages p pg e :
  pages !! p = Some pg -> page_images pg = Raise e ->
  (forall q pg', q < p -> pages !! q = Some pg' -> exists imgs, page_images pg' = Ok imgs) ->
  ocr_pages ocr_image path n pages = Raise e.
Proof.
  revert n p; induction pages as [|pg0 pages IH]; intros n [|p] Hp He Hbefore; simpl in Hp; try done.
  - injection Hp as ->. simpl. by rewrite He.
  - simpl. destruct (Hbefore 0 pg0 ltac:(lia) eq_refl) as [imgs ->]. simpl.
    rewrite (IH (S n) p); [done|done|done|]. intros q pg' Hq Hq'. apply (Hbefore (S q)); [lia|done].
Qed.
End Ocr.

(** ** Properties of the extractors *)

(** [TextExtractor.extract_from_pdf] emits exactly one chunk per
    page whose text is not blank, the chunk of page [j] (from 0) being
    [{"type": "text", "content": text, "page": j + 1, "source": path}]. *)
Theorem extract_from_pdf_pages fitz_open path cs :
  extract_from_pdf fitz_open path = Ok cs ->
  exists doc texts, fitz_open path = Ok doc /\ py_mapM page_text doc.(doc_pages) = Ok texts /\
    length cs = length (filter (fun t => negb (all_space t)) texts) /\
    forall c, c ∈ cs <-> exists j t, texts !! j = Some t /\ all_space t = false /\ c = text_chunk path j t.
Proof.
  unfold extract_from_pdf. destruct (fitz_open path) as [doc|e]; simpl; [|done].
  destruct (py_mapM page_text _) as [texts|e] eqn:Ht; simpl; [|done]. intros [= <-].
  exists doc, texts. split_and!; [done | done | apply length_text_chunks | apply text_chunks_elem].
Qed.

(** C24: [TableExtractor.extract_tables_from_pdf] never raises and emits
    the chunks of the longest prefix of camelot's tables that convert:
    the [k]-th chunk is table [k] with ["table_index"] [k + 1], its page,
    its JSON and the [to_dict()] of its frame after the in-place header
    assignment; the table after the last emitted one does not convert. *)
Theorem extract_tables_prefix {DF} df_len df_set_header df_drop_first df_records_json df_to_dict
    (camelot_read : string -> py (list (CamelotTable DF))) path tl :
  camelot_read path = Ok tl ->
  let out := extract_tables_from_pdf df_len df_set_header df_drop_first df_records_json df_to_dict camelot_read path in
  length out <= length tl /\
  (forall k c, out !! k = Some c ->
     exists t j raw, tl !! k = Some t /\
       table_converts df_len df_set_header df_drop_first df_records_json df_to_dict t j raw /\
       c = table_chunk path k t.(tbl_page) j raw) /\
  (forall t, tl !! length out = Some t -> forall j raw,
     ~ table_converts df_len df_set_header df_drop_first df_records_json df_to_dict t j raw).
Proof. intros Hc out. unfold out, extract_tables_from_pdf. rewrite Hc. apply (table_loop_spec _ _ _ _ _ path 0 tl). Qed.

(** C25: [ImageOCR.extract_from_pdf_images], once every page lists its
    images, emits exactly one chunk per image whose OCR succeeds with a
    non-blank text, with the stripped text, its page and image numbers
    (from 1); images whose OCR raises are skipped.  "Exactly one": the
    chunks are pairwise distinct, and a chunk is in the result iff it is
    the chunk of such an image. *)
Theorem ocr_extract_exact fitz_open ocr_image path doc cs :
  fitz_open path = Ok doc ->
  extract_from_pdf_images fitz_open ocr_image path = Ok cs ->
  NoDup cs /\
  forall c, c ∈ cs <-> exists p j text, ocr_found ocr_image doc.(doc_pages) p j text /\ c = ocr_chunk path p j text.
Proof.
  intros Ho. unfold extract_from_pdf_images. rewrite Ho. intros Hcs. split.
  - by destruct (ocr_pages_NoDup _ _ _ _ _ Hcs).
  - exact (ocr_pages_ok _ _ _ _ _ Hcs).
Qed.

(** A page whose [get_images()] raises makes
    [extract_from_pdf_images] raise (the call is outside the per-image
    [try]), although the spec says an extractor never raises past its own
    boundary. *)
Theorem ocr_page_failure fitz_open ocr_image path doc p pg e :
  fitz_open path = Ok doc -> doc.(doc_pages) !! p = Some pg -> page_images pg = Raise e ->
  (forall q pg', q < p -> doc.(doc_pages) !! q = Some pg' -> exists imgs, page_images pg' = Ok imgs) ->
  extract_from_pdf_images fitz_open ocr_image path = Raise e.
Proof. intros Ho Hp He Hb. unfold extract_from_pdf_images. rewrite Ho. by eapply ocr_pages_raise. Qed.

(** ** Witnesses *)

Abbreviation doc3 :=
  (mkDoc [mkPage (Ok "hello world") (Ok [1%Z; 2%Z]); mkPage (Ok "  ") (Ok []); mkPage (Ok "third") (Ok [3%Z])]).
Abbreviation open3 := (fun _ : string => Ok (A := PdfDoc) doc3).
Abbreviation ocr3 := (fun x : Z => if Z.eqb x 1 then Ok " text " else if Z.eqb x 2 then Raise ExtError else Ok "  ").
Abbreviation json_fail4 := (fun n : nat => if Nat.eqb n 4 then Raise (A := string) ValueError else Ok "[]").

Lemma extract_from_pdf_pages_witness :
  exists doc texts, open3 "a.pdf" = Ok doc /\ py_mapM page_text doc.(doc_pages) = Ok texts /\
    length (text_chunks "a.pdf" 0 ["hello world"; "  "; "third"]) = length (filter (fun t => negb (all_space t)) texts).
Proof.
  destruct (extract_from_pdf_pages open3 "a.pdf" (text_chunks "a.pdf" 0 ["hello world"; "  "; "third"]))
    as (doc & texts & Ho & Ht & Hl & _); [vm_compute; reflexivity|].
  exists doc, texts. split_and!; assumption.
Defined.

Lemma extract_tables_prefix_witness :
  length (extract_tables_from_pdf id id pred json_fail4 (fun n => Ok (VInt (Z.of_nat n)))
            (fun _ => Ok [mkTable 3 (VStr "1"); mkTable 5 (VStr "2"); mkTable 3 (VStr "3")]) "a.pdf") = 1 /\
  forall t, [mkTable 3 (VStr "1"); mkTable 5 (VStr "2"); mkTable 3 (VStr "3")] !! 1 = Some t -> forall j raw,
    ~ table_converts id id pred json_fail4 (fun n => Ok (VInt (Z.of_nat n))) t j raw.
Proof.
  split; [vm_compute; reflexivity|].
  exact (proj2 (proj2 (extract_tables_prefix id id pred json_fail4 (fun n => Ok (VInt (Z.of_nat n)))
            (fun _ => Ok [mkTable 3 (VStr "1"); mkTable 5 (VStr "2"); mkTable 3 (VStr "3")]) "a.pdf" _ eq_refl))).
Defined.

Lemma ocr_extract_exact_witness :
  NoDup [ocr_chunk "a.pdf" 0 0 " text "] /\
  exists p j text, ocr_found ocr3 doc3.(doc_pages) p j text /\ ocr_chunk "a.pdf" 0 0 " text " = ocr_chunk "a.pdf" p j text.
Proof.
  destruct (ocr_extract_exact open3 ocr3 "a.pdf" doc3 [ocr_chunk "a.pdf" 0 0 " text "]) as [Hnd Hin];
    [reflexivity | vm_compute; reflexivity |].
  split; [exact Hnd | apply Hin; by left].
Defined.

Lemma ocr_page_failure_witness :
  extract_from_pdf_images (fun _ => Ok (mkDoc [mkPage (Ok "x") (Ok [1%Z]); mkPage (Ok "y") (Raise ExtError)])) ocr3 "a.pdf"
    = Raise ExtError.
Proof.
  apply (ocr_page_failure _ _ _ (mkDoc [mkPage (Ok "x") (Ok [1%Z]); mkPage (Ok "y") (Raise ExtError)]) 1
           (mkPage (Ok "y") (Raise ExtError))); try reflexivity.
  intros [|q] pg' Hq Hpg; [injection Hpg as <-; by eexists | lia].
Defined.
