(* ===== verification/Chart.v ===== *)
(** * The chart metadata extractor ([src/chart_metadata.py])

    [extract_chart_info(text, page, source)] runs four patterns
    [r'W \d+[:\.]?\s*([^\n]+)'] (W = Figure, Chart, Graph, Table) with
    [re.IGNORECASE] through [re.finditer], and emits for every match the
    stripped group as title and the text from 200 characters before the
    match to 200 after it as content.

    The text is a list of ASCII characters (positions are Python string
    indices).  [match_at] is CPython's backtracking matcher specialised to
    this pattern shape, trying the alternatives in the engine's order:
    [\d+] from its longest run down to one digit, then [[:\.]?] with the
    character before without, then [\s*] from its longest run down to
    none, then the greedy [[^\n]+].  [scan] is [finditer]: it tries each
    start position from left to right and resumes at the end of a match;
    it recurses on a fuel argument, and [finditer_fuel_enough] shows that
    [length text + 1] steps are enough (more fuel gives the same list). *)

From S2P Require Import Prelude PyStr Chunk.
From Stdlib Require Import Ascii Sorting.Sorted.

(** [c.lower()] for an ASCII letter. *)
Definition lower (c : ascii) : ascii :=
  let n := nat_of_ascii c in
  if (65 <=? n) && (n <=? 90) then ascii_of_nat (n + 32) else c.

(** The literal [w] at the start of [t], ignoring case. *)
Fixpoint ci_prefix (w t : list ascii) : bool :=
  match w, t with
  | [], _ => true
  | a :: w', b :: t' => Ascii.eqb (lower a) (lower b) && ci_prefix w' t'
  | _, _ => false
  end.

Definition is_digit (c : ascii) : bool := let n := nat_of_ascii c in (48 <=? n) && (n <=? 57).
Definition is_nl (c : ascii) : bool := Ascii.eqb c "010"%char.

(** The length of the longest prefix of [t] whose characters satisfy [p]. *)
Fixpoint run (p : ascii -> bool) (t : list ascii) : nat :=
  match t with
  | c :: t' => if p c then S (run p t') else 0
  | [] => 0
  end.

(** [([^\n]+)] at [v]: the group's start and end. *)
Definition try_group (t : list ascii) (v : nat) : option (nat * nat) :=
  let g := run (fun c => negb (is_nl c)) (drop v t) in
  if 0 <? g then Some (v, v + g) else None.

(** [\s*] at [u] taking [s] characters, then fewer. *)
Fixpoint try_ws (t : list ascii) (u s : nat) : option (nat * nat) :=
  match s with
  | 0 => try_group t u
  | S s' =>
      match try_group t (u + S s') with
      | Some r => Some r
      | None => try_ws t u s'
      end
  end.

Definition try_ws_max (t : list ascii) (u : nat) : option (nat * nat) :=
  try_ws t u (run is_space (drop u t)).

(** [[:\.]?] at [r]: with the character if it is [:] or [.], then
    without. *)
Definition try_opt (t : list ascii) (r : nat) : option (nat * nat) :=
  match t !! r with
  | Some c =>
      if Ascii.eqb c ":" || Ascii.eqb c "." then
        match try_ws_max t (S r) with
        | Some m => Some m
        | None => try_ws_max t r
        end
      else try_ws_max t r
  | None => try_ws_max t r
  end.

(** [\d+] at [q] taking [d] digits, then fewer, down to one. *)
Fixpoint try_digits (t : list ascii) (q d : nat) : option (nat * nat) :=
  match d with
  | 0 => None
  | S d' =>
      match try_opt t (q + S d') with
      | Some m => Some m
      | None => try_digits t q d'
      end
  end.

(** A match of [W \d+[:\.]?\s*([^\n]+)] starting at [p]: the group's
    bounds (the group ends the match). *)
Definition match_at (w t : list ascii) (p : nat) : option (nat * nat) :=
  if ci_prefix (w ++ [" "%char]) (drop p t) then
    let q := p + length w + 1 in
    try_digits t q (run is_digit (drop q t))
  else None.

(** [re.finditer]: (start, group start, group end) of each match. *)
Fixpoint scan (w t : list ascii) (fuel p : nat) : list (nat * nat * nat) :=
  match fuel with
  | 0 => []
  | S f =>
      if length t <? p then []
      else match match_at w t p with
           | Some (gs, ge) => (p, gs, ge) :: scan w t f ge
           | None => scan w t f (S p)
           end
  end.

Definition finditer (w t : list ascii) : list (nat * nat * nat) := scan w t (S (length t)) 0.

(** The four patterns' words. *)
Definition chart_words : list string := ["Figure"; "Chart"; "Graph"; "Table"].

(** [text[i:j]] for [0 <= i <= j]. *)
Definition substr (t : list ascii) (i j : nat) : list ascii := take (j - i) (drop i t).

Definition chart_chunk (t : list ascii) (page source : pyval) (m : nat * nat * nat) : chunk :=
  let '(s, gs, ge) := m in
  let title := py_strip (String.string_of_list_ascii (substr t gs ge)) in
  let start := s - 200 in
  let end_ := Nat.min (length t) (ge + 200) in
  dict_of [("type", VStr "chart_metadata"); ("title", VStr title);
           ("content", VStr (String.string_of_list_ascii (substr t start end_)));
           ("page", page); ("source", source)].

(** [extract_chart_info(text, page, source)] *)
Definition extract_chart_info (text : string) (page source : pyval) : list chunk :=
  let t := String.list_ascii_of_string text in
  concat (map (fun w => map (chart_chunk t page source) (finditer (String.list_ascii_of_string w) t)) chart_words).

(** ** The matcher's results *)

(** A group found at [a, b): non-empty, inside the text, free of
    newlines, and not before the position the search started from. *)
Definition group_ok (t : list ascii) (u : nat) (m : nat * nat) : Prop :=
  u <= m.1 < m.2 /\ m.2 <= length t /\ Forall (fun c => is_nl c = false) (substr t m.1 m.2).

Lemma run_le p t : run p t <= length t.
Proof. induction t as [|c t IH]; simpl; [lia|]. destruct (p c); simpl; lia. Qed.

Lemma run_prefix p t : Forall (fun c => p c = true) (take (run p t) t).
Proof. induction t as [|c t IH]; simpl; [constructor|]. destruct (p c) eqn:E; simpl; [by constructor|constructor]. Qed.

Lemma try_group_ok t v m : try_group t v = Some m -> group_ok t v m.
Proof.
  unfold try_group, group_ok. destruct (Nat.ltb_spec 0 (run (fun c => negb (is_nl c)) (drop v t))) as [Hg|]; [|done].
  intros [= <-]. simpl. pose proof (run_le (fun c => negb (is_nl c)) (drop v t)) as Hle.
  rewrite length_drop in Hle. split_and!; [lia|lia|lia|]. unfold substr.
  replace (v + _ - v) with (run (fun c => negb (is_nl c)) (drop v t)) by lia.
  eapply Forall_impl; [apply run_prefix|]. intros c Hc. by apply negb_true_iff.
Qed.

Lemma group_ok_mono t u u' m : u' <= u -> group_ok t u m -> group_ok t u' m.
Proof. unfold group_ok. intros ? (? & ? & ?). split_and!; auto; lia. Qed.

Lemma try_ws_ok t u s m : try_ws t u s = Some m -> group_ok t u m.
Proof.
  induction s as [|s IH]; simpl; [apply try_group_ok|].
  destruct (try_group t (u + S s)) as [r|] eqn:E; [|apply IH].
  intros [= <-]. apply (group_ok_mono _ (u + S s)); [lia|]. by apply try_group_ok.
Qed.

Lemma try_opt_ok t r m : try_opt t r = Some m -> group_ok t r m.
Proof.
  unfold try_opt, try_ws_max.
  destruct (t !! r) as [c|]; [destruct (Ascii.eqb c ":" || Ascii.eqb c ".")|]; try apply try_ws_ok.
  destruct (try_ws t (S r) _) as [m'|] eqn:E; [|apply try_ws_ok].
  intros [= <-]. apply (group_ok_mono _ (S r)); [lia|]. by eapply try_ws_ok.
Qed.

Lemma try_digits_ok t q d m : try_digits t q d = Some m -> group_ok t (S q) m.
Proof.
  induction d as [|d IH]; simpl; [done|].
  destruct (try_opt t (q + S d)) as [m'|] eqn:E; [|apply IH].
  intros [= <-]. apply (group_ok_mono _ (q + S d)); [lia|]. by apply try_opt_ok.
Qed.

(** A match at [p] starts with the keyword and a space, and its group
    lies after them. *)
Lemma match_at_ok w t p m :
  match_at w t p = Some m ->
  ci_prefix (w ++ [" "%char]) (drop p t) = true /\ group_ok t (S (p + length w + 1)) m.
Proof.
  unfold match_at. destruct (ci_prefix _ _) eqn:E; [|done]. intros H. split; [done|]. by eapply try_digits_ok.
Qed.

Lemma match_at_progress w t p gs ge : match_at w t p = Some (gs, ge) -> p < ge.
Proof. intros (_ & Hg & _)%match_at_ok. simpl in Hg. lia. Qed.

(** More fuel than [length t + 1 - p] does not change [scan]. *)
Lemma scan_fuel w t f p k : length t + 1 <= p + f -> scan w t (f + k) p = scan w t f p.
Proof.
  revert p; induction f as [|f IH]; intros p Hf; simpl.
  - destruct k as [|k]; simpl; [done|]. destruct (Nat.ltb_spec (length t) p); [done|lia].
  - destruct (Nat.ltb_spec (length t) p); [done|].
    destruct (match_at w t p) as [[gs ge]|] eqn:E.
    + pose proof (match_at_progress _ _ _ _ _ E). rewrite IH by lia. done.
    + rewrite IH by lia. done.
Qed.

(** What [scan] finds: matches at or after [p], each starting with the
    keyword and a space and followed by its group. *)
Lemma scan_match w t f p m :
  m ∈ scan w t f p ->
  p <= m.1.1 /\ ci_prefix (w ++ [" "%char]) (drop m.1.1 t) = true /\
  group_ok t (S (m.1.1 + length w + 1)) (m.1.2, m.2).
Proof.
  revert p; induction f as [|f IH]; intros p; simpl; [by intros ?%elem_of_nil|].
  destruct (length t <? p); [by intros ?%elem_of_nil|].
  destruct (match_at w t p) as [[gs ge]|] eqn:E.
  - intros [-> | Hm]%elem_of_cons.
    + simpl. split; [lia|]. by apply match_at_ok.
    + destruct (IH ge Hm) as (? & ? & ?). pose proof (match_at_progress _ _ _ _ _ E). split_and!; [lia|done|done].
  - intros Hm. destruct (IH (S p) Hm) as (? & ? & ?). split_and!; [lia|done|done].
Qed.

(** Consecutive matches do not overlap. *)
Lemma scan_sorted w t f p : Sorted (fun m1 m2 => m1.2 <= m2.1.1) (scan w t f p).
Proof.
  revert p; induction f as [|f IH]; intros p; simpl; [constructor|].
  destruct (length t <? p); [constructor|].
  destruct (match_at w t p) as [[gs ge]|] eqn:E; [|apply IH].
  constructor; [apply IH|]. destruct (scan w t f ge) as [|m ms] eqn:Es; constructor.
  destruct (scan_match w t f ge m) as [Hle _]; [rewrite Es; by left|]. done.
Qed.

Lemma substr_split t i j k : i <= j <= k -> substr t i k = substr t i j ++ substr t j k.
Proof.
  intros Hij. unfold substr. replace (k - i) with ((j - i) + (k - j)) by lia.
  rewrite <- take_take_drop, drop_drop. by replace (i + (j - i)) with j by lia.
Qed.

Lemma length_substr t i j : length (substr t i j) <= j - i.
Proof. unfold substr. rewrite length_take. lia. Qed.

(** ** Properties of the chart extractor *)

(** [finditer] terminates within its fuel: [length text + 1] steps
    reach the end of the text, and any more fuel returns the same
    matches. *)
Theorem finditer_fuel_enough w t k : scan w t (S (length t) + k) 0 = finditer w t.
Proof. unfold finditer. apply scan_fuel. lia. Qed.

(** What [finditer] reports of one match. *)
Lemma finditer_match_props w t s gs ge :
  (s, gs, ge) ∈ finditer w t ->
  ci_prefix (w ++ [" "%char]) (drop s t) = true /\ s + length w + 1 < gs < ge /\ ge <= length t /\
  Forall (fun c => is_nl c = false) (substr t gs ge).
Proof.
  intros Hm. destruct (scan_match _ _ _ _ _ Hm) as (_ & Hp & Hg1 & Hg2 & Hg3). simpl in *.
  split_and!; [done|lia|lia|lia|done].
Qed.

(** Every match [finditer] reports starts with the keyword and a
    space (ignoring case), its group is a non-empty run of the text with
    no newline after the keyword, and consecutive matches do not
    overlap. *)
Theorem finditer_matches w t :
  Sorted (fun m1 m2 => m1.2 <= m2.1.1) (finditer w t) /\
  forall s gs ge, (s, gs, ge) ∈ finditer w t ->
    ci_prefix (w ++ [" "%char]) (drop s t) = true /\ s + length w + 1 < gs < ge /\ ge <= length t /\
    Forall (fun c => is_nl c = false) (substr t gs ge).
Proof.
  split; [apply scan_sorted | apply finditer_match_props].
Qed.

(** C26: each chart chunk's content is the matched text with at most 200
    characters of context on each side, and its title is the stripped
    group, a run of the text without newlines. *)
Theorem chart_chunk_window text page source c :
  c ∈ extract_chart_info text page source ->
  let t := String.list_ascii_of_string text in
  exists w s gs ge pre post, w ∈ chart_words /\ (s, gs, ge) ∈ finditer (String.list_ascii_of_string w) t /\
    c !! "content" = Some (VStr (String.string_of_list_ascii (pre ++ substr t s ge ++ post))) /\
    length pre <= 200 /\ length post <= 200 /\
    c !! "title" = Some (VStr (py_strip (String.string_of_list_ascii (substr t gs ge)))) /\
    Forall (fun c => is_nl c = false) (substr t gs ge).
Proof.
  intros Hc t. unfold extract_chart_info in Hc. fold t in Hc.
  apply list_elem_of_In, in_concat in Hc as (l & Hl & Hc). apply in_map_iff in Hl as (w & <- & Hw).
  apply in_map_iff in Hc as ([[s gs] ge] & <- & Hm). apply list_elem_of_In in Hw, Hm.
  destruct (finditer_match_props _ t s gs ge Hm) as (_ & Hs & Hge & Hnl).
  exists w, s, gs, ge, (substr t (s - 200) s), (substr t ge (Nat.min (length t) (ge + 200))).
  split_and!; try done.
  - unfold chart_chunk. rewrite dict_of_lookup. simpl. do 2 f_equal.
    rewrite (substr_split t (s - 200) s), (substr_split t s ge) by lia. done.
  - pose proof (length_substr t (s - 200) s). lia.
  - pose proof (length_substr t ge (Nat.min (length t) (ge + 200))). lia.
Qed.

(** The caption patterns' quirks.  At the end of the text
    ["Figure 12"] has the title ["2"] ([\d+] gives back a digit to
    [[^\n]+]); ["Figure 3"] at the end of a line takes the next line as
    its title ([\s*] crosses the line break); ["Figure 1: "] at the end
    has an empty title; and ["TABLE 2: x"] is found by the ["Table"]
    pattern (IGNORECASE). *)
Example chart_caption_quirks :
  map (fun c => c !! "title") (extract_chart_info "see Figure 12" (VInt 1) (VStr "a.pdf")) = [Some (VStr "2")] /\
  map (fun c => c !! "title")
    (extract_chart_info ("Figure 3" ++ String "010"%char "Next line")%string (VInt 1) (VStr "a.pdf")) = [Some (VStr "Next line")] /\
  map (fun c => c !! "title") (extract_chart_info "Figure 1: " (VInt 1) (VStr "a.pdf")) = [Some (VStr "")] /\
  map (fun c => c !! "title") (extract_chart_info "TABLE 2: x" (VInt 1) (VStr "a.pdf")) = [Some (VStr "x")].
Proof. split_and!; vm_compute; reflexivity. Qed.

(** ** Witnesses *)

Lemma finditer_matches_witness :
  finditer (String.list_ascii_of_string "Figure") (String.list_ascii_of_string "see Figure 12") = [(4, 12, 13)] /\
  4 + 6 + 1 < 12 < 13.
Proof.
  split; [vm_compute; reflexivity|].
  destruct (proj2 (finditer_matches (String.list_ascii_of_string "Figure") (String.list_ascii_of_string "see Figure 12"))
              4 12 13 ltac:(vm_compute; left)) as (_ & H & _). exact H.
Defined.

Lemma chart_chunk_window_witness :
  exists w s gs ge (pre post : list ascii), w ∈ chart_words /\
    (s, gs, ge) ∈ finditer (String.list_ascii_of_string w) (String.list_ascii_of_string "see Figure 12") /\
    length pre <= 200 /\ length post <= 200.
Proof.
  destruct (chart_chunk_window "see Figure 12" (VInt 1) (VStr "a.pdf")
              (chart_chunk (String.list_ascii_of_string "see Figure 12") (VInt 1) (VStr "a.pdf") (4, 12, 13)))
    as (w & s & gs & ge & pre & post & Hw & Hm & _ & Hpre & Hpost & _); [vm_compute; left|].
  exists w, s, gs, ge, pre, post. split_and!; assumption.
Defined.
