(* ===== verification/Ingest.v ===== *)
(** * The ingestion pipeline ([src/ingest_pipeline.py])

    [IngestionPipeline.process_document(pdf_path)] checks that the file
    exists, runs the four extractors inside one [try] (text, tables, OCR,
    then the chart extractor over the text chunks), and passes every
    collected chunk through [Chunker.process_chunk] outside the [try].

    The [try] block is [extract_all]: it threads [all_chunks] as the code
    extends it and returns it together with the exception that ended the
    block early, if any; [process_document] logs that exception and goes
    on with the chunks collected so far.  The libraries are the Section
    variables of [Extractors] and [Chunker], plus [file_exists] for
    [Path(pdf_path).exists()]. *)

From S2P Require Import Prelude PyStr Config Chunk Chunker Extractors Chart.

(** [IngestionPipeline()]: the extractors hold no state; the chunker is
    [Chunker()] with the configuration's defaults. *)
Record IngestionPipeline := mkPipeline { pl_chunker : Chunker }.

Definition IngestionPipeline_init (cfg : Config) : IngestionPipeline :=
  mkPipeline (Chunker_init cfg None None).

(** [self.chart_extractor.extract_chart_info(chunk["content"],
    chunk["page"], chunk["source"])]: the three subscripts are evaluated
    first; [re.finditer] on a content that is not a string raises
    [TypeError]. *)
Definition chart_of (c : chunk) : py (list chunk) :=
  content <- dict_getitem "content" c ;;
  page <- dict_getitem "page" c ;;
  source <- dict_getitem "source" c ;;
  match content with
  | VStr text => Ok (extract_chart_info text page source)
  | _ => Raise TypeError
  end.

(** [for chunk in text_chunks: ...; all_chunks.extend(charts)]: the list
    so far, and the exception that stops the loop. *)
Fixpoint chart_loop (acc tcs : list chunk) : list chunk * option exc :=
  match tcs with
  | [] => (acc, None)
  | c :: cs =>
      match chart_of c with
      | Raise e => (acc, Some e)
      | Ok charts => chart_loop (acc ++ charts) cs
      end
  end.

(** ** The chunk schema through the pipeline *)

Lemma schema_ok_intro c t p s x :
  c !! "type" = Some (VStr t) -> t ∈ chunk_kinds -> c !! "page" = Some p ->
  c !! "source" = Some (VStr s) -> c !! "content" = Some (VStr x) -> schema_ok c.
Proof. intros Ht Hk Hp Hs Hx. split_and!; eauto. Qed.

(** A chunk built by a dict literal: evaluate the four lookups. *)
Ltac dict_schema t p s x :=
  unfold text_chunk, table_chunk, ocr_chunk; apply (schema_ok_intro _ t p s x);
    [| unfold chunk_kinds; repeat constructor | ..]; rewrite dict_of_lookup; vm_compute; reflexivity.

Lemma text_chunk_schema path i t : schema_ok (text_chunk path i t).
Proof. dict_schema "text" (VInt (Z.of_nat i + 1)) path t. Qed.

Lemma table_chunk_schema path i page json raw : schema_ok (table_chunk path i page json raw).
Proof. dict_schema "table" page path json. Qed.

Lemma ocr_chunk_schema path p j text : schema_ok (ocr_chunk path p j text).
Proof. dict_schema "ocr" (VInt (Z.of_nat p + 1)) path (py_strip text). Qed.

Lemma chart_chunk_schema t page s m : schema_ok (chart_chunk t page (VStr s) m).
Proof.
  destruct m as [[a gs] ge]. unfold chart_chunk. cbv beta iota zeta.
  dict_schema "chart_metadata" page s
    (String.string_of_list_ascii (substr t (a - 200) (Nat.min (length t) (ge + 200)))).
Qed.

Lemma extract_chart_info_schema text page s : Forall schema_ok (extract_chart_info text page (VStr s)).
Proof.
  unfold extract_chart_info. apply Forall_concat, Forall_forall. intros l (w & -> & _)%list_elem_of_fmap_1.
  apply Forall_forall. intros c (m & -> & _)%list_elem_of_fmap_1. apply chart_chunk_schema.
Qed.

(** The sub-chunks of [process_chunk] keep the chunk's other keys. *)
Lemma emit_schema c text i : schema_ok c -> schema_ok (emit (without_content c) text i).
Proof.
  intros ((t & Ht & Hk) & [p Hp] & [s Hs] & _). unfold emit, without_content.
  apply (schema_ok_intro _ t p s text); [..| by simplify_map_eq]; by simplify_map_eq.
Qed.

Lemma process_chunk_out nltk self c out :
  process_chunk nltk self c = Ok out ->
  forall c', c' ∈ out -> c' = c \/ exists text i, c' = emit (without_content c) text i.
Proof.
  intros H c' Hc'. unfold process_chunk in H.
  assert (out = [c] -> c' = c) as Hid by (intros ->; by apply list_elem_of_singleton).
  destruct (pyval_eq_str _ _); [|injection H as <-; auto].
  destruct (dict_get _ _ _) as [s| | | | | |]; simpl in H; try done.
  destruct (Z.ltb _ _); [|injection H as <-; auto].
  unfold dict_getitem in H. destruct (c !! "content") as [[text| | | | | |]|]; simpl in H; try done.
  destruct (sentences_of nltk text) as [sents|e] eqn:Hs.
  - rewrite (chunk_by_sentence_render _ _ _ _ _ Hs) in H. injection H as <-.
    apply list_elem_of_lookup in Hc' as [k Hk]. apply render_lookup in Hk as (g & _ & ->). eauto.
  - unfold chunk_by_sentence in H. by rewrite Hs in H.
Qed.

Lemma process_chunk_schema nltk self c out :
  process_chunk nltk self c = Ok out -> schema_ok c -> Forall schema_ok out.
Proof.
  intros Hp Hc. apply Forall_forall. intros c' Hc'.
  destruct (process_chunk_out _ _ _ _ Hp c' Hc') as [-> | (text & i & ->)]; [done|].
  by apply emit_schema.
Qed.

(** With [nltk] importable, [process_chunk] returns on a chunk whose
    content is a string: [sent_tokenize]'s failure is caught. *)
Lemma process_chunk_total nltk tok self c s :
  nltk = Ok tok -> c !! "content" = Some (VStr s) -> exists out, process_chunk nltk self c = Ok out.
Proof.
  intros Hn Hc. unfold process_chunk, dict_get, dict_getitem. rewrite Hc. simpl.
  destruct (pyval_eq_str _ _); [|eauto]. destruct (Z.ltb _ _); [|eauto].
  unfold chunk_by_sentence, sentences_of. rewrite Hn. simpl.
  destruct (tok s); simpl; eauto.
Qed.

(** Without [nltk], [process_chunk] fails only by the [ImportError]. *)
Lemma process_chunk_no_nltk self c s :
  c !! "content" = Some (VStr s) ->
  (exists out, process_chunk (Raise ImportError) self c = Ok out) \/
  process_chunk (Raise ImportError) self c = Raise ImportError.
Proof.
  intros Hc. unfold process_chunk, dict_get, dict_getitem. rewrite Hc. simpl.
  destruct (pyval_eq_str _ _); [|eauto]. destruct (Z.ltb _ _); [|eauto]. by right.
Qed.

Lemma chart_of_schema c : schema_ok c -> exists charts, chart_of c = Ok charts /\ Forall schema_ok charts.
Proof.
  intros (_ & [p Hp] & [s Hs] & [x Hx]). unfold chart_of, dict_getitem. rewrite Hx, Hp, Hs. simpl.
  eexists; split; [done|]. apply extract_chart_info_schema.
Qed.

Lemma chart_loop_schema acc tcs :
  Forall schema_ok acc -> Forall schema_ok tcs ->
  (chart_loop acc tcs).2 = None /\ Forall schema_ok (chart_loop acc tcs).1.
Proof.
  revert acc; induction tcs as [|c tcs IH]; intros acc Hacc Htcs; simpl; [done|].
  apply Forall_cons in Htcs as [Hc Htcs]. destruct (chart_of_schema c Hc) as (charts & -> & Hch).
  apply IH; [by apply Forall_app|done].
Qed.

Lemma extract_from_pdf_schema fitz_open path tcs :
  extract_from_pdf fitz_open path = Ok tcs -> Forall schema_ok tcs.
Proof.
  unfold extract_from_pdf. destruct (fitz_open path) as [doc|]; simpl; [|done].
  destruct (py_mapM _ _) as [texts|]; simpl; [|done]. intros [= <-].
  apply Forall_forall. intros c (j & t & _ & _ & ->)%text_chunks_elem. apply text_chunk_schema.
Qed.

Lemma extract_tables_schema {DF} (df_len : DF -> nat) df_set_header df_drop_first df_records_json df_to_dict
      camelot_read path :
  Forall schema_ok (extract_tables_from_pdf df_len df_set_header df_drop_first df_records_json df_to_dict
                      camelot_read path).
Proof.
  unfold extract_tables_from_pdf. destruct (camelot_read path) as [tl|]; [|done].
  apply Forall_lookup. intros k c Hk.
  destruct (table_loop_spec df_len df_set_header df_drop_first df_records_json df_to_dict path 0 tl)
    as (_ & Hc & _).
  destruct (Hc k c Hk) as (t & j & raw & _ & _ & ->). apply table_chunk_schema.
Qed.

Lemma extract_images_schema fitz_open ocr_image path ocs :
  extract_from_pdf_images fitz_open ocr_image path = Ok ocs -> Forall schema_ok ocs.
Proof.
  unfold extract_from_pdf_images. destruct (fitz_open path) as [doc|]; [|by intros [= <-]].
  intros Ho. apply Forall_forall. intros c Hc.
  apply (ocr_pages_ok _ _ _ _ _ Ho) in Hc as (p & j & text & _ & ->). apply ocr_chunk_schema.
Qed.


(** Every chunk of a list that satisfies the schema has a string content. *)
Lemma schema_content cs c : Forall schema_ok cs -> c ∈ cs -> exists s, c !! "content" = Some (VStr s).
Proof. intros Hcs Hc. rewrite Forall_forall in Hcs. by destruct (Hcs c Hc) as (_ & _ & _ & ?). Qed.

Section Pipeline.
Variable file_exists : string -> bool.
Variable fitz_open : string -> py PdfDoc.
Variable ocr_image : Z -> py string.
Context {DF : Type} (df_len : DF -> nat) (df_set_header df_drop_first : DF -> DF)
        (df_records_json : DF -> py string) (df_to_dict : DF -> py pyval)
        (camelot_read : string -> py (list (CamelotTable DF))).
Variable nltk : py (string -> py (list string)).

Definition tables_of (path : string) : list chunk :=
  extract_tables_from_pdf df_len df_set_header df_drop_first df_records_json df_to_dict camelot_read path.

(** The [try] block of [process_document]: [all_chunks] when the block is
    left, and the exception caught by [except Exception], if any. *)
Definition extract_all (path : string) : list chunk * option exc :=
  match extract_from_pdf fitz_open path with
  | Raise e => ([], Some e)
  | Ok tcs =>
      let acc := tcs ++ tables_of path in
      match extract_from_pdf_images fitz_open ocr_image path with
      | Raise e => (acc, Some e)
      | Ok ocs => chart_loop (acc ++ ocs) tcs
      end
  end.

(** [for chunk in all_chunks: final_chunks.extend(self.chunker.process_chunk(chunk))],
    outside the [try]. *)
Definition chunk_all (self : IngestionPipeline) (all : list chunk) : py (list chunk) :=
  outs <- py_mapM (process_chunk nltk self.(pl_chunker)) all ;;
  Ok (concat outs).

Definition process_document (self : IngestionPipeline) (path : string) : py (list chunk) :=
  if negb (file_exists path) then Ok []
  else chunk_all self (extract_all path).1.

Lemma chunk_all_schema self all out :
  chunk_all self all = Ok out -> Forall schema_ok all -> Forall schema_ok out.
Proof.
  unfold chunk_all. destruct (py_mapM _ _) as [outs|] eqn:Hm; simpl; [|done]. intros [= <-] Hall.
  apply py_mapM_Ok_iff in Hm. apply Forall_concat.
  induction Hm as [|c o all outs Hc _ IH]; constructor.
  - apply Forall_cons in Hall as [Hc' _]. by eapply process_chunk_schema.
  - apply IH. by apply Forall_cons in Hall as [_ ?].
Qed.

Lemma extract_all_schema path : Forall schema_ok (extract_all path).1.
Proof.
  unfold extract_all. destruct (extract_from_pdf fitz_open path) as [tcs|] eqn:Ht; [|done].
  pose proof (extract_from_pdf_schema _ _ _ Ht) as Htcs.
  pose proof (extract_tables_schema df_len df_set_header df_drop_first df_records_json df_to_dict
                camelot_read path) as Htab.
  destruct (extract_from_pdf_images _ _ _) as [ocs|] eqn:Ho; simpl; [|by apply Forall_app].
  apply chart_loop_schema; [|done]. apply Forall_app; split; [by apply Forall_app|].
  by eapply extract_images_schema.
Qed.

Lemma chart_of_text_chunk path j t :
  chart_of (text_chunk path j t) = Ok (extract_chart_info t (VInt (Z.of_nat j + 1)) (VStr path)).
Proof.
  destruct (text_chunk_lookup path j t) as (_ & Hc & Hp & Hs).
  unfold chart_of, dict_getitem. by rewrite Hc, Hp, Hs.
Qed.

Lemma chart_loop_text path acc tcs :
  (forall c, c ∈ tcs -> exists j t, c = text_chunk path j t) ->
  exists charts, chart_loop acc tcs = (acc ++ concat charts, None) /\
    Forall2 (fun c ch => exists j t, c = text_chunk path j t /\
                          ch = extract_chart_info t (VInt (Z.of_nat j + 1)) (VStr path)) tcs charts.
Proof.
  revert acc; induction tcs as [|c tcs IH]; intros acc Hall; simpl.
  { exists []. by rewrite app_nil_r. }
  destruct (Hall c ltac:(by left)) as (j & t & ->). rewrite chart_of_text_chunk.
  destruct (IH (acc ++ extract_chart_info t (VInt (Z.of_nat j + 1)) (VStr path))) as (charts & -> & H2).
  { intros c' Hc'. apply Hall. by right. }
  exists (extract_chart_info t (VInt (Z.of_nat j + 1)) (VStr path) :: charts).
  split; [by rewrite <- app_assoc|]. constructor; [by exists j, t|done].
Qed.

(** C27: the ingestion output is well typed: every chunk that
    [process_document] returns has a ["type"] among the four kinds, a
    ["page"], a string ["source"] and a string ["content"]. *)
Theorem process_document_schema self path out :
  process_document self path = Ok out -> Forall schema_ok out.
Proof.
  unfold process_document. destruct (file_exists path); simpl; [|by intros [= <-]].
  intros H. eapply chunk_all_schema; [exact H|]. apply extract_all_schema.
Qed.

(** C28: with [nltk] importable, [process_document] always returns a
    list: no extractor failure and no chunk escapes as an exception. *)
Theorem process_document_total tok self path :
  nltk = Ok tok -> exists out, process_document self path = Ok out.
Proof.
  intros Hn. unfold process_document. destruct (file_exists path); simpl; [|eauto].
  unfold chunk_all. destruct (py_mapM _ _) as [outs|e] eqn:Hm; simpl; [eauto|].
  exfalso. apply py_mapM_Raise_elem in Hm as (c & Hc & Hce).
  destruct (schema_content _ c (extract_all_schema path) Hc) as [s Hs].
  destruct (process_chunk_total _ _ self.(pl_chunker) c s Hn Hs) as [o Ho]. congruence.
Qed.

(** C29: the chunking loop is outside the [try]: when [import nltk]
    fails, a document with one text chunk longer than [chunk_size] words
    makes [process_document] raise [ImportError], where the spec says it
    never raises. *)
Theorem process_document_import_error self path c s :
  nltk = Raise ImportError -> file_exists path = true -> c ∈ (extract_all path).1 ->
  pyval_eq_str (dict_get "type" c VNone) "text" = true -> c !! "content" = Some (VStr s) ->
  (self.(pl_chunker).(chunk_size) < word_count s)%Z ->
  process_document self path = Raise ImportError.
Proof.
  intros Hn Hf Hc Ht Hs Hw. unfold process_document. rewrite Hf. simpl. unfold chunk_all.
  rewrite Hn, (py_mapM_raise _ _ ImportError); [done| |].
  - intros x Hx. destruct (schema_content _ x (extract_all_schema path) Hx) as [sx Hsx].
    exact (process_chunk_no_nltk _ _ sx Hsx).
  - exists c. split; [done|]. rewrite (process_chunk_long _ _ _ s) by done.
    by unfold chunk_by_sentence, sentences_of.
Qed.

(** C30: a failing [fitz.open] in the text extractor, which has no
    [try] of its own, ends the extraction block before the table and OCR
    extractors run: [process_document] returns no chunk at all, whatever
    camelot would have found. *)
Theorem process_document_text_failure self path e :
  file_exists path = true -> fitz_open path = Raise e -> process_document self path = Ok [].
Proof. intros Hf Ho. unfold process_document, extract_all, extract_from_pdf. by rewrite Hf, Ho. Qed.

(** A failing [page.get_images()] (outside the OCR extractor's
    per-image [try]) ends the extraction block after the text and table
    chunks: they are kept, in that order, and the chart step never runs. *)
Theorem extract_all_ocr_failure path doc texts p pg e :
  fitz_open path = Ok doc -> py_mapM page_text doc.(doc_pages) = Ok texts ->
  doc.(doc_pages) !! p = Some pg -> page_images pg = Raise e ->
  (forall q pg', q < p -> doc.(doc_pages) !! q = Some pg' -> exists imgs, page_images pg' = Ok imgs) ->
  extract_all path = (text_chunks path 0 texts ++ tables_of path, Some e).
Proof.
  intros Ho Ht Hp He Hbefore. unfold extract_all, extract_from_pdf, extract_from_pdf_images.
  rewrite Ho. simpl. rewrite Ht. simpl. by rewrite (ocr_pages_raise _ _ _ _ p pg e).
Qed.

(** C31: when every extractor succeeds, the extraction block collects the
    text chunks, then the tables, then the OCR chunks, then for each text
    chunk in order the charts found in its content, on its page and
    source, and ends without an exception. *)
Theorem extract_all_complete path doc texts ocs :
  fitz_open path = Ok doc -> py_mapM page_text doc.(doc_pages) = Ok texts ->
  extract_from_pdf_images fitz_open ocr_image path = Ok ocs ->
  exists charts,
    extract_all path = (text_chunks path 0 texts ++ tables_of path ++ ocs ++ concat charts, None) /\
    Forall2 (fun c ch => exists j t, c = text_chunk path j t /\
                          ch = extract_chart_info t (VInt (Z.of_nat j + 1)) (VStr path))
            (text_chunks path 0 texts) charts.
Proof.
  intros Ho Ht Hi. unfold extract_all. rewrite Hi. unfold extract_from_pdf. rewrite Ho. simpl. rewrite Ht. simpl.
  destruct (chart_loop_text path ((text_chunks path 0 texts ++ tables_of path) ++ ocs) (text_chunks path 0 texts))
    as (charts & -> & H2).
  { intros c (j & t & _ & _ & ->)%text_chunks_elem. eauto. }
  exists charts. split; [by rewrite <- !app_assoc|done].
Qed.
End Pipeline.

(** ** Concrete runs *)

(** The spec's scenario: a three-page PDF with a table on page 2 (whose
    text also names it, ["Table 1: Revenue"]) and an image with
    recognisable text on page 3. *)
Abbreviation scen_doc :=
  (mkDoc [mkPage (Ok "Intro. The report covers sales.") (Ok []);
          mkPage (Ok "Revenue by region. Table 1: Revenue") (Ok []);
          mkPage (Ok "Appendix") (Ok [7%Z])]).
Abbreviation scen_open := (fun _ : string => Ok (A := PdfDoc) scen_doc).
Abbreviation scen_ocr := (fun x : Z => if Z.eqb x 7 then Ok "Scanned total 42" else Ok (A := string) "").
Abbreviation scen_camelot := (fun _ : string => Ok (A := list (CamelotTable string)) [mkTable "rows" (VInt 2)]).
Abbreviation scen_process fitz n :=
  (process_document (fun _ => true) fitz scen_ocr (fun _ : string => 1) id id (fun d => Ok d) (fun _ => Ok VNone)
     scen_camelot n).
Abbreviation scen_self := (IngestionPipeline_init (default_config (fun _ => None))).
Abbreviation scen_extract fitz :=
  (extract_all fitz scen_ocr (fun _ : string => 1) id id (fun d => Ok d) (fun _ => Ok VNone) scen_camelot).

(** The spec's ingestion scenario: three text chunks, one table
    chunk, one OCR chunk and the chart chunk of ["Table 1: Revenue"],
    in that order, six chunks in all (at least the five the spec asks). *)
Example process_document_scenario :
  exists out, scen_process scen_open nltk_fallback scen_self "doc.pdf" = Ok out /\
    map (fun c => c !! "type") out =
      [Some (VStr "text"); Some (VStr "text"); Some (VStr "text"); Some (VStr "table");
       Some (VStr "ocr"); Some (VStr "chart_metadata")] /\
    5 <= length out.
Proof. apply py_ok_check. vm_compute. split; [reflexivity | lia]. Qed.

Lemma process_document_schema_witness :
  exists out, scen_process scen_open nltk_fallback scen_self "doc.pdf" = Ok out /\ Forall schema_ok out.
Proof.
  destruct (py_ok_check (scen_process scen_open nltk_fallback scen_self "doc.pdf") (fun _ => True))
    as (out & H & _); [vm_compute; exact I|].
  exists out. split; [exact H | exact (process_document_schema _ _ _ _ _ _ _ _ _ _ _ _ _ H)].
Defined.

Lemma process_document_total_witness :
  exists out, scen_process scen_open nltk_fallback scen_self "doc.pdf" = Ok out.
Proof. eapply process_document_total; reflexivity. Defined.

Lemma process_document_import_error_witness :
  scen_process scen_open (Raise ImportError) (mkPipeline (mkChunker 3 0)) "doc.pdf" = Raise ImportError.
Proof.
  apply process_document_import_error with
      (c := text_chunk "doc.pdf" 0 "Intro. The report covers sales.") (s := "Intro. The report covers sales.");
    [reflexivity | reflexivity | apply list_elem_of_lookup; exists 0; reflexivity | vm_compute; reflexivity | vm_compute; reflexivity |
     vm_compute; reflexivity].
Defined.

Lemma process_document_text_failure_witness :
  length (tables_of (fun _ : string => 1) id id (fun d => Ok d) (fun _ => Ok VNone) scen_camelot "doc.pdf") = 1 /\
  scen_process (fun _ => Raise ExtError) nltk_fallback scen_self "doc.pdf" = Ok [].
Proof.
  split; [vm_compute; reflexivity|].
  eapply process_document_text_failure; reflexivity.
Defined.

Lemma extract_all_ocr_failure_witness :
  scen_extract (fun _ => Ok (mkDoc [mkPage (Ok "Figure 1: x") (Ok []); mkPage (Ok "y") (Raise ExtError)])) "doc.pdf" =
  (text_chunks "doc.pdf" 0 ["Figure 1: x"; "y"] ++
   tables_of (fun _ : string => 1) id id (fun d => Ok d) (fun _ => Ok VNone) scen_camelot "doc.pdf", Some ExtError).
Proof.
  apply extract_all_ocr_failure with
      (doc := mkDoc [mkPage (Ok "Figure 1: x") (Ok []); mkPage (Ok "y") (Raise ExtError)])
      (p := 1) (pg := mkPage (Ok "y") (Raise ExtError)); try reflexivity.
  intros [|q] pg' Hq Hpg; [injection Hpg as <-; by eexists | lia].
Defined.

Lemma extract_all_complete_witness :
  exists charts,
    scen_extract scen_open "doc.pdf" =
      (text_chunks "doc.pdf" 0 ["Intro. The report covers sales."; "Revenue by region. Table 1: Revenue"; "Appendix"] ++
       tables_of (fun _ : string => 1) id id (fun d => Ok d) (fun _ => Ok VNone) scen_camelot "doc.pdf" ++
       [ocr_chunk "doc.pdf" 2 0 "Scanned total 42"] ++ concat charts, None) /\
    Forall2 (fun c ch => exists j t, c = text_chunk "doc.pdf" j t /\
                          ch = extract_chart_info t (VInt (Z.of_nat j + 1)) (VStr "doc.pdf"))
      (text_chunks "doc.pdf" 0 ["Intro. The report covers sales."; "Revenue by region. Table 1: Revenue"; "Appendix"])
      charts.
Proof. apply extract_all_complete with (doc := scen_doc); vm_compute; reflexivity. Defined.
