(* ===== verification/App.v ===== *)
(** * The Streamlit app ([src/app.py])

    The script runs from the top on every interaction.  What survives a
    run is the session state ([st.session_state.messages],
    [st.session_state.doc_processed]) and the cached components
    ([init_components], [@st.cache_resource]); of those, only the two
    [VectorStore] objects hold state: [components['vector_store']] and
    the one the [Retriever] builds in its [__init__].  Both open the same
    persistent collection (["documents"] under [VECTOR_DB_PATH]), so the
    model keeps one collection, in [store], and the retriever queries it
    through [retriever_view].

    One interaction is an [event]: an upload processed with the
    ["Process Document"] button (lines 53-74) or a question typed in
    [st.chat_input] (lines 85-130).  [app_step] runs it; an exception of
    the upload branch, which has no [try], ends the run and leaves the
    state as it was.  The components outside [src/] ([PromptTemplate],
    [PerplexityLLM], [AnswerFormatter]) and the pipeline are Section
    variables; the display calls ([st.markdown], [st.chat_message], ...)
    do not change the state and are not modelled. *)

From S2P Require Import Prelude PyStr Config Chunk StableSort Reranker VectorStore Retriever Merger.
From Stdlib Require Import QArith_base.

Record Message := mkMsg { msg_role : string; msg_content : string }.

Definition welcome : Message :=
  mkMsg "assistant" "Hello! Please upload a PDF document, and I'll help you answer questions about it.".

Record App := mkApp {
  messages : list Message;
  doc_processed : bool;
  store : VectorStore;            (** [components['vector_store']] *)
  retriever_store : VectorStore   (** [components['retriever'].vector_store] *)
}.

(** The retriever's store over the shared persistent collection. *)
Definition retriever_view (a : App) : VectorStore :=
  mkVS a.(store).(vs_collection) a.(retriever_store).(vs_client) a.(retriever_store).(vs_uuid).

(** The first run: [init_components()] and the two
    [if '...' not in st.session_state] initialisations. *)
Definition session_init (cfg : Config) (persisted : gmap string StoredRecord) (u1 u2 : N) : App :=
  mkApp [welcome] false (VectorStore_init cfg persisted u1) (VectorStore_init cfg persisted u2).

(** [Path("data/raw_documents") / uploaded_file.name] *)
Definition upload_path (name : string) : string := ("data/raw_documents/" ++ name)%string.

Definition processed_message (name : string) : Message :=
  mkMsg "assistant" ("I've processed '" ++ name ++ "'. What would you like to know?")%string.

(** [{"High": ..., "Medium": ..., "Low": ...}.get(confidence, "⚪")] *)
Definition confidence_color (conf : string) : string :=
  if String.eqb conf "High" then "🟢"
  else if String.eqb conf "Medium" then "🟡"
  else if String.eqb conf "Low" then "🔴"
  else "⚪".

(** [parsed_response.get(k, default)] *)
Definition get_or (d : gmap string string) (k default : string) : string :=
  match d !! k with Some v => v | None => default end.

(** [full_response] (lines 119-123). *)
Definition full_response (parsed : gmap string string) : string :=
  let conf := get_or parsed "confidence" "Unknown" in
  (get_or parsed "answer" "No answer found." ++ nl ++ nl ++
   "**Confidence:** " ++ confidence_color conf ++ " " ++ conf ++ nl ++ nl ++
   "**Citations:** " ++ get_or parsed "citations" "None")%string.

Inductive event := Upload (name : string) | Ask (typed : option string).

Section Steps.
Variable cfg : Config.
(** [components['pipeline'].process_document] *)
Variable process_doc : string -> py (list chunk).
Variable embed_api : list pyval -> py (list (list Q)).
Variable nn_search : gmap string StoredRecord -> list Q -> Z -> py QueryResult.
Variable predict : list (string * string) -> py (list Q).
Context `{StableDescSort}.
Variable fmt_other : pyval -> string.
(** [PromptTemplate.create_query_prompt] and [PromptTemplate.SYSTEM_PROMPT] *)
Variable make_prompt : string -> string -> string.
Variable SYSTEM_PROMPT : string.
(** [components['llm'].generate(prompt, system_prompt)] *)
Variable llm_generate : string -> string -> py string.
(** [components['formatter'].parse_response] *)
Variable parse_response : string -> py (gmap string string).
(** [f"{e}"] *)
Variable exc_str : exc -> string.

(** Lines 55-73: process the saved file, add its chunks to the store,
    unlock questions and reset the chat. *)
Definition process_upload (name : string) (a : App) : py App :=
  chunks <- process_doc (upload_path name) ;;
  vs <- add_chunks embed_api a.(store) chunks ;;
  Ok (mkApp [processed_message name] true vs a.(retriever_store)).

(** The body of the [try] (lines 96-123). *)
Definition answer (a : App) (q : string) : py string :=
  retrieved <- retrieve (query embed_api nn_search (retriever_view a)) cfg q None ;;
  reranked <- (match retrieved with
               | [] => Ok retrieved
               | _ => rerank predict cfg q retrieved None
               end) ;;
  let context := create_context fmt_other reranked in
  raw <- llm_generate (make_prompt context q) SYSTEM_PROMPT ;;
  parsed <- parse_response raw ;;
  Ok (full_response parsed).

(** [st.chat_input(..., disabled=not doc_processed)]: nothing is
    submitted while questions are locked. *)
Definition chat_input (a : App) (typed : option string) : option string :=
  if a.(doc_processed) then typed else None.

(** Lines 85-130: [if query := ...:] append the question, then the answer
    or, when the [try] raised, the error message. *)
Definition chat_step (a : App) (typed : option string) : App :=
  match chat_input a typed with
  | Some q =>
      if String.eqb q "" then a
      else
        let reply := match answer a q with
                     | Ok r => r
                     | Raise e => ("An error occurred: " ++ exc_str e)%string
                     end in
        mkApp (a.(messages) ++ [mkMsg "user" q; mkMsg "assistant" reply]) a.(doc_processed)
              a.(store) a.(retriever_store)
  | None => a
  end.

Definition app_step (a : App) (ev : event) : App :=
  match ev with
  | Upload name => match process_upload name a with Ok a' => a' | Raise _ => a end
  | Ask typed => chat_step a typed
  end.

(** The states of a session: the first run, then any interactions. *)
Inductive reachable (persisted : gmap string StoredRecord) (u1 u2 : N) : App -> Prop :=
| reach_init : reachable persisted u1 u2 (session_init cfg persisted u1 u2)
| reach_step a ev : reachable persisted u1 u2 a -> reachable persisted u1 u2 (app_step a ev).

(** ** The chat history *)

(** Every ["user"] message is directly followed by a reply. *)
Fixpoint replies_follow (ms : list Message) : bool :=
  match ms with
  | [] => true
  | m :: ms' =>
      (negb (String.eqb m.(msg_role) "user") ||
       match ms' with m' :: _ => String.eqb m'.(msg_role) "assistant" | [] => false end) &&
      replies_follow ms'
  end.

(** The history opens with an assistant message, every question has its
    reply, and before a document is processed the history is the
    welcome message alone. *)
Definition app_inv (a : App) : Prop :=
  (exists m ms, a.(messages) = m :: ms /\ m.(msg_role) = "assistant") /\
  replies_follow a.(messages) = true /\
  (a.(doc_processed) = false -> a.(messages) = [welcome]).

Lemma replies_follow_app ms l :
  replies_follow ms = true -> replies_follow l = true -> replies_follow (ms ++ l) = true.
Proof.
  induction ms as [|m ms IH]; intros Hms Hl; [done|]. simpl in *.
  apply andb_true_iff in Hms as [Hm Hms]. apply andb_true_iff. split; [|by apply IH].
  destruct ms as [|m' ms]; [|done]. rewrite orb_false_r in Hm. by rewrite Hm.
Qed.

Lemma replies_follow_qa q r : replies_follow [mkMsg "user" q; mkMsg "assistant" r] = true.
Proof. reflexivity. Qed.

Lemma chat_step_inv a typed : app_inv a -> app_inv (chat_step a typed).
Proof.
  intros Hinv. unfold chat_step, chat_input.
  destruct (doc_processed a) eqn:Hd; [|exact Hinv]. destruct typed as [q|]; [|exact Hinv].
  destruct (String.eqb q ""); [exact Hinv|]. destruct Hinv as (Hhd & Hrf & _). split_and!; simpl.
  - destruct Hhd as (m & ms & -> & Hm). by eexists m, _.
  - apply replies_follow_app; [done | apply replies_follow_qa].
  - done.
Qed.

Lemma process_upload_inv name a a' :
  process_upload name a = Ok a' -> app_inv a'.
Proof.
  unfold process_upload. destruct (process_doc _) as [chunks|]; simpl; [|done].
  destruct (add_chunks _ _ _) as [vs|]; simpl; [|done]. intros [= <-].
  split_and!; [by eexists _, [] | reflexivity | done].
Qed.

(** C32: the chat history of every reachable session: it opens with an
    assistant message, every user question is directly followed by a
    reply, and no question is in the history before a document has been
    processed (the input is disabled until then). *)
Theorem reachable_inv persisted u1 u2 a : reachable persisted u1 u2 a -> app_inv a.
Proof.
  induction 1 as [|a [name|typed] _ IH]; simpl.
  - split_and!; [by eexists _, [] | reflexivity | done].
  - destruct (process_upload _ _) as [a'|] eqn:Hp; [by eapply process_upload_inv | done].
  - by apply chat_step_inv.
Qed.

End Steps.

(** ** Concrete runs *)

(** A session without API keys (mock embeddings), a failing neighbour
    search, a model that echoes the prompt and a parser that reads it as
    the answer. *)
Abbreviation cfg0 := (default_config (fun _ => None)).
Abbreviation run_step :=
  (app_step cfg0 (fun _ => Ok []) (fun _ => Raise ExtError) (fun _ _ _ => Raise ExtError) (fun _ => Ok [])
     (fun _ => EmptyString) (fun _ q => q) EmptyString (fun p _ => Ok p)
     (fun r => Ok (<["answer" := r]> (∅ : gmap string string))) (fun _ => "error")).

Lemma reachable_inv_witness :
  app_inv (run_step (run_step (session_init cfg0 ∅ 0 0) (Upload "a.pdf")) (Ask (Some "Why?"))).
Proof.
  apply (reachable_inv cfg0 (fun _ => Ok []) (fun _ => Raise ExtError) (fun _ _ _ => Raise ExtError) (fun _ => Ok [])
           (fun _ => EmptyString) (fun _ q => q) EmptyString (fun p _ => Ok p)
           (fun r => Ok (<["answer" := r]> (∅ : gmap string string))) (fun _ => "error") ∅ 0 0).
  repeat constructor.
Defined.
