(* ===== verification/Embedders.v ===== *)
(** * The embedders ([src/base_embedder.py], [src/embed_text.py],
      [src/embed_table.py], [src/embed_image.py])

    [BaseEmbedder.__init__] picks the model name ([model or
    EMBEDDING_MODEL]) and creates an API client only for a real
    Perplexity key.  The three subclasses build the texts to embed,
    make one batch request [client.embeddings.create(input=texts,
    model=...)] inside a [try], and fall back to one empty vector per
    text when it raises; without a client the request is an attribute
    access on [None], which raises [AttributeError] inside the same
    [try].  [embed_tables] and [embed_images] pair texts, embeddings and
    metadata with Python's [zip], which stops at the shortest list.

    The API, [json.loads], OCR, [Image.open] and [str()] of floats,
    dicts and lists are Section variables.  [json.dumps] and
    [json.loads] are bundled in the class [JsonCodec] with the library's
    round-trip law, so that a table chunk written by the table extractor
    can be followed into [_table_to_text]. *)

From S2P Require Import Prelude PyStr Config Chunk VectorStore Merger Extractors.
From stdpp Require Import pretty.
From Stdlib Require Import Ascii QArith_base.

(** [BaseEmbedder]: the model name and whether [self.client] is an API
    client ([False] for [None]). *)
Record BaseEmbedder := mkEmbedder { emb_model : string; emb_client : bool }.

(** [BaseEmbedder.__init__(model)]: [model or config.EMBEDDING_MODEL]
    (an empty name is falsy too). *)
Definition BaseEmbedder_init (cfg : Config) (model : option string) : BaseEmbedder :=
  mkEmbedder
    (match model with
     | Some m => if String.eqb m "" then cfg.(EMBEDDING_MODEL) else m
     | None => cfg.(EMBEDDING_MODEL)
     end)
    (negb (String.eqb cfg.(PERPLEXITY_API_KEY) "" || String.eqb cfg.(PERPLEXITY_API_KEY) "test_key")).

(** Python's truth value of a value. *)
Definition py_truthy (v : pyval) : bool :=
  match v with
  | VStr s => negb (String.eqb s "")
  | VInt z => negb (Z.eqb z 0)
  | VFloat q => negb (Qeq_bool q 0)
  | VBool b => b
  | VNone => false
  | VDict kvs => negb (bool_decide (kvs = []))
  | VList l => negb (bool_decide (l = []))
  end.

(** [a or b] *)
Definition py_or (a b : pyval) : pyval := if py_truthy a then a else b.

(** One item of [embed_tables] / [embed_images]:
    [{"text": text, "embedding": emb, "metadata": meta}]. *)
Record EmbeddedItem := mkItem { item_text : string; item_embedding : list Q; item_metadata : chunk }.

(** [for text, emb, meta in zip(texts, embeddings, metadatas)] *)
Fixpoint zip_items (texts : list string) (embs : list (list Q)) (metas : list chunk) : list EmbeddedItem :=
  match texts, embs, metas with
  | t :: ts, e :: es, m :: ms => mkItem t e m :: zip_items ts es ms
  | _, _, _ => []
  end.

(** [json.dumps] and [json.loads] on JSON values: [loads] inverts
    [dumps]. *)
Class JsonCodec := {
  json_dumps : pyval -> string;
  json_loads : string -> py pyval;
  json_loads_dumps : forall v, json_loads (json_dumps v) = Ok v
}.

Section Embedders.
(** [client.embeddings.create(input=texts, model=model)]: the vectors of
    [response.data], or the exception. *)
Variable embeddings_create : string -> list string -> py (list (list Q)).
Context `{JsonCodec}.
(** [str(v)] of a float, a dict or a list. *)
Variable fmt_other : pyval -> string.
(** [pytesseract.image_to_string] and [Image.open(io.BytesIO(b))]. *)
Context {Img : Type}.
Variable ocr : Img -> py string.
Variable image_open : string -> py Img.

(** [self.client.embeddings.create(...)]; on [None] the attribute
    access raises. *)
Definition create (e : BaseEmbedder) (texts : list string) : py (list (list Q)) :=
  if e.(emb_client) then embeddings_create e.(emb_model) texts else Raise AttributeError.

(** The [try]/[except] around the request: [[[] for _ in texts]] on
    failure. *)
Definition embeddings_or_empty (e : BaseEmbedder) (texts : list string) : list (list Q) :=
  match create e texts with
  | Ok es => es
  | Raise _ => map (fun _ => []) texts
  end.

(** [TextEmbedder.embed_texts(texts)] *)
Definition embed_texts (e : BaseEmbedder) (texts : list string) : list (list Q) :=
  match texts with
  | [] => []
  | _ => embeddings_or_empty e texts
  end.

(** [f"{k}: {v}"] joined by ["; "] for a dict row, [str(r)] otherwise. *)
Definition row_line (r : pyval) : string :=
  match r with
  | VDict kvs => py_join "; " (map (fun kv => (kv.1 ++ ": " ++ py_format fmt_other kv.2)%string) kvs)
  | _ => py_format fmt_other r
  end.

(** The lines of [_table_to_text] after parsing, joined by newlines. *)
Definition rows_text (rows : pyval) : string :=
  py_join nl (match rows with
              | VList rs => map row_line rs
              | _ => [py_format fmt_other rows]
              end).

(** [TableEmbedder._table_to_text(table_content)]: a string is parsed as
    JSON, and returned as it is when parsing raises. *)
Definition table_to_text (content : pyval) : string :=
  match content with
  | VStr s => match json_loads s with
              | Ok rows => rows_text rows
              | Raise _ => s
              end
  | _ => rows_text content
  end.

(** [TableEmbedder.embed_tables(tables)] *)
Definition embed_tables (e : BaseEmbedder) (tables : list chunk) : list EmbeddedItem :=
  let texts := map (fun t => table_to_text (dict_get "content" t VNone)) tables in
  let metadatas := map without_content tables in
  zip_items texts (embeddings_or_empty e texts) metadatas.

(** [ImageEmbedder._ocr_image(image)] *)
Definition ocr_image (img : Img) : string :=
  match ocr img with
  | Ok text => py_strip text
  | Raise _ => EmptyString
  end.

(** [sources[idx] if sources and idx < len(sources) else {}] *)
Definition image_metadata (sources : option (list chunk)) (idx : nat) : chunk :=
  match sources with
  | Some ss => match ss !! idx with Some m => m | None => ∅ end
  | None => ∅
  end.

(** [metadata.get("source") or metadata.get("page") or f"image_{idx}"] *)
Definition source_desc (md : chunk) (idx : nat) : string :=
  py_format fmt_other
    (py_or (py_or (dict_get "source" md VNone) (dict_get "page" md VNone))
           (VStr ("image_" ++ pretty (N.of_nat idx))%string)).

(** The text sent for the [idx]-th image: the OCR text, or the
    placeholder when it is empty. *)
Definition image_text (sources : option (list chunk)) (idx : nat) (img : Img) : string :=
  let text := ocr_image img in
  if String.eqb text "" then
    ("Image content (no extracted text) from " ++ source_desc (image_metadata sources idx) idx)%string
  else text.

(** [ImageEmbedder.embed_images(images, sources)] *)
Definition image_texts (sources : option (list chunk)) (images : list Img) : list string :=
  imap (image_text sources) images.

Definition embed_images (e : BaseEmbedder) (images : list Img) (sources : option (list chunk)) :
    list EmbeddedItem :=
  let texts := image_texts sources images in
  let metadatas := imap (fun idx _ => image_metadata sources idx) images in
  zip_items texts (embeddings_or_empty e texts) metadatas.

(** [ImageEmbedder.embed_image_bytes(image_bytes, metadata)]: an
    unreadable image raises [ValueError]; [[0]] of an empty result
    raises [IndexError]. *)
Definition embed_image_bytes (e : BaseEmbedder) (image_bytes : string) (metadata : option chunk) :
    py EmbeddedItem :=
  image <- py_catch (image_open image_bytes) (fun _ => Raise ValueError) ;;
  py_index (embed_images e [image] (Some [match metadata with Some m => m | None => ∅ end])) 0.

(** ** Lemmas *)

Lemma length_zip_items ts es ms :
  length (zip_items ts es ms) = Nat.min (length ts) (Nat.min (length es) (length ms)).
Proof. revert es ms; induction ts as [|t ts IH]; intros [|e es] [|m ms]; simpl; auto. Qed.

Lemma lookup_zip_items ts es ms i it :
  zip_items ts es ms !! i = Some it <->
  exists t e m, ts !! i = Some t /\ es !! i = Some e /\ ms !! i = Some m /\ it = mkItem t e m.
Proof.
  revert es ms i; induction ts as [|t ts IH]; intros [|e es] [|m ms] [|i]; simpl;
    try (split; [done | intros (? & ? & ? & ? & ? & ? & ?); done]).
  - split; [intros [= <-]; eauto 10 | intros (? & ? & ? & [= ->] & [= ->] & [= ->] & ->); done].
  - apply IH.
Qed.

(** The request answers with one vector per text, or raises. *)
Definition answers_per_text (e : BaseEmbedder) (texts : list string) : Prop :=
  match create e texts with Ok es => length es = length texts | Raise _ => True end.

Lemma length_embeddings_or_empty e texts :
  answers_per_text e texts -> length (embeddings_or_empty e texts) = length texts.
Proof.
  unfold answers_per_text, embeddings_or_empty. destruct (create e texts); [done | intros _; apply length_map].
Qed.

Lemma image_text_nonempty sources idx img : image_text sources idx img <> "".
Proof. unfold image_text. destruct (String.eqb_spec (ocr_image img) ""); [discriminate | done]. Qed.

Lemma lookup_image_texts sources images i t :
  image_texts sources images !! i = Some t <-> exists img, images !! i = Some img /\ t = image_text sources i img.
Proof.
  unfold image_texts. rewrite list_lookup_imap.
  destruct (images !! i); simpl; split; [intros [= <-]; eauto | by intros (? & [= <-] & ->) | done |].
  by intros (? & ? & _).
Qed.

(** ** Properties of the embedders *)

(** C33: the image embedder never sends an empty text: every text of the
    batch, hence every returned item's text, is the OCR text when it is
    not empty and the placeholder otherwise. *)
Theorem embed_images_texts_nonempty e images sources :
  Forall (fun t => t <> "") (image_texts sources images) /\
  Forall (fun it => it.(item_text) <> "") (embed_images e images sources).
Proof.
  split.
  - apply Forall_lookup. intros i t (img & _ & ->)%lookup_image_texts. apply image_text_nonempty.
  - apply Forall_lookup. intros i it (t & v & m & Ht & _ & _ & ->)%lookup_zip_items.
    apply lookup_image_texts in Ht as (img & _ & ->). apply image_text_nonempty.
Qed.

(** C34: when the API answers with one vector per text (or raises), the
    [i]-th item of [embed_images] is the [i]-th image's text, the [i]-th
    vector (empty on failure) and [sources[i]] or [{}]: nothing is
    dropped by [zip]. *)
Theorem embed_images_aligned e images sources :
  answers_per_text e (image_texts sources images) ->
  length (embed_images e images sources) = length images /\
  forall i img, images !! i = Some img ->
    exists v, embeddings_or_empty e (image_texts sources images) !! i = Some v /\
      embed_images e images sources !! i = Some (mkItem (image_text sources i img) v (image_metadata sources i)).
Proof.
  intros Ha. unfold embed_images.
  pose proof (length_embeddings_or_empty _ _ Ha) as Hl. unfold image_texts in *.
  split.
  - rewrite length_zip_items, Hl, !length_imap. lia.
  - intros i img Hi.
    destruct (lookup_lt_is_Some_2 (embeddings_or_empty e (imap (image_text sources) images)) i) as [v Hv].
    { rewrite Hl, length_imap. by eapply lookup_lt_Some. }
    exists v. split; [done|]. apply lookup_zip_items. eexists _, v, _. split_and!; [| done | |].
    + by rewrite list_lookup_imap, Hi.
    + by rewrite list_lookup_imap, Hi.
    + done.
Qed.

Lemma table_chunk_content path i page (j : string) raw :
  dict_get "content" (table_chunk path i page j raw) VNone = VStr j.
Proof. unfold dict_get, table_chunk. rewrite dict_of_lookup. reflexivity. Qed.

(** C35: round trip from the table extractor to the table embedder: a
    table chunk whose content is [json.dumps] of a list of rows is
    embedded as the text with one line per row ([k: v] pairs joined by
    ["; "]), the API's vector, and the chunk's other keys. *)
Theorem embed_tables_roundtrip e path i page rows raw v :
  create e [py_join nl (map row_line rows)] = Ok [v] ->
  embed_tables e [table_chunk path i page (json_dumps (VList rows)) raw] =
    [mkItem (py_join nl (map row_line rows)) v
            (without_content (table_chunk path i page (json_dumps (VList rows)) raw))].
Proof.
  intros Hc. unfold embed_tables. cbn [map]. rewrite table_chunk_content.
  unfold table_to_text. rewrite json_loads_dumps. unfold embeddings_or_empty, rows_text. by rewrite Hc.
Qed.

(** C36: error paths of [embed_image_bytes]: bytes [Image.open] cannot read
    raise [ValueError]; an API answer without any vector makes [[0]] of
    the empty [zip] raise [IndexError]; one vector gives the item. *)
Theorem embed_image_bytes_errors e b md :
  ((exists ex, image_open b = Raise ex) -> embed_image_bytes e b md = Raise ValueError) /\
  (forall img, image_open b = Ok img ->
     let sources := Some [match md with Some m => m | None => ∅ end] in
     (create e (image_texts sources [img]) = Ok [] -> embed_image_bytes e b md = Raise IndexError) /\
     (forall v, create e (image_texts sources [img]) = Ok [v] ->
        embed_image_bytes e b md = Ok (mkItem (image_text sources 0 img) v (image_metadata sources 0)))).
Proof.
  split.
  - intros [ex Hex]. unfold embed_image_bytes. by rewrite Hex.
  - intros img Himg. cbv zeta. unfold embed_image_bytes. rewrite Himg. cbn [py_catch py_bind].
    unfold embed_images, embeddings_or_empty. split; intros * Hc; by rewrite Hc.
Qed.

(** C37: without a usable key ([""] or ["test_key"]) there is no client,
    and [embed_texts] returns one empty vector per text instead of
    raising: the request on [None] fails inside the [try]. *)
Theorem embed_texts_without_key cfg model texts :
  cfg.(PERPLEXITY_API_KEY) = "" \/ cfg.(PERPLEXITY_API_KEY) = "test_key" ->
  embed_texts (BaseEmbedder_init cfg model) texts = map (fun _ => []) texts.
Proof.
  intros Hk. destruct texts as [|t texts]; [done|]. unfold embed_texts, embeddings_or_empty, create.
  replace (emb_client _) with false; [done|]. simpl.
  by destruct Hk as [-> | ->].
Qed.
End Embedders.

(** The embedders and the vector store create their client under the
    same condition on the key. *)
Lemma embedder_client_agrees cfg model persisted u :
  (BaseEmbedder_init cfg model).(emb_client) = (VectorStore_init cfg persisted u).(vs_client).
Proof. simpl. by rewrite negb_orb. Qed.

(** ** A lawful codec, for the concrete runs

    Not JSON text: a value is written as the bits of its [Countable]
    code, which is enough to instantiate [JsonCodec] and run the
    theorems that rely on the round-trip law. *)

Definition pyleaf : Type := (string + Z) + ((Z * positive) + bool).

Fixpoint to_tree (v : pyval) : gen_tree pyleaf :=
  match v with
  | VStr s => GenLeaf (inl (inl s))
  | VInt z => GenLeaf (inl (inr z))
  | VFloat q => GenLeaf (inr (inl (Qnum q, Qden q)))
  | VBool b => GenLeaf (inr (inr b))
  | VNone => GenNode 0 []
  | VDict kvs =>
      GenNode 1 [GenNode 0 (map (fun kv => GenLeaf (inl (inl kv.1))) kvs);
                 GenNode 0 (map (fun kv => to_tree kv.2) kvs)]
  | VList l => GenNode 2 (map to_tree l)
  end.

Definition key_of (t : gen_tree pyleaf) : string :=
  match t with GenLeaf (inl (inl s)) => s | _ => EmptyString end.

Fixpoint of_tree (t : gen_tree pyleaf) : pyval :=
  match t with
  | GenLeaf (inl (inl s)) => VStr s
  | GenLeaf (inl (inr z)) => VInt z
  | GenLeaf (inr (inl (n, d))) => VFloat (Qmake n d)
  | GenLeaf (inr (inr b)) => VBool b
  | GenNode 1 [GenNode _ ks; GenNode _ vs] => VDict (zip (map key_of ks) (map of_tree vs))
  | GenNode 2 ts => VList (map of_tree ts)
  | GenNode _ _ => VNone
  end.

Lemma of_to_tree v : of_tree (to_tree v) = v.
Proof.
  revert v. fix IH 1. intros [s|z|[n d]|b| |kvs|l]; simpl; try done.
  - f_equal. revert kvs. fix IHl 1. intros [|[k x] kvs]; [done|]. simpl.
    by rewrite IH, IHl.
  - f_equal. revert l. fix IHl 1. intros [|x l]; [done|]. simpl. by rewrite IH, IHl.
Qed.

(** Equality of values is decided on their trees. *)
#[export] Instance pyval_eq_dec : EqDecision pyval.
Proof.
  intros a b. destruct (decide (to_tree a = to_tree b)) as [H|H]; [left | right].
  - by rewrite <- (of_to_tree a), <- (of_to_tree b), H.
  - by intros ->.
Defined.

#[export] Instance pyval_countable : Countable pyval := inj_countable' to_tree of_tree of_to_tree.

Fixpoint pos_bits (p : positive) : string :=
  match p with
  | xI p => String "1"%char (pos_bits p)
  | xO p => String "0"%char (pos_bits p)
  | xH => EmptyString
  end.

Fixpoint bits_pos (s : string) : positive :=
  match s with
  | EmptyString => xH
  | String c s => if Ascii.eqb c "1"%char then xI (bits_pos s) else xO (bits_pos s)
  end.

Lemma bits_pos_bits p : bits_pos (pos_bits p) = p.
Proof. induction p; simpl; congruence. Qed.

#[local] Program Instance bits_codec : JsonCodec := {|
  json_dumps v := pos_bits (encode v);
  json_loads s := match decode (bits_pos s) with Some v => Ok v | None => Raise ValueError end
|}.
Next Obligation. intros. by rewrite bits_pos_bits, decode_encode. Qed.

(** ** Concrete runs *)

(** An API that answers one vector per text, an OCR that reads nothing
    on image 0, and [Image.open] failing on empty bytes. *)
Abbreviation api1 := (fun (_ : string) (texts : list string) => Ok (A := list (list Q)) (map (fun _ => [1#1]%Q) texts)).
Abbreviation ocr1 := (fun n : nat => if Nat.eqb n 0 then Ok (A := string) "" else Ok " text ").
Abbreviation open1 := (fun b : string => if String.eqb b "" then Raise (A := nat) ValueError else Ok 1%nat).
Abbreviation emb1 := (mkEmbedder "m" true).
Abbreviation fmt0 := (fun _ : pyval => EmptyString).

Lemma embed_images_aligned_witness :
  answers_per_text api1 emb1 (image_texts fmt0 ocr1 (Some [dict_of [("source", VStr "a.pdf")]]) [0%nat; 1%nat]) /\
  length (embed_images api1 fmt0 ocr1 emb1 [0%nat; 1%nat] (Some [dict_of [("source", VStr "a.pdf")]])) = 2%nat.
Proof.
  assert (H : answers_per_text api1 emb1 (image_texts fmt0 ocr1 (Some [dict_of [("source", VStr "a.pdf")]]) [0%nat; 1%nat]))
    by (vm_compute; reflexivity).
  split; [exact H | exact (proj1 (embed_images_aligned _ _ _ _ _ _ H))].
Defined.

Lemma embed_tables_roundtrip_witness :
  create api1 emb1 [py_join nl (map (row_line fmt0) [VDict [("Q", VStr "1")]])] = Ok [[1#1]%Q] /\
  embed_tables api1 fmt0 emb1 [table_chunk "a.pdf" 0 (VInt 2) (json_dumps (VList [VDict [("Q", VStr "1")]])) VNone] =
    [mkItem (py_join nl (map (row_line fmt0) [VDict [("Q", VStr "1")]])) [1#1]%Q
            (without_content (table_chunk "a.pdf" 0 (VInt 2) (json_dumps (VList [VDict [("Q", VStr "1")]])) VNone))].
Proof.
  assert (H : create api1 emb1 [py_join nl (map (row_line fmt0) [VDict [("Q", VStr "1")]])] = Ok [[1#1]%Q])
    by reflexivity.
  split; [exact H | exact (embed_tables_roundtrip _ _ _ _ _ _ _ _ _ H)].
Defined.

Lemma embed_image_bytes_errors_witness :
  embed_image_bytes api1 fmt0 ocr1 open1 emb1 "" None = Raise ValueError /\
  embed_image_bytes api1 fmt0 ocr1 open1 emb1 "x" None =
    Ok (mkItem (image_text fmt0 ocr1 (Some [∅]) 0 1%nat) [1#1]%Q (image_metadata (Some [∅]) 0)).
Proof.
  destruct (embed_image_bytes_errors api1 fmt0 ocr1 open1 emb1 "x" None) as [_ H2].
  destruct (embed_image_bytes_errors api1 fmt0 ocr1 open1 emb1 "" None) as [H1 _].
  split; [apply H1; by eexists|]. apply (proj2 (H2 1%nat eq_refl)). reflexivity.
Defined.

Lemma embed_texts_without_key_witness :
  embed_texts api1 (BaseEmbedder_init (default_config (fun _ => None)) None) ["a"; "b"] = [[]; []].
Proof. apply (embed_texts_without_key api1 (default_config (fun _ => None))). by left. Defined.
