(* ===== verification/PdfUtils.v ===== *)
(** * The PDF utilities ([src/pdf_utils.py])

    [PDFUtils] has three static methods over PyMuPDF, none with a
    [try]: [extract_text_by_page] (a dict from 1-based page numbers to
    the pages' text), [extract_images] (every image of every page with
    its 0-based index on the page) and [get_page_count].  The document is
    the abstract [PdfDoc] of [Extractors]; [doc.extract_image(xref)] and
    [Image.open] are Section variables.  [doc.close()] releases the file
    and does not change what is returned. *)

From S2P Require Import Prelude Chunk Extractors.

(** [doc.extract_image(xref)]: [base_image["image"]] and
    [base_image["ext"]]. *)
Record BaseImage := mkBaseImage { bi_image : string; bi_ext : string }.

Section PdfUtils.
Variable fitz_open : string -> py PdfDoc.
Variable extract_image : Z -> py BaseImage.
Context {Img : Type}.
Variable image_open : string -> py Img.

(** [{"page": ..., "index": ..., "image": ..., "ext": ...}] *)
Record PdfImage := mkPdfImage { pi_page : Z; pi_index : Z; pi_image : Img; pi_ext : string }.

(** [for page_num in range(len(doc)): text_by_page[page_num + 1] = page.get_text()] *)
Fixpoint text_loop (page_num : nat) (pages : list PdfPage) (acc : gmap Z string) : py (gmap Z string) :=
  match pages with
  | [] => Ok acc
  | p :: ps =>
      text <- page_text p ;;
      text_loop (S page_num) ps (<[(Z.of_nat page_num + 1)%Z := text]> acc)
  end.

(** [PDFUtils.extract_text_by_page(pdf_path)] *)
Definition extract_text_by_page (path : string) : py (gmap Z string) :=
  doc <- fitz_open path ;;
  text_loop 0 doc.(doc_pages) ∅.

(** [for img_index, img in enumerate(image_list):], with the dict's
    values evaluated in order. *)
Fixpoint image_loop (page_num img_index : nat) (xrefs : list Z) : py (list PdfImage) :=
  match xrefs with
  | [] => Ok []
  | xref :: xs =>
      base_image <- extract_image xref ;;
      image <- image_open base_image.(bi_image) ;;
      rest <- image_loop page_num (S img_index) xs ;;
      Ok (mkPdfImage (Z.of_nat page_num + 1)%Z (Z.of_nat img_index) image base_image.(bi_ext) :: rest)
  end.

Fixpoint pages_images (page_num : nat) (pages : list PdfPage) : py (list PdfImage) :=
  match pages with
  | [] => Ok []
  | p :: ps =>
      image_list <- page_images p ;;
      here <- image_loop page_num 0 image_list ;;
      rest <- pages_images (S page_num) ps ;;
      Ok (here ++ rest)
  end.

(** [PDFUtils.extract_images(pdf_path)] *)
Definition extract_images (path : string) : py (list PdfImage) :=
  doc <- fitz_open path ;;
  pages_images 0 doc.(doc_pages).

(** [PDFUtils.get_page_count(pdf_path)] *)
Definition get_page_count (path : string) : py nat :=
  doc <- fitz_open path ;;
  Ok (length doc.(doc_pages)).

(** ** Lemmas *)

Lemma text_loop_ok n ps acc m :
  text_loop n ps acc = Ok m ->
  exists texts, py_mapM page_text ps = Ok texts /\
    forall k, m !! k = if bool_decide (Z.of_nat n + 1 <= k < Z.of_nat n + 1 + Z.of_nat (length texts))%Z
                       then texts !! Z.to_nat (k - Z.of_nat n - 1) else acc !! k.
Proof.
  revert n acc; induction ps as [|p ps IH]; intros n acc; simpl.
  - intros [= <-]. exists []. split; [done|]. intros k. rewrite bool_decide_eq_false_2; [done|]. simpl. lia.
  - destruct (page_text p) as [t|e]; simpl; [|done].
    intros (texts & Hm & Hk)%IH. exists (t :: texts). rewrite Hm. split; [done|]. intros k. rewrite Hk.
    simpl length. case_bool_decide; case_bool_decide; try lia.
    + replace (Z.to_nat (k - Z.of_nat (S n) - 1)) with (pred (Z.to_nat (k - Z.of_nat n - 1))) by lia.
      destruct (decide (k = Z.of_nat n + 1)%Z) as [->|Hne]; [lia|].
      replace (Z.to_nat (k - Z.of_nat n - 1)) with (S (pred (Z.to_nat (k - Z.of_nat n - 1)))) by lia. done.
    + assert (k = Z.of_nat n + 1)%Z as -> by lia. rewrite lookup_insert_eq.
      by replace (Z.to_nat (Z.of_nat n + 1 - Z.of_nat n - 1)) with 0 by lia.
    + rewrite lookup_insert_ne; [done|lia].
Qed.

Lemma text_loop_size n ps acc m :
  (forall k, is_Some (acc !! k) -> (k < Z.of_nat n + 1)%Z) ->
  text_loop n ps acc = Ok m -> size m = size acc + length ps.
Proof.
  revert n acc; induction ps as [|p ps IH]; intros n acc Hacc; simpl; [intros [= <-]; lia|].
  destruct (page_text p) as [t|e]; simpl; [|done]. intros Hm.
  rewrite (IH (S n) (<[(Z.of_nat n + 1)%Z := t]> acc)); [| |exact Hm].
  - rewrite map_size_insert_None; [lia|]. destruct (acc !! _) eqn:Ha; [|done].
    assert (is_Some (acc !! (Z.of_nat n + 1)%Z)) as Hs%Hacc by eauto. lia.
  - intros k [v Hv]. destruct (decide (k = Z.of_nat n + 1)%Z) as [->|Hne]; [lia|].
    rewrite lookup_insert_ne in Hv by congruence. assert (is_Some (acc !! k)) as Hs%Hacc by eauto. lia.
Qed.

(** An image [extract_image] and [Image.open] both read. *)
Definition readable (x : Z) : Prop :=
  exists b, extract_image x = Ok b /\ exists im, image_open b.(bi_image) = Ok im.

Lemma image_loop_ok p j xs : Forall readable xs -> exists ims, image_loop p j xs = Ok ims.
Proof.
  intros Hxs. revert j; induction Hxs as [|x xs (b & Hb & im & Him) _ IH]; intros j; simpl; [eauto|].
  rewrite Hb. simpl. rewrite Him. simpl. destruct (IH (S j)) as [ims ->]. simpl. eauto.
Qed.

(** Reading the image [x] raises [e]: [doc.extract_image(xref)] raises,
    or it succeeds and [Image.open] of its bytes raises. *)
Definition image_fails (x : Z) (e : exc) : Prop :=
  extract_image x = Raise e \/ exists b, extract_image x = Ok b /\ image_open b.(bi_image) = Raise e.

Lemma image_loop_raise p j xs i x e :
  xs !! i = Some x -> image_fails x e ->
  (forall i' x', i' < i -> xs !! i' = Some x' -> readable x') ->
  image_loop p j xs = Raise e.
Proof.
  revert j i; induction xs as [|x0 xs IH]; intros j [|i] Hi He Hbefore; simpl in Hi; try done.
  - injection Hi as ->. simpl. destruct He as [He | (b & Hb & He)]; rewrite ?He, ?Hb; simpl; by rewrite ?He.
  - destruct (Hbefore 0 x0 ltac:(lia) eq_refl) as (b & Hb0 & im & Hb). simpl. rewrite Hb0. simpl.
    rewrite Hb. simpl. rewrite (IH (S j) i); [done|done|done|]. intros i' x' Hi' Hx'. apply (Hbefore (S i')); [lia|done].
Qed.

(** A page whose image list is read and all of whose images are. *)
Definition page_readable (pg : PdfPage) : Prop :=
  exists xs, page_images pg = Ok xs /\ Forall readable xs.

Lemma pages_images_raise n pages p pg xrefs i x e :
  pages !! p = Some pg -> page_images pg = Ok xrefs ->
  xrefs !! i = Some x -> image_fails x e ->
  (forall q pg', q < p -> pages !! q = Some pg' -> page_readable pg') ->
  (forall i' x', i' < i -> xrefs !! i' = Some x' -> readable x') ->
  pages_images n pages = Raise e.
Proof.
  intros Hp Hpg Hx He Hbefore Himgs. revert n p Hp Hbefore.
  induction pages as [|pg0 pages IH]; intros n [|p] Hp Hbefore; simpl in Hp; try done.
  - injection Hp as ->. simpl. rewrite Hpg. simpl. by rewrite (image_loop_raise _ _ _ i x e).
  - destruct (Hbefore 0 pg0 ltac:(lia) eq_refl) as (xs0 & Hxs0 & Hr). simpl. rewrite Hxs0. simpl.
    destruct (image_loop_ok n 0 xs0 Hr) as [here ->]. simpl.
    rewrite (IH (S n) p); [done|done|]. intros q pg' Hq Hq'. apply (Hbefore (S q)); [lia|done].
Qed.

(** ** Properties of the PDF utilities *)

(** C38: [extract_text_by_page] and [get_page_count] agree: when the text
    of every page is read, the dict has exactly the keys [1..n], key
    [j + 1] holds the text of page [j], and [get_page_count] returns its
    size. *)
Theorem extract_text_by_page_count path m :
  extract_text_by_page path = Ok m ->
  get_page_count path = Ok (size m) /\
  exists doc texts, fitz_open path = Ok doc /\ py_mapM page_text doc.(doc_pages) = Ok texts /\
    forall j t, texts !! j = Some t <-> m !! (Z.of_nat j + 1)%Z = Some t.
Proof.
  unfold extract_text_by_page, get_page_count. destruct (fitz_open path) as [doc|]; simpl; [|done].
  intros Hm. assert (forall k, is_Some ((∅ : gmap Z string) !! k) -> (k < Z.of_nat 0 + 1)%Z) as H0
    by (intros k [v Hv]; by rewrite lookup_empty in Hv).
  pose proof (text_loop_size 0 _ _ _ H0 Hm) as Hsz. rewrite map_size_empty in Hsz.
  destruct (text_loop_ok _ _ _ _ Hm) as (texts & Ht & Hk). split.
  - by rewrite Hsz.
  - exists doc, texts. split_and!; [done|done|]. intros j t. rewrite Hk.
    destruct (decide (j < length texts)) as [Hj|Hj].
    + rewrite bool_decide_eq_true_2 by lia. by replace (Z.to_nat (Z.of_nat j + 1 - Z.of_nat 0 - 1)) with j by lia.
    + rewrite bool_decide_eq_false_2 by lia. rewrite lookup_empty, lookup_ge_None_2 by lia. done.
Qed.

(** C39: [extract_images] has no [try]: an image that cannot be read,
    because [doc.extract_image] raises or because [Image.open] rejects
    its bytes, after the pages and images before it were read, makes the
    whole call raise with that exception (where [ImageOCR] skips the
    image). *)
Theorem extract_images_raise path doc p pg xrefs i x e :
  fitz_open path = Ok doc -> doc.(doc_pages) !! p = Some pg -> page_images pg = Ok xrefs ->
  xrefs !! i = Some x -> image_fails x e ->
  (forall q pg', q < p -> doc.(doc_pages) !! q = Some pg' -> page_readable pg') ->
  (forall i' x', i' < i -> xrefs !! i' = Some x' -> readable x') ->
  extract_images path = Raise e.
Proof.
  intros Ho Hp Hpg Hx He Hbefore Himgs. unfold extract_images. rewrite Ho. simpl.
  exact (pages_images_raise 0 _ p pg xrefs i x e Hp Hpg Hx He Hbefore Himgs).
Qed.
End PdfUtils.

(** ** Concrete runs *)

(** A two-page document whose third image (on page 2) is extracted but
    has bytes [Image.open] rejects. *)
Abbreviation doc2 := (mkDoc [mkPage (Ok "a") (Ok [1%Z]); mkPage (Ok "b") (Ok [2%Z; 3%Z])]).
Abbreviation fitz2 := (fun _ : string => Ok (A := PdfDoc) doc2).
Abbreviation ximg2 := (fun x : Z => Ok (A := BaseImage) (mkBaseImage (if Z.eqb x 3 then "bad" else "bytes") "png")).
Abbreviation open2 := (fun b : string => if String.eqb b "bad" then Raise (A := unit) ValueError else Ok tt).

Lemma extract_text_by_page_count_witness : get_page_count fitz2 "a.pdf" = Ok 2.
Proof.
  destruct (py_ok_check (extract_text_by_page fitz2 "a.pdf") (fun m => size m = 2))
    as (m & Hm & Hs); [vm_compute; reflexivity|].
  rewrite <- Hs. exact (proj1 (extract_text_by_page_count fitz2 "a.pdf" m Hm)).
Defined.

Lemma extract_images_raise_witness : extract_images fitz2 ximg2 open2 "a.pdf" = Raise ValueError.
Proof.
  apply (extract_images_raise fitz2 ximg2 open2 "a.pdf" doc2 1 (mkPage (Ok "b") (Ok [2%Z; 3%Z])) [2%Z; 3%Z] 1 3%Z);
    try reflexivity.
  - right. eexists. split; reflexivity.
  - intros [|q] pg' Hq Hpg'; [|lia]. injection Hpg' as <-. exists [1%Z]. split; [reflexivity|].
    constructor; [|constructor]. eexists; split; [reflexivity|]. by eexists.
  - intros [|i'] x' Hi' Hx'; [|lia]. injection Hx' as <-. eexists; split; [reflexivity|]. by eexists.
Defined.
