(* ===== verification/Main.v ===== *)
(** * The command-line entry point ([src/main.py])

    Under [if __name__ == "__main__":] the script warns when
    [PERPLEXITY_API_KEY] is unset or empty (after [load_dotenv()], so
    the environment [env] includes the [.env] file), launches
    [python -m streamlit run src/ui/app.py] for the argument ["ui"], and
    prints the usage otherwise.  A run is the list of printed lines and
    the command passed to [subprocess.run], if any. *)

From S2P Require Import Prelude PyStr.

Record MainRun := mkMainRun { printed : list string; launched : option (list string) }.

Definition warning_lines : list string :=
  ["⚠️  WARNING: PERPLEXITY_API_KEY is not set. The LLM features will not work.";
   "   Please create a .env file with your API key."].

(** [if not os.getenv("PERPLEXITY_API_KEY"):] *)
Definition key_missing (env : string -> option string) : bool :=
  match env "PERPLEXITY_API_KEY" with
  | Some v => String.eqb v ""
  | None => true
  end.

(** [[sys.executable, "-m", "streamlit", "run", "src/ui/app.py"]] *)
Definition streamlit_command (python : string) : list string :=
  [python; "-m"; "streamlit"; "run"; "src/ui/app.py"].

(** [len(sys.argv) > 1 and sys.argv[1] == "ui"] *)
Definition ui_requested (argv : list string) : bool :=
  Nat.ltb 1 (length argv) && match argv !! 1 with Some a => String.eqb a "ui" | None => false end.

(** The [__main__] block; [sys.argv[0]] raises [IndexError] on an empty
    argument list. *)
Definition main (env : string -> option string) (python : string) (argv : list string) : py MainRun :=
  let warn := if key_missing env then warning_lines else [] in
  if ui_requested argv then
    Ok (mkMainRun (warn ++ ["Launching Streamlit UI..."]) (Some (streamlit_command python)))
  else
    argv0 <- py_index argv 0 ;;
    let script_name := if Nat.ltb 0 (occ "main.py" argv0) then "main.py" else "app.py" in
    Ok (mkMainRun (warn ++ ["Invalid command. To run the UI, use:"; ("python " ++ script_name ++ " ui")%string;
                            "Or directly:"; "streamlit run src/ui/app.py"])
                  None).

(** C40: [main] returns for every non-empty argument list; it launches
    Streamlit exactly when the first argument is ["ui"], and its output
    starts with the two warning lines exactly when the key is missing. *)
Theorem main_behaviour env python argv :
  argv <> [] ->
  exists r, main env python argv = Ok r /\
    (r.(launched) = Some (streamlit_command python) <-> argv !! 1 = Some "ui") /\
    (r.(launched) = None \/ r.(launched) = Some (streamlit_command python)) /\
    (take 2 r.(printed) = warning_lines <-> key_missing env = true).
Proof.
  intros Hne. unfold main, ui_requested.
  assert (Hui : (Nat.ltb 1 (length argv) && match argv !! 1 with Some a => String.eqb a "ui" | None => false end)
                = true <-> argv !! 1 = Some "ui").
  { destruct (argv !! 1) as [a|] eqn:Ha; simpl.
    - apply lookup_lt_Some in Ha. rewrite (proj2 (Nat.ltb_lt _ _) Ha). simpl.
      rewrite String.eqb_eq. split; congruence.
    - rewrite andb_false_r. split; discriminate. }
  assert (Hw : forall rest, (rest = [] \/ exists l rest', rest = l :: rest' /\ String.prefix "⚠️" l = false) ->
     take 2 ((if key_missing env then warning_lines else []) ++ rest) = warning_lines <-> key_missing env = true).
  { intros rest Hrest. destruct (key_missing env); simpl; [done|].
    split; [|done]. destruct Hrest as [-> | (l & rest' & -> & Hl)]; [done|].
    simpl. intros [= Hl' _]. subst l. vm_compute in Hl. discriminate. }
  destruct (_ && _) eqn:Hb.
  - eexists. split; [reflexivity|]. simpl. split_and!.
    + split; [intros _; by apply Hui|done].
    + by right.
    + apply Hw. right. by eexists _, [].
  - destruct argv as [|a0 argv]; [done|]. simpl. eexists. split; [reflexivity|]. simpl. split_and!.
    + split; [intros Hc; discriminate Hc|]. intros Ha. apply Hui in Ha. discriminate Ha.
    + by left.
    + apply Hw. right. by eexists _, _.
Qed.

Lemma main_behaviour_witness :
  main (fun _ => None) "python3" ["main.py"; "ui"] =
    Ok (mkMainRun (warning_lines ++ ["Launching Streamlit UI..."]) (Some (streamlit_command "python3"))) /\
  exists r, main (fun _ => None) "python3" ["main.py"; "ui"] = Ok r /\
    (r.(launched) = Some (streamlit_command "python3") <-> ["main.py"; "ui"] !! 1 = Some "ui") /\
    (r.(launched) = None \/ r.(launched) = Some (streamlit_command "python3")) /\
    (take 2 r.(printed) = warning_lines <-> key_missing (fun _ => None) = true).
Proof. split; [reflexivity | apply main_behaviour; discriminate]. Defined.
